(** * charm-azure: a shallow embedding of [lib/charms/layer/azure.py]

    The layer is glue around the [az] command line tool, the Juju hook
    tools and the unit's key-value store.  The embedding keeps that shape:
    every operation is a computation over an explicit unit state (the
    key-value store, the trace of [az] invocations, the log and the
    workload status), the outside world (the [az] tool, the HTTP
    endpoint, the file system, the hook tools) is a record of oracles, and
    the Python library functions the module calls but does not define
    ([json], [yaml], [base64], [bytes.decode], [str.format], the regular
    expression engine on patterns with metacharacters) are a second
    record. *)

From Stdlib Require Import ZArith Ascii String List Lia Bool.
From stdpp Require Import base option list gmap strings.

Set Default Proof Using "Type".
Open Scope Z_scope.
Open Scope list_scope.

(** ** Python data *)

(** A Python [str] is a sequence of characters; the characters of the
    model are the 256 code points of [ascii]. *)
Abbreviation str := (list ascii).

Definition lit (s : string) : str := list_ascii_of_string s.

(** A Python [bytes]: what a subprocess writes to its output streams. *)
Abbreviation bytes := (list Byte.byte).

(** The bytes of an ASCII text, one byte for each character. *)
Definition encode (s : str) : bytes := map byte_of_ascii s.

(** The JSON-shaped values that flow through the module: what
    [json.loads] and [yaml.load] return, what the key-value store holds.
    A [dict] keeps its insertion order. *)
#[warnings="-register-all"]
Inductive value : Type :=
| VNone
| VBool (b : bool)
| VInt (z : Z)
| VStr (s : str)
| VList (l : list value)
| VDict (d : list (str * value)).

(** Python truthiness, as used by [if not msi]. *)
Definition truthy (v : value) : bool :=
  match v with
  | VNone => false
  | VBool b => b
  | VInt z => negb (z =? 0)
  | VStr s => negb (Nat.eqb (length s) 0)
  | VList l => negb (Nat.eqb (length l) 0)
  | VDict d => negb (Nat.eqb (length d) 0)
  end.

Definition str_eqb (a b : str) : bool := bool_decide (a = b).

(** [d.get(k)] on the association list of a dict. *)
Fixpoint dict_get (d : list (str * value)) (k : str) : option value :=
  match d with
  | [] => None
  | (k', v) :: d' => if str_eqb k' k then Some v else dict_get d' k
  end.

(** [d[k] = v]: an existing key keeps its position, a new one is appended. *)
Fixpoint dict_set (d : list (str * value)) (k : str) (v : value)
  : list (str * value) :=
  match d with
  | [] => [(k, v)]
  | (k', v') :: d' =>
      if str_eqb k' k then (k', v) :: d' else (k', v') :: dict_set d' k v
  end.

(** ** Exceptions and results *)

(** The exceptions that reach the module's code.  The [HTTPError] of
    [urlopen] is not among them: [_get_tenant_id] handles it on the spot. *)
Inductive exn : Type :=
| AzureError (msg : str)            (* the module's own exception; [e.args[0]] *)
| FileNotFoundError
| CalledProcessError (stderr : bytes)  (* [e.stderr], as the process wrote it *)
| KeyError (k : str)
| TypeError
| AttributeError
| IndexError
| OtherError (name : str).          (* URLError, JSONDecodeError,
                                       UnicodeDecodeError, ... *)


Inductive result (A : Type) : Type :=
| Return (a : A)
| Raise (e : exn).
Arguments Return {A} a.
Arguments Raise {A} e.

(** ** The unit state *)

Inductive log_level := INFO | ERROR.

Record state := mkState {
  kv : gmap str value;                          (* charmhelpers' [kv()] *)
  az_calls : list (list str);                   (* argv of every [az] run, oldest first *)
  http_requests : list str;                     (* every URL given to [urlopen] *)
  log_lines : list (log_level * str * list value);
  unit_status : option str                      (* [status.blocked] message *)
}.

Definition set_kv (m : gmap str value) (st : state) : state :=
  mkState m (az_calls st) (http_requests st) (log_lines st) (unit_status st).
Definition add_call (argv : list str) (st : state) : state :=
  mkState (kv st) (az_calls st ++ [argv]) (http_requests st) (log_lines st)
    (unit_status st).
Definition add_request (url : str) (st : state) : state :=
  mkState (kv st) (az_calls st) (http_requests st ++ [url]) (log_lines st)
    (unit_status st).
Definition add_log (l : log_level) (msg : str) (args : list value) (st : state)
  : state :=
  mkState (kv st) (az_calls st) (http_requests st)
    (log_lines st ++ [(l, msg, args)]) (unit_status st).
Definition set_status (msg : str) (st : state) : state :=
  mkState (kv st) (az_calls st) (http_requests st) (log_lines st) (Some msg).

(** ** The monad of operations: state passing with exceptions.  A raised
    exception keeps the state reached so far. *)
Definition M (A : Type) : Type := state -> result A * state.

Definition ret {A} (a : A) : M A := fun st => (Return a, st).
Definition raise {A} (e : exn) : M A := fun st => (Raise e, st).
Definition bind {A B} (m : M A) (f : A -> M B) : M B :=
  fun st => match m st with
            | (Return a, st') => f a st'
            | (Raise e, st') => (Raise e, st')
            end.
(** [try: m / except <handler>]: the handler decides per exception. *)
Definition try_catch {A} (m : M A) (h : exn -> M A) : M A :=
  fun st => match m st with
            | (Return a, st') => (Return a, st')
            | (Raise e, st') => h e st'
            end.
Definition lift {A} (r : result A) : M A := fun st => (r, st).

Declare Scope py_scope.
Delimit Scope py_scope with py.
Notation "x <- m ;; k" := (bind m (fun x => k))
  (at level 100, m at next level, right associativity) : py_scope.
Notation "m ;;; k" := (bind m (fun _ => k))
  (at level 100, right associativity) : py_scope.
Open Scope py_scope.

(** [kv().get(key, default)] and [kv().set(key, value)].  The store keeps
    serialised copies: what [get] returns is a fresh value, and changing
    it changes the store only through a later [set]. *)
Definition kv_get (key : str) (default : value) : M value :=
  fun st => (Return (match kv st !! key with Some v => v | None => default end), st).
Definition kv_set (key : str) (v : value) : M unit :=
  fun st => (Return tt, set_kv (<[key := v]> (kv st)) st).

(** [log] and [log_err]: [hookenv.log(msg.format( *args ), level)]; the
    entry records the template and its arguments. *)
Definition log (msg : str) (args : list value) : M unit :=
  fun st => (Return tt, add_log INFO msg args st).
Definition log_err (msg : str) (args : list value) : M unit :=
  fun st => (Return tt, add_log ERROR msg args st).

(** [status.blocked(msg)]. *)
Definition status_blocked (msg : str) : M unit :=
  fun st => (Return tt, set_status msg st).

(** ** Strings: the [str] methods and slices the module uses *)

Definition ascii_eqb (a b : ascii) : bool := bool_decide (a = b).
Definition char_in (c : ascii) (cs : list ascii) : bool := existsb (ascii_eqb c) cs.

(** [s.startswith(p)], and the rest of [s] after [p]. *)
Fixpoint strip_prefix (p s : str) : option str :=
  match p, s with
  | [], _ => Some s
  | a :: p', b :: s' => if ascii_eqb a b then strip_prefix p' s' else None
  | _ :: _, [] => None
  end.

Definition startswith (s p : str) : bool :=
  match strip_prefix p s with Some _ => true | None => false end.

(** [q in s] for strings. *)
Fixpoint contains (q s : str) : bool :=
  startswith s q || match s with [] => false | _ :: s' => contains q s' end.

(** [q] occurs in [s] as a contiguous substring. *)
Definition occurs (q s : str) : Prop := exists a b, s = a ++ q ++ b.

(** [str.isspace] on the code points below 256. *)
Definition py_isspace (c : ascii) : bool :=
  let n := nat_of_ascii c in
  ((9 <=? n) && (n <=? 13) || (28 <=? n) && (n <=? 32)
   || (n =? 133) || (n =? 160))%nat.

Fixpoint lstrip (s : str) : str :=
  match s with
  | c :: s' => if py_isspace c then lstrip s' else s
  | [] => []
  end.
Definition rstrip (s : str) : str := rev (lstrip (rev s)).
Definition strip (s : str) : str := rstrip (lstrip s).

(** A slice bound [i] on a sequence of length [n], as Python resolves it:
    a negative bound counts from the end, and the result is clamped. *)
Definition slice_index (n : nat) (i : Z) : nat :=
  if i <? 0 then Z.to_nat (Z.max 0 (i + Z.of_nat n))
  else Z.to_nat (Z.min i (Z.of_nat n)).

(** [s[:i]] and [s[i:]]. *)
Definition slice_to (s : str) (i : Z) : str := firstn (slice_index (length s) i) s.
Definition slice_from (s : str) (i : Z) : str := skipn (slice_index (length s) i) s.

(** ** [_elide] *)

(** [floor(x / 2)] and [ceil(x / 2)] of the true quotient.  The source
    goes through a float, which is exact for every [x] whose magnitude is
    below 2^53, far beyond the length of any string. *)
Definition floor_half (x : Z) : Z := x / 2.
Definition ceil_half (x : Z) : Z := - ((- x) / 2).

Definition default_ellipsis : str := lit "...".

Definition _elide (s : str) (max_len : Z) (ellipsis : str) : str :=
  if Z.of_nat (length s) >? max_len then
    let hl2 := max_len - Z.of_nat (length ellipsis) in
    let headl := floor_half hl2 in
    let taill := ceil_half hl2 in
    slice_to s headl ++ ellipsis ++ slice_from s (- taill)
  else s.

(** ** The regular expressions of the module *)

(** The fragment of [re] syntax that occurs in the source: literal text
    and a greedy star over a negated character class, captured or not. *)
Inductive re_item : Type :=
| RLit (l : str)
| RStarNot (cs : list ascii) (capture : bool).

(** The greedy star over the characters outside [cs], followed by the
    rest of the pattern [k]: it takes as many characters as it can and
    gives them back one by one until [k] matches.  The result carries the
    text the star kept. *)
Fixpoint star_not (cs : list ascii) (k : str -> option (list str * str))
    (s : str) : option (str * (list str * str)) :=
  let stop := match k s with
              | Some r => Some ([], r)
              | None => None
              end in
  match s with
  | c :: s' =>
      if char_in c cs then stop
      else match star_not cs k s' with
           | Some (w, r) => Some (c :: w, r)
           | None => stop
           end
  | [] => stop
  end.

(** Backtracking match of a pattern at the start of [s]: the captured
    groups in order and the text after the match. *)
Fixpoint re_match (p : list re_item) (s : str) : option (list str * str) :=
  match p with
  | [] => Some ([], s)
  | RLit l :: p' =>
      match strip_prefix l s with
      | Some s' => re_match p' s'
      | None => None
      end
  | RStarNot cs cap :: p' =>
      match star_not cs (re_match p') s with
      | Some (w, (gs, r)) => Some (if cap then w :: gs else gs, r)
      | None => None
      end
  end.

(** [re.search]: the match at the leftmost position that has one. *)
Fixpoint re_search (p : list re_item) (s : str) : option (list str) :=
  match re_match p s with
  | Some (gs, _) => Some gs
  | None => match s with
            | [] => None
            | _ :: s' => re_search p s'
            end
  end.

Definition dquote : ascii := "034"%char.
Definition slash : ascii := "/"%char.

(** The pattern of [_get_tenant_id]: the literal
    [authorization_uri=] and a double quote, a greedy run of characters
    other than the quote, a slash, the captured greedy run of characters
    other than slash and quote, and the closing quote. *)
Definition authorization_uri_re : list re_item :=
  [ RLit (lit "authorization_uri=" ++ [dquote]);
    RStarNot [dquote] false;
    RLit [slash];
    RStarNot [slash; dquote] true;
    RLit [dquote] ].

(** The characters with a meaning in [re] syntax. *)
Definition re_metachars : list ascii := lit ".^$*+?{}[]\|()".
Definition re_literal (pat : str) : bool :=
  forallb (fun c => negb (char_in c re_metachars)) pat.

(** [re.sub(pat, repl, s)] for a pattern without metacharacters: every
    non-overlapping occurrence, leftmost first, is replaced.  [skip]
    counts the characters of the current occurrence still to drop. *)
Fixpoint sub_from (pat repl : str) (skip : nat) (s : str) : str :=
  match s with
  | [] => []
  | c :: s' =>
      match skip with
      | S k => sub_from pat repl k s'
      | O => if startswith s pat
             then repl ++ sub_from pat repl (length pat - 1) s'
             else c :: sub_from pat repl 0 s'
      end
  end.

(** The empty pattern matches before every character and at the end. *)
Definition sub_literal (pat repl s : str) : str :=
  match pat with
  | [] => repl ++ flat_map (fun c => c :: repl) s
  | _ :: _ => sub_from pat repl 0 s
  end.

(** ** Operations on values *)

(** [v[k]] for a string key. *)
Definition subscript (v : value) (k : str) : result value :=
  match v with
  | VDict d => match dict_get d k with
               | Some x => Return x
               | None => Raise (KeyError k)
               end
  | _ => Raise TypeError
  end.

(** [v.get(k)]: only a dict has the method. *)
Definition method_get (v : value) (k : str) : result value :=
  match v with
  | VDict d => Return (match dict_get d k with Some x => x | None => VNone end)
  | _ => Raise AttributeError
  end.

(** [v[k] = x] for a string key. *)
Definition setitem (v : value) (k : str) (x : value) : result value :=
  match v with
  | VDict d => Return (VDict (dict_set d k x))
  | _ => Raise TypeError
  end.

(** [k in v] for a string [k]. *)
Definition py_in (k : str) (v : value) : result bool :=
  match v with
  | VDict d => Return (match dict_get d k with Some _ => true | None => false end)
  | VStr s => Return (contains k s)
  | VList l => Return (existsb (fun x => match x with
                                         | VStr s => str_eqb s k
                                         | _ => false
                                         end) l)
  | _ => Raise TypeError
  end.

(** [v[0]] and [v[0] = x]. *)
Definition index0 (v : value) : result value :=
  match v with
  | VList (x :: _) => Return x
  | VList [] => Raise IndexError
  | VStr (c :: _) => Return (VStr [c])
  | VStr [] => Raise IndexError
  | VDict _ => Raise (KeyError (lit "0"))
  | _ => Raise TypeError
  end.
Definition setindex0 (v : value) (x : value) : result value :=
  match v with
  | VList (_ :: l) => Return (VList (x :: l))
  | VList [] => Raise IndexError
  | VDict _ => Raise (KeyError (lit "0"))
  | _ => Raise TypeError
  end.

(** The argument vector of a subprocess must consist of strings. *)
Fixpoint argv_of (args : list value) : option (list str) :=
  match args with
  | [] => Some []
  | VStr s :: args' => match argv_of args' with
                       | Some l => Some (s :: l)
                       | None => None
                       end
  | _ :: _ => None
  end.

(** HTTP response headers, name and value, in order, with the
    case-insensitive access of [http.client.HTTPMessage]: [name in h] is
    [headers_get h name <> None], and [h[name]] is the first value. *)
Definition headers := list (str * str).

Definition lower_char (c : ascii) : ascii :=
  let n := nat_of_ascii c in
  if ((65 <=? n) && (n <=? 90))%nat then ascii_of_nat (n + 32) else c.
Definition lower (s : str) : str := map lower_char s.

Fixpoint headers_get (h : headers) (name : str) : option str :=
  match h with
  | [] => None
  | (k, v) :: h' => if str_eqb (lower k) (lower name) then Some v
                    else headers_get h' name
  end.
(** ** The outside world and the library *)

(** What a subprocess run or an HTTP request comes back with.  The
    output streams are the bytes the process wrote ([stdout=PIPE],
    [stderr=PIPE]); the module decodes them itself. *)
Inductive run_outcome : Type :=
| Completed (returncode : Z) (stdout stderr : bytes)
| NotFound                            (* no such executable: [FileNotFoundError] *)
| RunFails (name : str).              (* any other failure to run it *)

Inductive url_outcome : Type :=
| UrlOk
| UrlHTTPError (hdrs : headers)       (* an error response of the server *)
| UrlFails (name : str).              (* [URLError] and the like *)

(** A library call that fails raises the library's own exception. *)
Definition or_raise {A} (name : string) (o : option A) : result A :=
  match o with
  | Some a => Return a
  | None => Raise (OtherError (lit name))
  end.

Record Env := mkEnv {
  (* the [az] tool: the invocations made so far, this argv, its outcome *)
  az_tool : list (list str) -> list str -> run_outcome;
  urlopen : str -> url_outcome;
  read_text : str -> option str;               (* [Path(p).read_text()] *)
  credential_get : run_outcome;                (* the Juju hook tool *)
  config : list (str * value)                  (* [hookenv.config()] *)
}.

Record Lib := mkLib {
  json_loads : str -> option value;
  json_dumps : value -> str;
  yaml_load : str -> option value;
  b64decode_utf8 : value -> option str;        (* [b64decode(v).decode('utf8')] *)
  decode_utf8 : bytes -> option str;           (* [b.decode('utf8')] *)
  str_format : str -> value -> option str;     (* [template.format(arg)] *)
  py_str : value -> str;                       (* [str(v)] of a non-string *)
  re_sub_meta : str -> str -> str -> option str  (* [re.sub] on other patterns *)
}.

(** The request object handed to the operations. *)
Record request := mkRequest {
  vm_id : str;
  vm_name : str;
  resource_group : str;
  instance_tags : list (str * str)
}.

(** ** The module *)

Definition KEY_SUB_ID : str := lit "charm.azure.sub-id".
Definition KEY_VM_IDENTITIES : str := lit "charm.azure.vm-identities".
Definition KEY_ROLES : str := lit "charm.azure.roles".

Section Layer.
Variable env : Env.
Variable lib : Lib.

(** [str.format] with a single [{}] filled by [v]. *)
Definition format_arg (v : value) : str :=
  match v with
  | VStr s => s
  | _ => py_str lib v
  end.

(** [b.decode('utf8')]: bytes that are no UTF-8 raise
    [UnicodeDecodeError]. *)
Definition decode (b : bytes) : result str :=
  or_raise "UnicodeDecodeError" (decode_utf8 lib b).

(** [_azure(cmd, *args, return_stderr=False)].  Both streams are decoded
    and stripped before the return code is looked at. *)
Definition _azure (cmd : str) (args : list value) (return_stderr : bool)
  : M value :=
  match argv_of (VStr (lit "az") :: VStr cmd :: args) with
  | None => raise TypeError
  | Some argv => fun st =>
      let st' := add_call argv st in
      match az_tool env (az_calls st) argv with
      | Completed returncode out err =>
          match decode out with
          | Raise e => (Raise e, st')
          | Return out =>
              let stdout := strip out in
              match decode err with
              | Raise e => (Raise e, st')
              | Return err =>
                  let stderr := strip err in
                  if negb (returncode =? 0) then (Raise (AzureError stderr), st')
                  else if return_stderr then (Return (VStr stderr), st')
                  else if truthy (VStr stdout)
                       then (or_raise "JSONDecodeError" (json_loads lib stdout), st')
                       else (Return (VStr stdout), st')
              end
          end
      | NotFound => (Raise FileNotFoundError, st')
      | RunFails name => (Raise (OtherError name), st')
      end
  end.

(** [_get_tenant_id(subscription_id)] *)
Definition tenant_url (subscription_id : value) : str :=
  lit "https://management.azure.com/subscriptions/"
    ++ format_arg subscription_id ++ lit "?api-version=2018-03-01-01.6.1".

Definition WWW_AUTHENTICATE : str := lit "WWW-Authenticate".

Definition _get_tenant_id (subscription_id : value) : M value :=
  let url := tenant_url subscription_id in
  fun st =>
    let st := add_request url st in
    match urlopen env url with
    | UrlOk =>
        (log_err (lit "Error getting tenant ID: did not get " ++ [dquote]
                    ++ lit "unauthorized" ++ [dquote] ++ lit " response") [] ;;;
         ret VNone) st
    | UrlHTTPError hdrs =>
        match headers_get hdrs WWW_AUTHENTICATE with
        | None =>
            (log_err (lit "Error getting tenant ID: missing WWW-Authenticate header") [] ;;;
             ret VNone) st
        | Some www_auth =>
            match re_search authorization_uri_re www_auth with
            | None =>
                (log_err (lit "Error getting tenant ID: unable to find in {}")
                   [VStr www_auth] ;;;
                 ret VNone) st
            | Some groups => (Return (VStr (nth 0 groups [])), st)
            end
        end
    | UrlFails name => (Raise (OtherError name), st)
    end.

(** [re.sub(pat, repl, s)] *)
Definition re_sub (pat : value) (repl : str) (s : str) : result str :=
  match pat with
  | VStr p => if re_literal p then Return (sub_literal p repl s)
              else or_raise "re.error" (re_sub_meta lib p repl s)
  | _ => Raise TypeError
  end.

(** The first [try] statement of [login_cli]: the forced logout, with
    [except AzureError: pass]. *)
Definition force_logout : M unit :=
  try_catch
    (log (lit "Forcing logout of Azure CLI") [] ;;;
     _azure (lit "logout") [] false ;;;
     ret tt)
    (fun e => match e with
              | AzureError _ => ret tt
              | _ => raise e
              end).

(** The handler of the second: the three substitutions on [e.args[0]],
    then [raise AzureError(stderr) from None]. *)
Definition raise_redacted (app_id app_pass tenant_id : value) (msg : str)
  : M unit :=
  stderr <- lift (re_sub app_id (lit "<app-id>") msg) ;;
  stderr <- lift (re_sub app_pass (lit "<app-pass>") stderr) ;;
  stderr <- lift (re_sub tenant_id (lit "<tenant-id>") stderr) ;;
  raise (AzureError stderr).

(** The second [try] statement of [login_cli]: the login, with
    [except AzureError as e]. *)
Definition service_principal_login (app_id app_pass sub_id tenant_id : value)
  : M unit :=
  try_catch
    (log (lit "Logging in to Azure CLI") [] ;;;
     _azure (lit "login")
       [VStr (lit "--service-principal");
        VStr (lit "-u"); app_id;
        VStr (lit "-p"); app_pass;
        VStr (lit "-t"); tenant_id] false ;;;
     kv_set KEY_SUB_ID sub_id)
    (fun e => match e with
              | AzureError msg => raise_redacted app_id app_pass tenant_id msg
              | _ => raise e
              end).

(** [login_cli(creds_data)] *)
Definition login_cli (creds_data : value) : M unit :=
  app_id <- lift (subscript creds_data (lit "application-id")) ;;
  app_pass <- lift (subscript creds_data (lit "application-password")) ;;
  sub_id <- lift (subscript creds_data (lit "subscription-id")) ;;
  tenant_id <- _get_tenant_id sub_id ;;
  force_logout ;;;
  service_principal_login app_id app_pass sub_id tenant_id.

(** [subprocess.run(['credential-get'], check=True, ...)]: the bytes of
    the standard output, or with a nonzero return code the
    [CalledProcessError] that carries the bytes of the standard error. *)
Definition run_credential_get : M bytes :=
  match credential_get env with
  | Completed returncode out err =>
      if negb (returncode =? 0) then raise (CalledProcessError err)
      else ret out
  | NotFound => raise FileNotFoundError
  | RunFails name => raise (OtherError name)
  end.

(** The first [try] statement of [get_credentials]: Juju's trust
    feature.  It either returns [True] or falls through with the message
    to report when no credentials are configured. *)
Definition credentials_from_trust (no_creds_msg : str) : M (bool + str) :=
  try_catch
    (stdout <- run_credential_get ;;
     text <- lift (decode stdout) ;;
     creds <- lift (or_raise "YAMLError" (yaml_load lib text)) ;;
     c <- lift (subscript creds (lit "credential")) ;;
     creds_data <- lift (subscript c (lit "attributes")) ;;
     login_cli creds_data ;;;
     ret (inl true))
    (fun e => match e with
              | FileNotFoundError => ret (inr no_creds_msg)
              | CalledProcessError stderr =>
                  (* [e.stderr.decode('utf8')] runs inside the handler: what
                     it raises leaves [get_credentials] *)
                  text <- lift (decode stderr) ;;
                  if negb (contains (lit "permission denied") text)
                  then raise e
                  else ret (inr (lit "missing credentials access; grant with: juju trust"))
              | _ => raise e
              end).

(** The second: the credentials of the charm config, with
    [except Exception]. *)
Definition credentials_from_config (credentials : value) : M bool :=
  try_catch
    (creds_data <- lift (or_raise "binascii.Error"
                           (b64decode_utf8 lib credentials)) ;;
     login_cli (VStr creds_data) ;;;
     ret true)
    (fun _ =>
       status_blocked (lit "invalid value for credentials config") ;;;
       ret false).

(** [get_credentials()] *)
Definition get_credentials : M bool :=
  r <- credentials_from_trust (lit "missing credentials; set credentials config") ;;
  match r with
  | inl b => ret b
  | inr no_creds_msg =>
      credentials <- lift (subscript (VDict (config env)) (lit "credentials")) ;;
      if truthy credentials then credentials_from_config credentials
      else
        status_blocked no_creds_msg ;;;
        ret false
  end.

(** [_get_msi(vm_id)] *)
Definition _get_msi (vm_id : str) : M value :=
  vm_identities <- kv_get KEY_VM_IDENTITIES (VDict []) ;;
  lift (method_get vm_identities vm_id).

(** [ensure_msi(request)] *)
Definition ensure_msi (req : request) : M unit :=
  msi <- _get_msi (vm_id req) ;;
  msi <- (if negb (truthy msi) then
            log (lit "Enabling Managed Service Identity") [] ;;;
            result <- _azure (lit "vm")
                        [VStr (lit "identity"); VStr (lit "assign");
                         VStr (lit "--name"); VStr (vm_name req);
                         VStr (lit "--resource-group"); VStr (resource_group req)]
                        false ;;
            vm_identities <- kv_get KEY_VM_IDENTITIES (VDict []) ;;
            msi <- lift (subscript result (lit "systemAssignedIdentity")) ;;
            vm_identities <- lift (setitem vm_identities (vm_id req) msi) ;;
            kv_set KEY_VM_IDENTITIES vm_identities ;;;
            ret msi
          else ret msi) ;;
  log (lit "Instance MSI is: {}") [msi].

(** [tag_instance(request)] *)
Definition tag_instance (req : request) : M unit :=
  log (lit "Tagging instance with: {}")
    [VDict (map (fun tv => (fst tv, VStr (snd tv))) (instance_tags req))] ;;;
  _azure (lit "vm")
    ([VStr (lit "update");
      VStr (lit "--name"); VStr (vm_name req);
      VStr (lit "--resource-group"); VStr (resource_group req);
      VStr (lit "--set")]
     ++ map (fun tv => VStr (lit "tags." ++ fst tv ++ lit "=" ++ snd tv))
          (instance_tags req))
    false ;;;
  ret tt.

(** The [try] statement of [_get_role]: the role is created, and an
    [AzureError] saying that it already exists is passed over. *)
Definition create_role_definition (role_fullname : str) (role_data : value)
  : M unit :=
  try_catch
    (log (lit "Ensuring role {}") [VStr role_fullname] ;;;
     _azure (lit "role")
       [VStr (lit "definition"); VStr (lit "create");
        VStr (lit "--role-definition"); VStr (json_dumps lib role_data)]
       false ;;;
     ret tt)
    (fun e => match e with
              | AzureError msg =>
                  if negb (contains (lit "already exists") msg)
                  then raise e
                  else ret tt
              | _ => raise e
              end).

(** [_get_role(role_name)] *)
Definition _get_role (role_name : str) : M value :=
  known_roles <- kv_get KEY_ROLES (VDict []) ;;
  known <- lift (py_in role_name known_roles) ;;
  if known then lift (subscript known_roles role_name)
  else
    sub_id <- kv_get KEY_SUB_ID VNone ;;
    let role_file := lit "files/roles/" ++ role_name ++ lit ".json" in
    text <- lift (match read_text env role_file with
                  | Some t => Return t
                  | None => Raise FileNotFoundError
                  end) ;;
    role_data <- lift (or_raise "JSONDecodeError" (json_loads lib text)) ;;
    name <- lift (subscript role_data (lit "Name")) ;;
    role_fullname <- lift (match name with
                           | VStr t => or_raise "ValueError" (str_format lib t sub_id)
                           | _ => Raise AttributeError
                           end) ;;
    scopes <- lift (subscript role_data (lit "AssignableScopes")) ;;
    scope0 <- lift (index0 scopes) ;;
    scope <- lift (match scope0 with
                   | VStr t => or_raise "ValueError" (str_format lib t sub_id)
                   | _ => Raise AttributeError
                   end) ;;
    role_data <- lift (setitem role_data (lit "Name") (VStr role_fullname)) ;;
    scopes <- lift (subscript role_data (lit "AssignableScopes")) ;;
    scopes <- lift (setindex0 scopes (VStr scope)) ;;
    role_data <- lift (setitem role_data (lit "AssignableScopes") scopes) ;;
    create_role_definition role_fullname role_data ;;;
    (* [known_roles[role_name] = role_fullname] changes the dict that
       [kv().get] handed out; nothing writes it back to the store *)
    known_roles <- lift (setitem known_roles role_name (VStr role_fullname)) ;;
    ret (VStr role_fullname).

(** [_assign_role(request, role_name)] *)
Definition _assign_role (req : request) (role_name : value) : M unit :=
  msi <- _get_msi (vm_id req) ;;
  _azure (lit "role")
    [VStr (lit "assignment"); VStr (lit "create");
     VStr (lit "--assignee-object-id"); msi;
     VStr (lit "--resource-group"); VStr (resource_group req);
     VStr (lit "--role"); role_name] false ;;;
  ret tt.

Definition enable_instance_inspection (req : request) : M unit :=
  log (lit "Enabling instance inspection") [] ;;;
  role <- _get_role (lit "vm-reader") ;;
  _assign_role req role.

Definition enable_network_management (req : request) : M unit :=
  log (lit "Enabling network management") [] ;;;
  _assign_role req (VStr (lit "Network Contributor")).

Definition enable_security_management (req : request) : M unit :=
  log (lit "Enabling security management") [] ;;;
  _assign_role req (VStr (lit "Security Manager")).

Definition enable_block_storage_management (req : request) : M unit :=
  log (lit "Enabling block storage management") [] ;;;
  role <- _get_role (lit "disk-manager") ;;
  _assign_role req role.

Definition enable_dns_management (req : request) : M unit :=
  log (lit "Enabling DNS management") [] ;;;
  _assign_role req (VStr (lit "DNS Zone Contributor")).

Definition enable_object_storage_access (req : request) : M unit :=
  log (lit "Enabling object storage read") [] ;;;
  _assign_role req (VStr (lit "Storage Blob Data Reader (Preview)")).

Definition enable_object_storage_management (req : request) : M unit :=
  log (lit "Enabling object store management") [] ;;;
  _assign_role req (VStr (lit "Storage Blob Data Contributor (Preview)")).

(** [cleanup()] *)
Definition cleanup : M unit := ret tt.

End Layer.

(** * Notions used in the statements *)

(** ** [_azure] *)

(** What [_azure] returns when the tool exits with code zero. *)
Definition azure_success (lib : Lib) (return_stderr : bool) (out err : str)
  : result value :=
  if return_stderr then Return (VStr (strip err))
  else match strip out with
       | [] => Return (VStr [])
       | _ :: _ => or_raise "JSONDecodeError" (json_loads lib (strip out))
       end.

(** ** [ensure_msi] *)

(** The VM-to-MSI map of the store, and the identity it records. *)
Definition identities_of (st : state) : list (str * value) :=
  match kv st !! KEY_VM_IDENTITIES with
  | Some (VDict d) => d
  | _ => []
  end.

Definition recorded_identity (st : state) (vm : str) : option value :=
  dict_get (identities_of st) vm.

(** An identity is recorded for [vm]: the map has a non-empty entry. *)
Definition has_identity (st : state) (vm : str) : bool :=
  match recorded_identity st vm with
  | Some v => truthy v
  | None => false
  end.

(** The entry of the store is a map whenever it is there. *)
Definition identities_wf (st : state) : Prop :=
  kv st !! KEY_VM_IDENTITIES = None
  \/ exists d, kv st !! KEY_VM_IDENTITIES = Some (VDict d).

Definition assign_identity_argv (req : request) : list str :=
  [lit "az"; lit "vm"; lit "identity"; lit "assign";
   lit "--name"; vm_name req; lit "--resource-group"; resource_group req].

(** ** The invocations an operation makes *)

Fixpoint list_prefix_b (p l : list str) : bool :=
  match p, l with
  | [], _ => true
  | a :: p', b :: l' => str_eqb a b && list_prefix_b p' l'
  | _ :: _, [] => false
  end.

(** [az role definition create ...] and [az role assignment create ...]. *)
Definition is_role_creation (argv : list str) : bool :=
  list_prefix_b [lit "az"; lit "role"; lit "definition"; lit "create"] argv.
Definition is_role_assignment (argv : list str) : bool :=
  list_prefix_b [lit "az"; lit "role"; lit "assignment"; lit "create"] argv.

Fixpoint count_if {A} (p : A -> bool) (l : list A) : nat :=
  match l with
  | [] => 0%nat
  | x :: l' => ((if p x then 1 else 0) + count_if p l')%nat
  end.

(** The role cache of the store has an entry for [role_name]. *)
Definition role_cached (st : state) (role_name : str) : bool :=
  match kv st !! KEY_ROLES with
  | Some (VDict d) => match dict_get d role_name with
                      | Some _ => true
                      | None => false
                      end
  | _ => false
  end.

Definition role_creation_argv (lib : Lib) (role_data : value) : list str :=
  [lit "az"; lit "role"; lit "definition"; lit "create";
   lit "--role-definition"; json_dumps lib role_data].

Definition role_assignment_argv (msi rg role : str) : list str :=
  [lit "az"; lit "role"; lit "assignment"; lit "create";
   lit "--assignee-object-id"; msi; lit "--resource-group"; rg;
   lit "--role"; role].

(** ** The public operations *)

(** The seven [enable_*] operations, and the short name of the custom
    role each one has [_get_role] ensure, if any. *)
Inductive enable_op : Type :=
| InstanceInspection
| NetworkManagement
| SecurityManagement
| BlockStorageManagement
| DnsManagement
| ObjectStorageAccess
| ObjectStorageManagement.

Definition run_enable (env : Env) (lib : Lib) (op : enable_op) : request -> M unit :=
  match op with
  | InstanceInspection => enable_instance_inspection env lib
  | NetworkManagement => enable_network_management env lib
  | SecurityManagement => enable_security_management env lib
  | BlockStorageManagement => enable_block_storage_management env lib
  | DnsManagement => enable_dns_management env lib
  | ObjectStorageAccess => enable_object_storage_access env lib
  | ObjectStorageManagement => enable_object_storage_management env lib
  end.

Definition custom_role (op : enable_op) : option str :=
  match op with
  | InstanceInspection => Some (lit "vm-reader")
  | BlockStorageManagement => Some (lit "disk-manager")
  | _ => None
  end.

(** The invocations [l] that an [enable_*] operation ending in [r] has
    added to the trace: how many of each kind, and when. *)
Record enable_calls (st : state) (op : enable_op) (r : result unit)
    (l : list (list str)) : Prop := {
  ec_assignments : (count_if is_role_assignment l <= 1)%nat;
  ec_creations : (count_if is_role_creation l <= 1)%nat;
  ec_nothing_else :
    length l = (count_if is_role_creation l + count_if is_role_assignment l)%nat;
  ec_builtin : custom_role op = None -> count_if is_role_creation l = 0%nat;
  ec_cached : forall name, custom_role op = Some name ->
                           role_cached st name = true ->
                           count_if is_role_creation l = 0%nat;
  ec_returns : r = Return tt -> count_if is_role_assignment l = 1%nat
}.

(** ** The regular expression matcher *)

(** What it means for a pattern to match a text [w] with groups [gs]. *)
Inductive matches : list re_item -> str -> list str -> Prop :=
| matches_nil : matches [] [] []
| matches_lit l p w gs :
    matches p w gs -> matches (RLit l :: p) (l ++ w) gs
| matches_star cs cap p u w gs :
    Forall (fun c => char_in c cs = false) u ->
    matches p w gs ->
    matches (RStarNot cs cap :: p) (u ++ w) (if cap then u :: gs else gs).

(** ** [_get_tenant_id] *)

Definition AUTHORIZATION_URI : str := lit "authorization_uri=" ++ [dquote].

(** The header [hdr] reads [pre authorization_uri=Q body / seg Q post],
    where [Q] is the double quote, [body] has no quote, and [seg], the
    final path segment, has neither quote nor slash. *)
Definition auth_uri_match (hdr pre body seg post : str) : Prop :=
  hdr = pre ++ AUTHORIZATION_URI ++ body ++ slash :: seg ++ dquote :: post
  /\ ~ In dquote body /\ ~ In dquote seg /\ ~ In slash seg.

(** The header has a match, and [pre], [seg] are those of its leftmost
    one. *)
Definition leftmost_segment (hdr seg : str) : Prop :=
  exists pre body post,
    auth_uri_match hdr pre body seg post
    /\ forall pre' body' seg' post',
        auth_uri_match hdr pre' body' seg' post' ->
        (length pre <= length pre')%nat
        /\ (length pre' = length pre -> seg' = seg).

Definition TENANT_URL_PREFIX : str := lit "https://management.azure.com/subscriptions/".
Definition TENANT_URL_QUERY : str := lit "?api-version=2018-03-01-01.6.1".

(** ** [login_cli]: the redacted error *)

(** The replacement text [rep] keeps [q] apart: an occurrence of [q] in a
    text around [rep] lies on one side of it. *)
Definition blocks (rep q : str) : Prop :=
  forall u v, occurs q (u ++ rep ++ v) -> occurs q u \/ occurs q v.

Definition lt_char : ascii := "<"%char.
Definition gt_char : ascii := ">"%char.

(** The message of the error [login_cli] raises, when the three
    credentials are patterns without metacharacters. *)
Definition redact (app_id app_pass tenant_id msg : str) : str :=
  sub_literal tenant_id (lit "<tenant-id>")
    (sub_literal app_pass (lit "<app-pass>")
       (sub_literal app_id (lit "<app-id>") msg)).

(** A credential the substitutions are sure to remove: it is not empty,
    has no metacharacter and no angle bracket, and is not itself part of
    the name of a placeholder. *)
Definition redactable (q : str) : bool :=
  negb (Nat.eqb (length q) 0) && re_literal q
  && negb (char_in lt_char q) && negb (char_in gt_char q)
  && negb (contains q (lit "app-id"))
  && negb (contains q (lit "app-pass"))
  && negb (contains q (lit "tenant-id")).

Definition login_argv (app_id app_pass tenant_id : value) : list value :=
  [VStr (lit "--service-principal");
   VStr (lit "-u"); app_id; VStr (lit "-p"); app_pass; VStr (lit "-t"); tenant_id].

(** ** The [except] clauses *)

(** A [try] statement whose only clause is [except AzureError]: the body
    ended as [z]; on a normal end [on_return] follows, an [AzureError] is
    given to [on_azure], and every other exception goes on to the caller
    as it is. *)
Definition except_azure {A} (z : result A * state)
    (on_return : M unit) (on_azure : str -> M unit) : result unit * state :=
  match z with
  | (Return _, st) => on_return st
  | (Raise (AzureError msg), st) => on_azure msg st
  | (Raise e, st) => (Raise e, st)
  end.



Definition enable_message (op : enable_op) : str :=
  match op with
  | InstanceInspection => lit "Enabling instance inspection"
  | NetworkManagement => lit "Enabling network management"
  | SecurityManagement => lit "Enabling security management"
  | BlockStorageManagement => lit "Enabling block storage management"
  | DnsManagement => lit "Enabling DNS management"
  | ObjectStorageAccess => lit "Enabling object storage read"
  | ObjectStorageManagement => lit "Enabling object store management"
  end.

(** The role an operation assigns: a built-in one, or what [_get_role]
    returns for its custom role. *)
Definition role_of (env : Env) (lib : Lib) (op : enable_op) : M value :=
  match op with
  | InstanceInspection => _get_role env lib (lit "vm-reader")
  | NetworkManagement => ret (VStr (lit "Network Contributor"))
  | SecurityManagement => ret (VStr (lit "Security Manager"))
  | BlockStorageManagement => _get_role env lib (lit "disk-manager")
  | DnsManagement => ret (VStr (lit "DNS Zone Contributor"))
  | ObjectStorageAccess => ret (VStr (lit "Storage Blob Data Reader (Preview)"))
  | ObjectStorageManagement =>
      ret (VStr (lit "Storage Blob Data Contributor (Preview)"))
  end.

(** ** Sample worlds, used to run the operations on concrete inputs *)

Module Sample.

(** [{Q key Q: Q val Q}] with [Q] the double quote: a one-entry JSON
    object as text. *)
Definition json_obj1 (key val : string) : str :=
  lit "{" ++ [dquote] ++ lit key ++ [dquote] ++ lit ": "
    ++ [dquote] ++ lit val ++ [dquote] ++ lit "}".

Definition identity_json : str := json_obj1 "systemAssignedIdentity" "msi-0001".
Definition role_file_text : str := lit "vm-reader.json".
Definition role_template : value :=
  VDict [(lit "Name", VStr (lit "juju-vm-reader-{}"));
         (lit "AssignableScopes", VList [VStr (lit "/subscriptions/{}")])].

(** The decoder of the samples reads ASCII, one character for each byte,
    and refuses every input with a byte above 127. *)
Definition is_ascii_byte (b : Byte.byte) : bool :=
  match ascii_of_byte b with
  | Ascii _ _ _ _ _ _ _ high => negb high
  end.

Definition decode_ascii (b : bytes) : option str :=
  if forallb is_ascii_byte b then Some (map ascii_of_byte b) else None.

(** A library that knows the documents of the samples. *)
Definition lib : Lib :=
  {| json_loads := fun s =>
       if str_eqb s identity_json
       then Some (VDict [(lit "systemAssignedIdentity", VStr (lit "msi-0001"))])
       else if str_eqb s role_file_text then Some role_template
       else None;
     json_dumps := fun _ => lit "<role definition>";
     yaml_load := fun _ => None;
     b64decode_utf8 := fun _ => None;
     decode_utf8 := decode_ascii;
     str_format := fun t v =>
       Some (sub_literal (lit "{}")
               (match v with VStr s => s | _ => lit "None" end) t);
     py_str := fun _ => lit "None";
     re_sub_meta := fun _ _ _ => None |}.

(** A world whose [az] always answers the same way. *)
Definition env_const (o : run_outcome) : Env :=
  {| az_tool := fun _ _ => o;
     urlopen := fun _ => UrlOk;
     read_text := fun p =>
       if str_eqb p (lit "files/roles/vm-reader.json")
       then Some role_file_text else None;
     credential_get := NotFound;
     config := [(lit "credentials", VStr [])] |}.

Definition st0 : state := mkState ∅ [] [] [] None.

Definition req : request :=
  {| vm_id := lit "vm-1"; vm_name := lit "juju-0"; resource_group := lit "rg";
     instance_tags := [(lit "owner", lit "k8s")] |}.

End Sample.

Module Scenario.

(** The store after a login and an [ensure_msi]. *)
Definition st_ready : state :=
  mkState (<[KEY_SUB_ID := VStr (lit "sub-1")]>
             (<[KEY_VM_IDENTITIES := VDict [(lit "vm-1", VStr (lit "msi-0001"))]]> ∅))
    [] [] [] None.

(** A world in which every [az] command succeeds silently, and one in
    which every command is refused. *)
Definition env_ok : Env := Sample.env_const (Completed 0 [] []).
Definition env_refused : Env :=
  Sample.env_const (Completed 1 [] (encode (lit "ERROR: AuthorizationFailed"))).

Definition vm_reader_data : value :=
  VDict [(lit "Name", VStr (lit "juju-vm-reader-sub-1"));
         (lit "AssignableScopes", VList [VStr (lit "/subscriptions/sub-1")])].

End Scenario.

Module TenantSample.

(** The challenge Azure answers an unauthorized request with. *)
Definition www_auth : str :=
  lit "Bearer authorization_uri=" ++ [dquote]
    ++ lit "https://login.windows.net/72f988bf-86f1" ++ [dquote]
    ++ lit ", error=" ++ [dquote] ++ lit "invalid_token" ++ [dquote].

Definition env : Env :=
  {| az_tool := fun _ _ => Completed 0 [] [];
     urlopen := fun _ => UrlHTTPError [(lit "www-authenticate", www_auth)];
     read_text := fun _ => None;
     credential_get := NotFound;
     config := [] |}.

End TenantSample.

Module LoginSample.

(** A world where the API names the tenant and [az login] is refused with
    a message that repeats what it was given. *)
Definition env (login_stderr : str) : Env :=
  {| az_tool := fun _ argv =>
       if list_prefix_b [lit "az"; lit "login"] argv
       then Completed 1 [] (encode login_stderr)
       else Completed 0 [] [];
     urlopen := fun _ => UrlHTTPError [(lit "WWW-Authenticate", TenantSample.www_auth)];
     read_text := fun _ => None;
     credential_get := NotFound;
     config := [(lit "credentials", VStr [])] |}.

Definition creds (app_id app_pass : string) : value :=
  VDict [(lit "application-id", VStr (lit app_id));
         (lit "application-password", VStr (lit app_pass));
         (lit "subscription-id", VStr (lit "sub-1"))].

Definition refusal : str :=
  lit "ERROR: AADSTS7000215: Invalid client secret S3cr3t-value for app 1b2c3d4e in 72f988bf-86f1 ".

Definition short_refusal : str := lit "ERROR: did not accept pass".

End LoginSample.

Module TrustSample.

(** A unit whose config carries credentials, and a library that decodes
    them to text. *)
Definition env_configured : Env :=
  {| az_tool := fun _ _ => Completed 0 [] [];
     urlopen := fun _ => UrlOk;
     read_text := fun _ => None;
     credential_get := NotFound;
     config := [(lit "credentials", VStr (lit "YXBwbGljYXRpb24taWQ6IHg="))] |}.

Definition lib_decoding : Lib :=
  {| json_loads := json_loads Sample.lib;
     json_dumps := json_dumps Sample.lib;
     yaml_load := yaml_load Sample.lib;
     b64decode_utf8 := fun _ => Some (lit "application-id: x");
     decode_utf8 := decode_utf8 Sample.lib;
     str_format := str_format Sample.lib;
     py_str := py_str Sample.lib;
     re_sub_meta := re_sub_meta Sample.lib |}.

(** A unit that Juju has not granted access to the credentials. *)
Definition env_untrusted : Env :=
  {| az_tool := fun _ _ => Completed 0 [] [];
     urlopen := fun _ => UrlOk;
     read_text := fun _ => None;
     credential_get := Completed 1 [] (encode (lit "ERROR permission denied"));
     config := [(lit "credentials", VStr [])] |}.

End TrustSample.

(** * Further notions *)

(** The argument vectors of the logout and of the login. *)
Definition logout_argv : list str := [lit "az"; lit "logout"].

Definition login_argv_str (app_id app_pass tenant_id : str) : list str :=
  [lit "az"; lit "login"; lit "--service-principal";
   lit "-u"; app_id; lit "-p"; app_pass; lit "-t"; tenant_id].

(** The three keys [login_cli] reads from the credentials, in order. *)
Definition credential_keys : list str :=
  [lit "application-id"; lit "application-password"; lit "subscription-id"].

Module LoginRuns.

(** Credentials as Juju hands them over, and the same without the
    password. *)
Definition creds : value := LoginSample.creds "1b2c3d4e" "S3cr3t-value".

Definition creds_without_password : list (str * value) :=
  [(lit "application-id", VStr (lit "1b2c3d4e"));
   (lit "subscription-id", VStr (lit "sub-1"))].

(** A world where the API does not answer with an error, so that no
    tenant is found; [az] accepts every command. *)
Definition env_no_tenant : Env := Scenario.env_ok.

End LoginRuns.

(** The two status messages of [get_credentials] for a unit without
    credentials, and the one for credentials it could not use. *)
Definition MSG_NO_CREDS : str := lit "missing credentials; set credentials config".
Definition MSG_NO_ACCESS : str :=
  lit "missing credentials access; grant with: juju trust".
Definition MSG_INVALID_CONFIG : str := lit "invalid value for credentials config".

Module TrustRuns.

(** What [credential-get] prints, as [yaml.load] reads it. *)
Definition credential_doc : value :=
  VDict [(lit "credential", VDict [(lit "attributes", LoginRuns.creds)])].

Definition lib_yaml : Lib :=
  {| json_loads := json_loads Sample.lib;
     json_dumps := json_dumps Sample.lib;
     yaml_load := fun _ => Some credential_doc;
     b64decode_utf8 := b64decode_utf8 Sample.lib;
     decode_utf8 := decode_utf8 Sample.lib;
     str_format := str_format Sample.lib;
     py_str := py_str Sample.lib;
     re_sub_meta := re_sub_meta Sample.lib |}.

(** A trusted unit: the hook tool answers, the API names the tenant, and
    [az] behaves as [tool] says. *)
Definition env_trusted (tool : list str -> run_outcome) : Env :=
  {| az_tool := fun _ argv => tool argv;
     urlopen := fun _ => UrlHTTPError [(lit "WWW-Authenticate", TenantSample.www_auth)];
     read_text := fun _ => None;
     credential_get := Completed 0 (encode (lit "credential: ...")) [];
     config := [(lit "credentials", VStr [])] |}.

Definition tool_ok (argv : list str) : run_outcome := Completed 0 [] [].
Definition tool_missing (argv : list str) : run_outcome := NotFound.
Definition tool_refusing (argv : list str) : run_outcome :=
  if list_prefix_b [lit "az"; lit "login"] argv
  then Completed 1 [] (encode (lit "ERROR: refused"))
  else Completed 0 [] [].

End TrustRuns.

(** The arguments [ensure_msi] gives to [_azure], and the two lines it
    logs. *)
Definition assign_identity_args (req : request) : list value :=
  [VStr (lit "identity"); VStr (lit "assign");
   VStr (lit "--name"); VStr (vm_name req);
   VStr (lit "--resource-group"); VStr (resource_group req)].

Definition log_enabling_msi (st : state) : state :=
  add_log INFO (lit "Enabling Managed Service Identity") [] st.
Definition log_instance_msi (msi : value) (st : state) : state :=
  add_log INFO (lit "Instance MSI is: {}") [msi] st.

(** The state in which [ensure_msi] leaves the unit after it has recorded
    the identity [msi], starting from [st]. *)
Definition msi_recorded (req : request) (msi : value) (st : state) : state :=
  log_instance_msi msi
    (set_kv (<[KEY_VM_IDENTITIES :=
                 VDict (dict_set (identities_of st) (vm_id req) msi)]> (kv st))
       (add_call (assign_identity_argv req) (log_enabling_msi st))).

Module MsiRuns.

(** A store that already knows another machine. *)
Definition st_other_vm : state :=
  mkState (<[KEY_SUB_ID := VStr (lit "sub-1")]>
             (<[KEY_VM_IDENTITIES := VDict [(lit "vm-0", VStr (lit "msi-0000"))]]> ∅))
    [] [] [] None.

Definition env_assigning : Env :=
  Sample.env_const (Completed 0 (encode Sample.identity_json) []).

End MsiRuns.

(** ** The role definition that [_get_role] sends *)

(** The subscription ID of the store, [None] before any login. *)
Definition stored_sub_id (st : state) : value :=
  match kv st !! KEY_SUB_ID with
  | Some v => v
  | None => VNone
  end.

(** The entry of the role cache for [role_name], if the cache is a map. *)
Definition cached_role (st : state) (role_name : str) : option value :=
  match kv st !! KEY_ROLES with
  | Some (VDict d) => dict_get d role_name
  | _ => None
  end.

(** The role cache is a map whenever it is there. *)
Definition roles_wf (st : state) : Prop :=
  kv st !! KEY_ROLES = None \/ exists d, kv st !! KEY_ROLES = Some (VDict d).

Definition role_file (role_name : str) : str :=
  lit "files/roles/" ++ role_name ++ lit ".json".

(** [v.format(sub_id)] for a field of the role document. *)
Definition format_field (lib : Lib) (v sub_id : value) : result str :=
  match v with
  | VStr t => or_raise "ValueError" (str_format lib t sub_id)
  | _ => Raise AttributeError
  end.

Definition result_bind {A B} (r : result A) (f : A -> result B) : result B :=
  match r with
  | Return a => f a
  | Raise e => Raise e
  end.

(** The middle of [_get_role], from reading the role file to the two
    assignments into [role_data]: the full name of the role and the
    document that is sent to [az]. *)
Definition role_definition (env : Env) (lib : Lib) (role_name : str)
    (sub_id : value) : result (str * value) :=
  result_bind (match read_text env (role_file role_name) with
               | Some t => Return t
               | None => Raise FileNotFoundError
               end) (fun text =>
  result_bind (or_raise "JSONDecodeError" (json_loads lib text)) (fun role_data =>
  result_bind (subscript role_data (lit "Name")) (fun name =>
  result_bind (format_field lib name sub_id) (fun role_fullname =>
  result_bind (subscript role_data (lit "AssignableScopes")) (fun scopes =>
  result_bind (index0 scopes) (fun scope0 =>
  result_bind (format_field lib scope0 sub_id) (fun scope =>
  result_bind (setitem role_data (lit "Name") (VStr role_fullname)) (fun role_data =>
  result_bind (subscript role_data (lit "AssignableScopes")) (fun scopes =>
  result_bind (setindex0 scopes (VStr scope)) (fun scopes =>
  result_bind (setitem role_data (lit "AssignableScopes") scopes) (fun role_data =>
  Return (role_fullname, role_data)))))))))))).

(** The built-in role of an operation that has one. *)
Definition builtin_role (op : enable_op) : option str :=
  match op with
  | NetworkManagement => Some (lit "Network Contributor")
  | SecurityManagement => Some (lit "Security Manager")
  | DnsManagement => Some (lit "DNS Zone Contributor")
  | ObjectStorageAccess => Some (lit "Storage Blob Data Reader (Preview)")
  | ObjectStorageManagement => Some (lit "Storage Blob Data Contributor (Preview)")
  | InstanceInspection | BlockStorageManagement => None
  end.

(** The argument vector of [tag_instance]. *)
Definition tag_argv (req : request) : list str :=
  [lit "az"; lit "vm"; lit "update";
   lit "--name"; vm_name req; lit "--resource-group"; resource_group req;
   lit "--set"]
  ++ map (fun tv => lit "tags." ++ fst tv ++ lit "=" ++ snd tv) (instance_tags req).

Module RoleRuns.

(** A store whose role cache knows [vm-reader], as an earlier version of
    the charm, or an operator, may have left it. *)
Definition st_cached : state :=
  mkState (<[KEY_ROLES := VDict [(lit "vm-reader", VStr (lit "juju-vm-reader-old"))]]> ∅)
    [] [] [] None.

(** A world where the role exists already. *)
Definition env_existing : Env :=
  Sample.env_const
    (Completed 1 []
       (encode (lit "ERROR: A custom role with the same name already exists."))).

End RoleRuns.

Module TagRuns.

Definition req_two_tags : request :=
  {| vm_id := lit "vm-1"; vm_name := lit "juju-0"; resource_group := lit "rg";
     instance_tags := [(lit "owner", lit "k8s"); (lit "env", lit "prod")] |}.

End TagRuns.

(** * Properties *)

(** ** Runs of the string functions *)

Example strip_ex : strip (lit "  ERROR: x ") = lit "ERROR: x".
Proof. reflexivity. Qed.
Example elide_ex : _elide (lit "abcdefghij") 7 default_ellipsis = lit "ab...ij".
Proof. reflexivity. Qed.
Example elide_ex8 : _elide (lit "abcdefghij") 8 default_ellipsis = lit "ab...hij".
Proof. reflexivity. Qed.
Example elide_ex3 : _elide (lit "abcdef") 3 default_ellipsis = lit "...abcdef".
Proof. reflexivity. Qed.
Example re_ex :
  re_search authorization_uri_re
    (lit "Bearer authorization_uri=" ++ [dquote]
       ++ lit "https://login.windows.net/72f9" ++ [dquote] ++ lit ", error=x")
  = Some [lit "72f9"].
Proof. reflexivity. Qed.
Example sub_ex : sub_literal (lit "ab") (lit "<x>") (lit "cabababd") = lit "c<x><x><x>d".
Proof. reflexivity. Qed.
Example sub_ex2 : sub_literal (lit "aa") (lit "-") (lit "aaaaa") = lit "--a".
Proof. reflexivity. Qed.
Example sub_ex3 : sub_literal [] (lit "X") (lit "ab") = lit "XaXbX".
Proof. reflexivity. Qed.

(** ** [cleanup] *)

(** C10. [cleanup] is a no-op: in every state it returns normally, makes
    no [az] invocation and leaves every key of the store as it was (the
    state as a whole is unchanged). *)
Theorem cleanup_noop (st : state) :
  fst (cleanup st) = Return tt
  /\ az_calls (snd (cleanup st)) = az_calls st
  /\ (forall k, kv (snd (cleanup st)) !! k = kv st !! k)
  /\ snd (cleanup st) = st.
Proof. unfold cleanup, ret; simpl. auto. Qed.

(** ** [_azure] *)

Lemma or_raise_not_azure {A} name (o : option A) msg :
  or_raise name o <> Raise (AzureError msg).
Proof. destruct o; simpl; congruence. Qed.

Lemma decode_some lib b s : decode_utf8 lib b = Some s -> decode lib b = Return s.
Proof. unfold decode. intros ->. reflexivity. Qed.

Lemma decode_none lib b :
  decode_utf8 lib b = None
  -> decode lib b = Raise (OtherError (lit "UnicodeDecodeError")).
Proof. unfold decode. intros ->. reflexivity. Qed.

Lemma decode_cases lib b :
  (exists s, decode_utf8 lib b = Some s /\ decode lib b = Return s)
  \/ (decode_utf8 lib b = None
      /\ decode lib b = Raise (OtherError (lit "UnicodeDecodeError"))).
Proof. unfold decode. destruct (decode_utf8 lib b); simpl; eauto. Qed.

(** The state after [_azure]: only the trace of invocations can grow. *)
Lemma azure_state env lib cmd args rs st :
  snd (_azure env lib cmd args rs st) = st
  \/ exists argv, argv_of (VStr (lit "az") :: VStr cmd :: args) = Some argv
       /\ snd (_azure env lib cmd args rs st) = add_call argv st.
Proof.
  unfold _azure.
  destruct (argv_of _) as [argv|] eqn:Hargv; [right | left; reflexivity].
  exists argv; split; [reflexivity|].
  destruct (az_tool env (az_calls st) argv) as [rc out err| |name]; simpl; auto.
  destruct (decode lib out); simpl; auto.
  destruct (decode lib err); simpl; auto.
  destruct (rc =? 0); simpl; auto.
  destruct rs; simpl; auto.
  destruct (strip _); simpl; auto.
Qed.

(** [_azure] on a run that completed with streams that decode. *)
Lemma azure_completed env lib cmd args rs st argv rc out err out' err' :
  argv_of (VStr (lit "az") :: VStr cmd :: args) = Some argv ->
  az_tool env (az_calls st) argv = Completed rc out err ->
  decode_utf8 lib out = Some out' ->
  decode_utf8 lib err = Some err' ->
  _azure env lib cmd args rs st
  = (if negb (rc =? 0) then Raise (AzureError (strip err'))
     else azure_success lib rs out' err',
     add_call argv st).
Proof.
  intros Ha Ht Ho He. unfold _azure, azure_success.
  rewrite Ha, Ht, (decode_some _ _ _ Ho), (decode_some _ _ _ He).
  destruct (negb (rc =? 0)); [reflexivity|].
  destruct rs; [reflexivity|].
  destruct (strip out'); reflexivity.
Qed.

(** [_azure] on a run that completed with a stream that does not. *)
Lemma azure_undecodable env lib cmd args rs st argv rc out err :
  argv_of (VStr (lit "az") :: VStr cmd :: args) = Some argv ->
  az_tool env (az_calls st) argv = Completed rc out err ->
  decode_utf8 lib out = None \/ decode_utf8 lib err = None ->
  _azure env lib cmd args rs st
  = (Raise (OtherError (lit "UnicodeDecodeError")), add_call argv st).
Proof.
  intros Ha Ht Hd. unfold _azure. rewrite Ha, Ht.
  destruct (decode_cases lib out) as [(out' & Ho & ->) | (_ & ->)]; [|reflexivity].
  destruct Hd as [Hd | Hd]; [congruence|].
  rewrite (decode_none _ _ Hd). reflexivity.
Qed.

(** The result of a run of [_azure], from what the tool gave back. *)
Lemma azure_result env lib cmd args rs st rz sz argv :
  _azure env lib cmd args rs st = (rz, sz) ->
  argv_of (VStr (lit "az") :: VStr cmd :: args) = Some argv ->
  (forall rc out err out' err',
      az_tool env (az_calls st) argv = Completed rc out err ->
      decode_utf8 lib out = Some out' ->
      decode_utf8 lib err = Some err' ->
      rz = if negb (rc =? 0) then Raise (AzureError (strip err'))
           else azure_success lib rs out' err')
  /\ (forall rc out err,
         az_tool env (az_calls st) argv = Completed rc out err ->
         decode_utf8 lib out = None \/ decode_utf8 lib err = None ->
         rz = Raise (OtherError (lit "UnicodeDecodeError"))).
Proof.
  intros Hz Ha. split.
  - intros rc out err out' err' Ht Ho He.
    rewrite (azure_completed _ _ _ _ _ _ _ _ _ _ _ _ Ha Ht Ho He) in Hz.
    congruence.
  - intros rc out err Ht Hd.
    rewrite (azure_undecodable _ _ _ _ _ _ _ _ _ _ Ha Ht Hd) in Hz.
    congruence.
Qed.

(** C5 (as amended).  Both streams are decoded before the return code is
    looked at.  [_azure] raises [AzureError] exactly when the [az]
    subprocess ran, its two streams are UTF-8 and it exited with a nonzero
    code, and the exception then carries the stripped standard error; when
    it exits with zero and the streams are UTF-8 the result is the stripped
    standard error if [return_stderr] is set, otherwise the stripped
    standard output handed to [json.loads] if it is not empty, and the
    empty string if it is; when a stream is not UTF-8, [_azure] raises
    [UnicodeDecodeError] whatever the return code. *)
Theorem azure_error_iff_nonzero env lib cmd args return_stderr st :
  let r := fst (_azure env lib cmd args return_stderr st) in
  (forall msg,
      r = Raise (AzureError msg) <->
      exists argv rc out err out' err',
        argv_of (VStr (lit "az") :: VStr cmd :: args) = Some argv
        /\ az_tool env (az_calls st) argv = Completed rc out err
        /\ decode_utf8 lib out = Some out'
        /\ decode_utf8 lib err = Some err'
        /\ rc <> 0 /\ msg = strip err')
  /\ (forall argv out err out' err',
        argv_of (VStr (lit "az") :: VStr cmd :: args) = Some argv ->
        az_tool env (az_calls st) argv = Completed 0 out err ->
        decode_utf8 lib out = Some out' ->
        decode_utf8 lib err = Some err' ->
        r = azure_success lib return_stderr out' err')
  /\ (forall argv rc out err,
        argv_of (VStr (lit "az") :: VStr cmd :: args) = Some argv ->
        az_tool env (az_calls st) argv = Completed rc out err ->
        decode_utf8 lib out = None \/ decode_utf8 lib err = None ->
        r = Raise (OtherError (lit "UnicodeDecodeError"))).
Proof.
  cbv zeta. split; [|split].
  - intros msg. split.
    + unfold _azure.
      destruct (argv_of _) as [argv|] eqn:Hargv; [|discriminate].
      destruct (az_tool env (az_calls st) argv) as [rc out err| |name] eqn:Htool;
        [|discriminate|discriminate].
      destruct (decode_cases lib out) as [(out' & Ho & ->) | (_ & ->)];
        [|discriminate].
      destruct (decode_cases lib err) as [(err' & He & ->) | (_ & ->)];
        [|discriminate].
      cbv beta iota zeta.
      destruct (Z.eqb_spec rc 0) as [->|Hrc]; cbn [negb].
      * destruct return_stderr; [discriminate|].
        destruct (truthy _); [|discriminate].
        cbn [fst]. intros H. exfalso. eapply or_raise_not_azure, H.
      * cbn [fst]. intros [= <-]. exists argv, rc, out, err, out', err'. auto 7.
    + intros (argv & rc & out & err & out' & err' & Ha & Ht & Ho & He & Hrc & ->).
      rewrite (azure_completed _ _ _ _ _ _ _ _ _ _ _ _ Ha Ht Ho He).
      destruct (Z.eqb_spec rc 0) as [|_]; [contradiction | reflexivity].
  - intros argv out err out' err' Ha Ht Ho He.
    rewrite (azure_completed _ _ _ _ _ _ _ _ _ _ _ _ Ha Ht Ho He). reflexivity.
  - intros argv rc out err Ha Ht Hd.
    rewrite (azure_undecodable _ _ _ _ _ _ _ _ _ _ Ha Ht Hd). reflexivity.
Qed.

(** The theorem at a run that prints an identity document, at a refused
    run, and at a run whose error output is the single byte [ff]. *)
Lemma azure_error_iff_nonzero_witness :
  fst (_azure (Sample.env_const
                 (Completed 0 (encode (Sample.identity_json ++ lit " ")) []))
         Sample.lib (lit "vm") [VStr (lit "identity")] false Sample.st0)
  = Return (VDict [(lit "systemAssignedIdentity", VStr (lit "msi-0001"))])
  /\ fst (_azure Scenario.env_refused Sample.lib (lit "logout") [] false Sample.st0)
     = Raise (AzureError (lit "ERROR: AuthorizationFailed"))
  /\ fst (_azure (Sample.env_const (Completed 1 [] [Byte.xff])) Sample.lib
            (lit "logout") [] false Sample.st0)
     = Raise (OtherError (lit "UnicodeDecodeError")).
Proof.
  split; [|split].
  - exact (proj1 (proj2 (azure_error_iff_nonzero
                    (Sample.env_const
                       (Completed 0 (encode (Sample.identity_json ++ lit " ")) []))
                    Sample.lib (lit "vm") [VStr (lit "identity")] false Sample.st0))
             [lit "az"; lit "vm"; lit "identity"]
             (encode (Sample.identity_json ++ lit " ")) []
             (Sample.identity_json ++ lit " ") [] eq_refl eq_refl eq_refl eq_refl).
  - apply (proj1 (azure_error_iff_nonzero Scenario.env_refused Sample.lib
                    (lit "logout") [] false Sample.st0)).
    exists logout_argv, 1, [], (encode (lit "ERROR: AuthorizationFailed")), [],
      (lit "ERROR: AuthorizationFailed").
    repeat split. discriminate.
  - exact (proj2 (proj2 (azure_error_iff_nonzero
                    (Sample.env_const (Completed 1 [] [Byte.xff]))
                    Sample.lib (lit "logout") [] false Sample.st0))
             logout_argv 1 [] [Byte.xff] eq_refl eq_refl (or_intror eq_refl)).
Defined.

(** C5 (as stated) fails when [az] writes bytes that are no UTF-8 text: a
    refused command whose error output is the single byte [ff] exits with
    the code 1, and [_azure] raises the [UnicodeDecodeError] of the decoding,
    not an [AzureError]; the same output with the code 0 raises it too,
    where the claim has [_azure] return. *)
Lemma azure_nonzero_without_AzureError :
  let refused := Sample.env_const (Completed 1 [] [Byte.xff]) in
  let accepted := Sample.env_const (Completed 0 [] [Byte.xff]) in
  (az_tool refused [] logout_argv = Completed 1 [] [Byte.xff]
   /\ fst (_azure refused Sample.lib (lit "logout") [] false Sample.st0)
      = Raise (OtherError (lit "UnicodeDecodeError"))
   /\ forall msg, fst (_azure refused Sample.lib (lit "logout") [] false Sample.st0)
                  <> Raise (AzureError msg))
  /\ (az_tool accepted [] logout_argv = Completed 0 [] [Byte.xff]
      /\ forall v, fst (_azure accepted Sample.lib (lit "logout") [] false Sample.st0)
                   <> Return v).
Proof.
  cbv zeta. split; [split; [reflexivity | split; [reflexivity | discriminate]]|].
  split; [reflexivity | discriminate].
Qed.

(** ** Generic facts about the primitives *)

Lemma str_eqb_eq (a b : str) : str_eqb a b = true <-> a = b.
Proof. unfold str_eqb. apply bool_decide_eq_true. Qed.

Lemma str_eqb_refl (a : str) : str_eqb a a = true.
Proof. apply str_eqb_eq. reflexivity. Qed.

Lemma str_eqb_neq (a b : str) : a <> b -> str_eqb a b = false.
Proof. unfold str_eqb. intros H. apply bool_decide_eq_false. exact H. Qed.

Lemma dict_get_set_eq d k v : dict_get (dict_set d k v) k = Some v.
Proof.
  induction d as [|[k' v'] d IH]; simpl.
  - rewrite str_eqb_refl. reflexivity.
  - destruct (str_eqb k' k) eqn:E; simpl; rewrite E; auto.
Qed.

Lemma dict_get_set_ne d k k' v :
  k <> k' -> dict_get (dict_set d k v) k' = dict_get d k'.
Proof.
  intros Hne. induction d as [|[k0 v0] d IH]; simpl.
  - rewrite str_eqb_neq by exact Hne. reflexivity.
  - destruct (str_eqb k0 k) eqn:E; simpl.
    + apply str_eqb_eq in E. subst k0.
      rewrite str_eqb_neq by exact Hne. reflexivity.
    + destruct (str_eqb k0 k'); auto.
Qed.

(** The result and the state of [_azure], case by case. *)
Lemma azure_spec env lib cmd args rs st r st' :
  _azure env lib cmd args rs st = (r, st') ->
  (argv_of (VStr (lit "az") :: VStr cmd :: args) = None
   /\ r = Raise TypeError /\ st' = st)
  \/ (exists argv,
        argv_of (VStr (lit "az") :: VStr cmd :: args) = Some argv
        /\ st' = add_call argv st).
Proof.
  unfold _azure. destruct (argv_of _) as [argv|] eqn:Hargv.
  - intros H. right. exists argv. split; [reflexivity|].
    destruct (az_tool env (az_calls st) argv) as [rc out err| |name];
      simpl in H.
    + destruct (decode lib out); [|congruence].
      destruct (decode lib err); [|congruence].
      destruct (negb (rc =? 0)); [congruence|].
      destruct rs; [congruence|].
      destruct (negb _); congruence.
    + congruence.
    + congruence.
  - intros [= <- <-]. left. auto.
Qed.

(** When [_azure] returns, the tool has been run. *)
Lemma azure_returns env lib cmd args rs st v st' :
  _azure env lib cmd args rs st = (Return v, st') ->
  exists argv,
    argv_of (VStr (lit "az") :: VStr cmd :: args) = Some argv
    /\ st' = add_call argv st.
Proof.
  intros H. destruct (azure_spec _ _ _ _ _ _ _ _ H) as [(_ & Hr & _)|Hx].
  - discriminate.
  - exact Hx.
Qed.

(** ** [ensure_msi] *)

Lemma get_msi_wf st vm :
  identities_wf st ->
  _get_msi vm st
  = (Return (match recorded_identity st vm with Some v => v | None => VNone end), st).
Proof.
  unfold _get_msi, recorded_identity, identities_of, bind, kv_get, lift.
  intros [H | [d H]]; rewrite H; reflexivity.
Qed.

Lemma has_identity_wf st vm : has_identity st vm = true -> identities_wf st.
Proof.
  unfold has_identity, recorded_identity, identities_of, identities_wf.
  destruct (kv st !! KEY_VM_IDENTITIES) as [[]|]; simpl; eauto; discriminate.
Qed.

Lemma assign_identity_argv_of req :
  argv_of [VStr (lit "az"); VStr (lit "vm"); VStr (lit "identity");
           VStr (lit "assign"); VStr (lit "--name"); VStr (vm_name req);
           VStr (lit "--resource-group"); VStr (resource_group req)]
  = Some (assign_identity_argv req).
Proof. reflexivity. Qed.

(** C7. [ensure_msi] enables an identity only when none is recorded.  When
    the map of the store has a (non-empty) identity for the request's
    [vm_id], no [az] invocation is made and the store is unchanged.
    Otherwise exactly one invocation is made, [az vm identity assign] for
    the request's VM, and when it answers (in UTF-8) with a document that
    has a [systemAssignedIdentity], that identity is recorded under the
    [vm_id] in the map, which is written back to the store. *)
Theorem ensure_msi_only_when_none env lib req st :
  (has_identity st (vm_id req) = true ->
   fst (ensure_msi env lib req st) = Return tt
   /\ az_calls (snd (ensure_msi env lib req st)) = az_calls st
   /\ kv (snd (ensure_msi env lib req st)) = kv st)
  /\ (identities_wf st ->
      has_identity st (vm_id req) = false ->
      az_calls (snd (ensure_msi env lib req st))
      = az_calls st ++ [assign_identity_argv req]
      /\ forall out err text err_text result id,
          az_tool env (az_calls st) (assign_identity_argv req)
          = Completed 0 out err ->
          decode_utf8 lib out = Some text ->
          decode_utf8 lib err = Some err_text ->
          strip text <> [] ->
          json_loads lib (strip text) = Some result ->
          subscript result (lit "systemAssignedIdentity") = Return id ->
          fst (ensure_msi env lib req st) = Return tt
          /\ kv (snd (ensure_msi env lib req st))
             = <[KEY_VM_IDENTITIES :=
                   VDict (dict_set (identities_of st) (vm_id req) id)]> (kv st)
          /\ recorded_identity (snd (ensure_msi env lib req st)) (vm_id req)
             = Some id).
Proof.
  split.
  - intros Hid. pose proof (has_identity_wf _ _ Hid) as Hwf.
    unfold ensure_msi, bind. rewrite (get_msi_wf _ _ Hwf).
    unfold has_identity in Hid.
    destruct (recorded_identity st (vm_id req)) as [v|]; [|discriminate].
    rewrite Hid. simpl. auto.
  - intros Hwf Hid.
    assert (Hfalsy : truthy (match recorded_identity st (vm_id req) with
                             | Some v => v
                             | None => VNone
                             end) = false).
    { unfold has_identity in Hid.
      destruct (recorded_identity st (vm_id req)); [exact Hid | reflexivity]. }
    unfold ensure_msi, bind. rewrite (get_msi_wf _ _ Hwf). rewrite Hfalsy.
    cbn [negb]. unfold log, kv_get, kv_set, lift, ret. cbn beta iota.
    unfold _azure. rewrite assign_identity_argv_of.
    cbn [az_calls add_log].
    split.
    + destruct (az_tool env (az_calls st) (assign_identity_argv req))
        as [rc out err| |name]; [|reflexivity|reflexivity].
      destruct (decode lib out) as [text|]; [|reflexivity].
      destruct (decode lib err) as [err_text|]; [|reflexivity].
      destruct (negb (rc =? 0)); [reflexivity|]. cbv beta iota zeta.
      destruct (truthy (VStr (strip text))).
      * destruct (json_loads lib (strip text)) as [result|]; [|reflexivity].
        cbn [or_raise]. cbn beta iota.
        destruct (subscript result _) as [id|e]; [|reflexivity].
        cbn beta iota. destruct (setitem _ _ _); reflexivity.
      * cbn beta iota. reflexivity.
    + intros out err text err_text result id Htool Hdo Hde Hout Hjson Hsub.
      rewrite Htool, (decode_some _ _ _ Hdo), (decode_some _ _ _ Hde).
      cbn [Z.eqb negb]. cbv beta iota zeta.
      assert (Ht : truthy (VStr (strip text)) = true).
      { simpl. destruct (strip text); [congruence | reflexivity]. }
      rewrite Ht, Hjson. cbn [or_raise]. cbn beta iota.
      rewrite Hsub. cbn beta iota. cbn [kv add_call add_log].
      assert (Hget : (match kv st !! KEY_VM_IDENTITIES with
                      | Some v => v
                      | None => VDict []
                      end) = VDict (identities_of st)).
      { unfold identities_of.
        destruct Hwf as [H | [d H]]; rewrite H; reflexivity. }
      rewrite Hget. cbn [setitem]. cbn beta iota.
      cbn [fst snd kv set_kv add_log add_call].
      split; [reflexivity|]. split; [reflexivity|].
      unfold recorded_identity, identities_of.
      cbn [kv set_kv add_log add_call].
      rewrite lookup_insert_eq. apply dict_get_set_eq.
Qed.

(** The theorem on an empty store, where the identity is assigned and
    recorded, and on the resulting store, where nothing is done. *)
Lemma ensure_msi_only_when_none_witness :
  let env := Sample.env_const (Completed 0 (encode Sample.identity_json) []) in
  let st1 := snd (ensure_msi env Sample.lib Sample.req Sample.st0) in
  (az_calls st1 = [assign_identity_argv Sample.req]
   /\ recorded_identity st1 (lit "vm-1") = Some (VStr (lit "msi-0001")))
  /\ (fst (ensure_msi env Sample.lib Sample.req st1) = Return tt
      /\ az_calls (snd (ensure_msi env Sample.lib Sample.req st1)) = az_calls st1
      /\ kv (snd (ensure_msi env Sample.lib Sample.req st1)) = kv st1).
Proof.
  intros env st1. split.
  - destruct (proj2 (ensure_msi_only_when_none env Sample.lib Sample.req Sample.st0))
      as [Hcalls Hrec].
    + left. reflexivity.
    + reflexivity.
    + split; [exact Hcalls|].
      apply (Hrec (encode Sample.identity_json) [] Sample.identity_json []
               (VDict [(lit "systemAssignedIdentity", VStr (lit "msi-0001"))])
               (VStr (lit "msi-0001"))).
      * reflexivity.
      * reflexivity.
      * reflexivity.
      * discriminate.
      * reflexivity.
      * reflexivity.
  - apply (proj1 (ensure_msi_only_when_none env Sample.lib Sample.req st1)).
    vm_compute. reflexivity.
Defined.

(** ** The invocations an operation makes *)

(** Case analysis of a run [H : m st = (r, st')] of a monadic program:
    name the result of every [_azure] call, then split on whatever else
    the run branches on. *)
Ltac run_cases H :=
  repeat match type of H with
         | context [_azure ?e ?l ?c ?a ?rs ?s] =>
             let rz := fresh "rz" in
             let sz := fresh "sz" in
             let Hz := fresh "Hz" in
             destruct (_azure e l c a rs s) as [rz sz] eqn:Hz;
             cbn beta iota in H
         | context [match ?x with _ => _ end] =>
             lazymatch x with
             | context [match _ with _ => _ end] => fail
             | _ => destruct x eqn:?; cbn beta iota in H
             end
         end.

(** Replace the state after an [_azure] call by what it is. *)
Ltac azure_states :=
  repeat match goal with
         | Hz : _azure _ _ _ _ _ _ = _ |- _ =>
             apply azure_spec in Hz;
             destruct Hz as [(Ha & _ & ->) | (argv & Ha & ->)];
             [discriminate Ha | injection Ha as <-]
         end.

(** [_get_role] never writes to the store, and makes at most one
    invocation, a role definition creation. *)
Lemma get_role_spec env lib role_name st r st' :
  _get_role env lib role_name st = (r, st') ->
  kv st' = kv st
  /\ (az_calls st' = az_calls st
      \/ exists role_data,
          az_calls st' = az_calls st ++ [role_creation_argv lib role_data]).
Proof.
  unfold _get_role, create_role_definition, bind, try_catch, kv_get, lift, ret,
    raise, log.
  intros H.
  run_cases H.
  all: try (injection H as <- <-).
  all: try discriminate H.
  all: azure_states.
  all: try (split; [reflexivity | left; reflexivity]).
  all: split; [reflexivity | right; eexists; reflexivity].
Qed.

(** A cached role is answered from the store, without any invocation. *)
Lemma get_role_cached env lib role_name st :
  role_cached st role_name = true ->
  snd (_get_role env lib role_name st) = st
  /\ exists v, fst (_get_role env lib role_name st) = Return v.
Proof.
  unfold role_cached, _get_role, bind, kv_get, lift.
  destruct (kv st !! KEY_ROLES) as [[| | | | |d]|]; try discriminate.
  simpl. destruct (dict_get d role_name) as [v|]; [|discriminate].
  intros _. simpl. eauto.
Qed.

(** When the role is not cached and [_get_role] returns, it has made
    exactly one invocation, the role definition creation. *)
Lemma get_role_uncached_returns env lib role_name st v st' :
  role_cached st role_name = false ->
  _get_role env lib role_name st = (Return v, st') ->
  exists role_data,
    az_calls st' = az_calls st ++ [role_creation_argv lib role_data].
Proof.
  unfold role_cached, _get_role, create_role_definition, bind, try_catch, kv_get,
    lift, ret, raise, log.
  intros Hc H.
  run_cases H.
  all: try discriminate H.
  all: try (injection H as Hr <-).
  all: azure_states.
  all: try (eexists; reflexivity).
  destruct v0; try discriminate Hr. simpl in Hr, Heqr.
  destruct (dict_get d role_name); discriminate.
Qed.

(** The second of two calls sees the same cache as the first. *)
Lemma get_role_cache_unchanged env lib role_name st :
  role_cached (snd (_get_role env lib role_name st)) role_name
  = role_cached st role_name.
Proof.
  destruct (_get_role env lib role_name st) as [r st'] eqn:H.
  apply get_role_spec in H as [Hkv _]. unfold role_cached. simpl.
  rewrite Hkv. reflexivity.
Qed.

Lemma get_msi_state vm st r st' : _get_msi vm st = (r, st') -> st' = st.
Proof.
  unfold _get_msi, bind, kv_get, lift. intros H.
  run_cases H; congruence.
Qed.

(** [_assign_role] makes one invocation, a role assignment, unless it
    raises before reaching the tool. *)
Lemma assign_role_spec env lib req role st r st' :
  _assign_role env lib req role st = (r, st') ->
  kv st' = kv st
  /\ ((az_calls st' = az_calls st /\ r <> Return tt)
      \/ exists msi role_name,
          az_calls st' = az_calls st
                         ++ [role_assignment_argv msi (resource_group req) role_name]).
Proof.
  unfold _assign_role, bind, ret. intros H.
  destruct (_get_msi (vm_id req) st) as [rm sm] eqn:Hm.
  apply get_msi_state in Hm as ->.
  destruct rm as [msi|e].
  - destruct (_azure env lib _ _ _ st) as [rz sz] eqn:Hz.
    apply azure_spec in Hz.
    destruct Hz as [(Ha & -> & ->) | (argv & Ha & ->)].
    + injection H as <- <-. split; [reflexivity|]. left. split; [reflexivity|].
      discriminate.
    + split; [destruct rz; injection H as _ <-; reflexivity|].
      right. simpl in Ha.
      destruct msi; try discriminate Ha. destruct role; try discriminate Ha.
      injection Ha as <-. exists s, s0.
      destruct rz; injection H as _ <-; reflexivity.
  - injection H as <- <-. split; [reflexivity|]. left. split; [reflexivity|].
    discriminate.
Qed.

Lemma ensure_msi_calls env lib req st :
  exists l, az_calls (snd (ensure_msi env lib req st)) = az_calls st ++ l
            /\ (length l <= 1)%nat.
Proof.
  destruct (ensure_msi env lib req st) as [r st'] eqn:H.
  unfold ensure_msi, _get_msi, bind, kv_get, kv_set, lift, ret, log in H.
  run_cases H.
  all: injection H as _ <-.
  all: azure_states.
  all: cbn [snd az_calls add_log add_call set_kv].
  all: first [ exists []; rewrite app_nil_r; split; [reflexivity | simpl; lia]
             | eexists [_]; split; [reflexivity | simpl; lia] ].
Qed.

Lemma tag_instance_calls env lib req st :
  exists l, az_calls (snd (tag_instance env lib req st)) = az_calls st ++ l
            /\ (length l <= 1)%nat.
Proof.
  destruct (tag_instance env lib req st) as [r st'] eqn:H.
  unfold tag_instance, bind, ret, log in H. cbn beta iota in H.
  destruct (_azure _ _ _ _ _ _) as [rz sz] eqn:Hz.
  apply azure_spec in Hz.
  destruct Hz as [(_ & _ & ->) | (argv & _ & ->)];
    destruct rz; injection H as _ <-;
    cbn [snd az_calls add_log add_call].
  all: first [ exists []; rewrite app_nil_r; split; [reflexivity | simpl; lia]
             | eexists [_]; split; [reflexivity | simpl; lia] ].
Qed.

Ltac ec_basic :=
  constructor; simpl; try lia; try (intros; congruence);
  try (intros; discriminate).

(** An operation on a built-in role: the log line, then [_assign_role]. *)
Lemma builtin_calls env lib op req st msg role :
  custom_role op = None ->
  run_enable env lib op req st
  = (log msg [] ;;; _assign_role env lib req (VStr role)) st ->
  exists l,
    az_calls (snd (run_enable env lib op req st)) = az_calls st ++ l
    /\ enable_calls st op (fst (run_enable env lib op req st)) l.
Proof.
  intros Hop ->. unfold bind, log. cbn beta iota.
  destruct (_assign_role env lib req (VStr role) _) as [r st'] eqn:H.
  apply assign_role_spec in H as [_ [[Hc Hr] | (msi & rn & Hc)]];
    cbn [fst snd]; rewrite Hc; cbn [az_calls add_log].
  - exists []. rewrite app_nil_r. split; [reflexivity|]. ec_basic.
  - eexists [_]. split; [reflexivity|]. ec_basic.
Qed.

(** An operation on a custom role: the log line, [_get_role], then
    [_assign_role] with the role it returned. *)
Lemma custom_calls env lib op req st msg name :
  custom_role op = Some name ->
  run_enable env lib op req st
  = (log msg [] ;;; role <- _get_role env lib name ;; _assign_role env lib req role) st ->
  exists l,
    az_calls (snd (run_enable env lib op req st)) = az_calls st ++ l
    /\ enable_calls st op (fst (run_enable env lib op req st)) l.
Proof.
  intros Hop ->. unfold bind, log. cbn beta iota.
  set (st1 := add_log INFO msg [] st).
  assert (Hcached : role_cached st1 name = role_cached st name) by reflexivity.
  assert (Hcalls1 : az_calls st1 = az_calls st) by reflexivity.
  destruct (_get_role env lib name st1) as [rr sr] eqn:Hrole.
  pose proof (get_role_spec _ _ _ _ _ _ Hrole) as [_ Hr].
  rewrite Hcalls1 in Hr.
  assert (Hhit : forall n rd,
             custom_role op = Some n -> role_cached st n = true ->
             az_calls sr = az_calls st ++ [role_creation_argv lib rd] -> False).
  { intros n rd Hn Hc Hgrow. rewrite Hop in Hn. injection Hn as <-.
    rewrite <- Hcached in Hc.
    pose proof (get_role_cached env lib name st1 Hc) as [Hs _].
    rewrite Hrole in Hs. simpl in Hs. rewrite Hs, Hcalls1 in Hgrow.
    apply (f_equal (@length _)) in Hgrow. rewrite length_app in Hgrow.
    simpl in Hgrow. lia. }
  destruct rr as [role|e].
  - destruct (_assign_role env lib req role sr) as [r st'] eqn:H.
    apply assign_role_spec in H as [_ [[Hc Hne] | (msi & rn & Hc)]];
      cbn [fst snd]; rewrite Hc.
    + destruct Hr as [Hr | [rd Hr]]; rewrite Hr.
      * exists []. rewrite app_nil_r. split; [reflexivity|]. ec_basic.
      * eexists [_]. split; [reflexivity|]. ec_basic.
        intros n Hn Hc'. exfalso. eapply Hhit; eassumption.
    + destruct Hr as [Hr | [rd Hr]]; rewrite Hr.
      * eexists [_]. split; [reflexivity|]. ec_basic.
      * eexists [_; _]. rewrite <- app_assoc. split; [reflexivity|]. ec_basic.
        intros n Hn Hc'. exfalso. eapply Hhit; eassumption.
  - cbn [fst snd].
    destruct Hr as [Hr | [rd Hr]]; rewrite Hr.
    + exists []. rewrite app_nil_r. split; [reflexivity|]. ec_basic.
    + eexists [_]. split; [reflexivity|]. ec_basic.
      intros n Hn Hc'. exfalso. eapply Hhit; eassumption.
Qed.

(** C6 (as amended).  [ensure_msi] and [tag_instance] each make at most
    one [az] invocation per call.  Every [enable_*] operation makes at
    most one role assignment invocation and at most one role definition
    creation, and nothing else; the creation happens only in the
    operations on a custom role, and only when that role is not in the
    cache of the store; and an operation that returns normally has made
    exactly one role assignment invocation. *)
Theorem operations_invocations env lib req st :
  (exists l, az_calls (snd (ensure_msi env lib req st)) = az_calls st ++ l
             /\ (length l <= 1)%nat)
  /\ (exists l, az_calls (snd (tag_instance env lib req st)) = az_calls st ++ l
                /\ (length l <= 1)%nat)
  /\ forall op, exists l,
        az_calls (snd (run_enable env lib op req st)) = az_calls st ++ l
        /\ enable_calls st op (fst (run_enable env lib op req st)) l.
Proof.
  split; [apply ensure_msi_calls|]. split; [apply tag_instance_calls|].
  intros [].
  - eapply custom_calls; reflexivity.
  - eapply builtin_calls; reflexivity.
  - eapply builtin_calls; reflexivity.
  - eapply custom_calls; reflexivity.
  - eapply builtin_calls; reflexivity.
  - eapply builtin_calls; reflexivity.
  - eapply builtin_calls; reflexivity.
Qed.

(** The counts of the theorem on a run of [enable_network_management]
    that returns: one role assignment and no role creation. *)
Lemma operations_invocations_witness :
  exists l,
    az_calls (snd (run_enable Scenario.env_ok Sample.lib NetworkManagement
                     Sample.req Scenario.st_ready)) = l
    /\ count_if is_role_assignment l = 1%nat
    /\ count_if is_role_creation l = 0%nat.
Proof.
  destruct (proj2 (proj2 (operations_invocations Scenario.env_ok Sample.lib
                            Sample.req Scenario.st_ready)) NetworkManagement)
    as [l [Hl Hec]].
  exists l. split; [exact Hl|]. split.
  - apply (ec_returns _ _ _ _ Hec). vm_compute. reflexivity.
  - apply (ec_builtin _ _ _ _ Hec). reflexivity.
Defined.

(** C6 (as stated) fails: when the creation of the custom role is refused,
    [enable_instance_inspection] raises out of [_get_role] and makes no
    role assignment invocation at all. *)
Lemma enable_instance_inspection_no_assignment :
  let run := enable_instance_inspection Scenario.env_refused Sample.lib
               Sample.req Scenario.st_ready in
  fst run = Raise (AzureError (lit "ERROR: AuthorizationFailed"))
  /\ az_calls (snd run) = [role_creation_argv Sample.lib Scenario.vm_reader_data]
  /\ count_if is_role_assignment (az_calls (snd run)) <> 1%nat.
Proof. vm_compute. split; [reflexivity|]. split; [reflexivity|]. discriminate. Qed.

(** ** The role cache *)

(** [_get_role] leaves the store as it found it, whatever happens. *)
Lemma get_role_store_unchanged env lib role_name st :
  kv (snd (_get_role env lib role_name st)) = kv st.
Proof.
  destruct (_get_role env lib role_name st) as [r st'] eqn:H.
  apply get_role_spec in H as [Hkv _]. exact Hkv.
Qed.

(** C2, the failing run: [_get_role] ensures the role and returns its
    full name, and afterwards the store still has no role cache at all,
    so the short name is not mapped to the full name. *)
Theorem get_role_does_not_persist :
  let run := _get_role Scenario.env_ok Sample.lib (lit "vm-reader")
               Scenario.st_ready in
  fst run = Return (VStr (lit "juju-vm-reader-sub-1"))
  /\ kv (snd run) !! KEY_ROLES = None
  /\ role_cached (snd run) (lit "vm-reader") = false.
Proof. vm_compute. auto. Qed.

(** C3, the failing run: two calls of [_get_role] with the same name
    return the same full name, and each of them invokes
    [az role definition create]. *)
Theorem get_role_creates_again :
  let first := _get_role Scenario.env_ok Sample.lib (lit "vm-reader")
                 Scenario.st_ready in
  let second := _get_role Scenario.env_ok Sample.lib (lit "vm-reader")
                  (snd first) in
  fst first = Return (VStr (lit "juju-vm-reader-sub-1"))
  /\ fst second = fst first
  /\ az_calls (snd first) = [role_creation_argv Sample.lib Scenario.vm_reader_data]
  /\ az_calls (snd second)
     = [role_creation_argv Sample.lib Scenario.vm_reader_data;
        role_creation_argv Sample.lib Scenario.vm_reader_data].
Proof. vm_compute. auto. Qed.

(** The same for every world: a call that was not answered from the cache
    leaves the cache without the role, so the next call that returns has
    invoked the creation once more. *)
Lemma get_role_second_call env lib role_name st v st' :
  role_cached st role_name = false ->
  _get_role env lib role_name st = (Return v, st') ->
  role_cached st' role_name = false
  /\ forall v2 st2,
      _get_role env lib role_name st' = (Return v2, st2) ->
      exists role_data,
        az_calls st2 = az_calls st' ++ [role_creation_argv lib role_data].
Proof.
  intros Hc H.
  assert (Hc' : role_cached st' role_name = false).
  { pose proof (get_role_cache_unchanged env lib role_name st) as E.
    rewrite H in E. simpl in E. congruence. }
  split; [exact Hc'|].
  intros v2 st2 H2. eapply get_role_uncached_returns; eassumption.
Qed.

(** ** [_elide] *)

Lemma elide_short s max_len ellipsis :
  Z.of_nat (length s) <= max_len -> _elide s max_len ellipsis = s.
Proof.
  intros H. unfold _elide.
  destruct (Z.gtb_spec (Z.of_nat (length s)) max_len); [lia | reflexivity].
Qed.

(** Whatever the bound, an elided string is a prefix of [s], the ellipsis
    and a suffix of [s]. *)
Lemma elide_shape s max_len ellipsis :
  max_len < Z.of_nat (length s) ->
  exists p q, p `prefix_of` s /\ q `suffix_of` s
              /\ _elide s max_len ellipsis = p ++ ellipsis ++ q.
Proof.
  intros H. unfold _elide.
  destruct (Z.gtb_spec (Z.of_nat (length s)) max_len); [|lia].
  eexists _, _. split; [|split; [|reflexivity]].
  - unfold slice_to. exists (skipn (slice_index (length s)
                                      (floor_half (max_len - Z.of_nat (length ellipsis)))) s).
    symmetry. apply firstn_skipn.
  - unfold slice_from. eexists. symmetry. apply firstn_skipn.
Qed.

Lemma floor_ceil_half x : floor_half x + ceil_half x = x.
Proof. unfold floor_half, ceil_half. Z.div_mod_to_equations. lia. Qed.

(** When the bound leaves room for at least one character besides the
    ellipsis, the elided string has exactly the length of the bound. *)
Lemma elide_length s max_len ellipsis :
  Z.of_nat (length ellipsis) < max_len ->
  max_len < Z.of_nat (length s) ->
  Z.of_nat (length (_elide s max_len ellipsis)) = max_len.
Proof.
  intros He H. unfold _elide.
  destruct (Z.gtb_spec (Z.of_nat (length s)) max_len); [|lia].
  pose proof (floor_ceil_half (max_len - Z.of_nat (length ellipsis))) as Hsum.
  set (x := max_len - Z.of_nat (length ellipsis)) in *.
  assert (Hf : 0 <= floor_half x)
    by (unfold floor_half; Z.div_mod_to_equations; lia).
  assert (Hc : 1 <= ceil_half x)
    by (unfold ceil_half; Z.div_mod_to_equations; lia).
  rewrite !length_app. unfold slice_to, slice_from, slice_index.
  rewrite length_firstn, length_skipn.
  destruct (Z.ltb_spec (floor_half x) 0); [lia|].
  destruct (Z.ltb_spec (- ceil_half x) 0); [|lia].
  lia.
Qed.

(** With the bound equal to the length of the ellipsis the tail slice is
    [s[-0:]], the whole string. *)
Lemma elide_bound_3 s :
  3 < Z.of_nat (length s) ->
  _elide s 3 default_ellipsis = default_ellipsis ++ s.
Proof.
  intros H. unfold _elide.
  destruct (Z.gtb_spec (Z.of_nat (length s)) 3); [|lia].
  change (Z.of_nat (length default_ellipsis)) with 3.
  change (floor_half (3 - 3)) with 0. change (- ceil_half (3 - 3)) with 0.
  unfold slice_to, slice_from, slice_index. change (0 <? 0) with false.
  cbv iota. rewrite Z.min_l by lia. reflexivity.
Qed.

(** C8 (as amended).  With the default ellipsis, [_elide] returns [s]
    unchanged when it is no longer than [max_len]; otherwise it returns a
    prefix of [s], the ellipsis and a suffix of [s], and when [max_len]
    exceeds the three characters of the ellipsis that string has length
    [max_len] exactly. *)
Theorem elide_spec s max_len :
  (Z.of_nat (length s) <= max_len -> _elide s max_len default_ellipsis = s)
  /\ (max_len < Z.of_nat (length s) ->
      exists p q, p `prefix_of` s /\ q `suffix_of` s
                  /\ _elide s max_len default_ellipsis = p ++ default_ellipsis ++ q)
  /\ (3 < max_len ->
      max_len < Z.of_nat (length s) ->
      Z.of_nat (length (_elide s max_len default_ellipsis)) = max_len).
Proof.
  split; [apply elide_short|]. split; [apply elide_shape|].
  intros H3 H. apply elide_length; [exact H3 | exact H].
Qed.

(** The theorem on a ten-character string and a bound of seven. *)
Lemma elide_spec_witness :
  _elide (lit "abc") 7 default_ellipsis = lit "abc"
  /\ Z.of_nat (length (_elide (lit "abcdefghij") 7 default_ellipsis)) = 7.
Proof.
  split.
  - apply (proj1 (elide_spec (lit "abc") 7)). simpl. lia.
  - apply (proj2 (proj2 (elide_spec (lit "abcdefghij") 7))); simpl; lia.
Defined.

(** C8 (as stated) fails for a bound that leaves no room beside the
    ellipsis: elided to at most one character, a six-character string comes
    back thirteen characters long; elided to at most three, it comes back
    whole behind the ellipsis. *)
Lemma elide_exceeds_bound :
  (_elide (lit "abcdef") 1 default_ellipsis = lit "abcde...bcdef"
   /\ ~ Z.of_nat (length (_elide (lit "abcdef") 1 default_ellipsis)) <= 1)
  /\ (_elide (lit "abcdef") 3 default_ellipsis = lit "...abcdef"
      /\ ~ Z.of_nat (length (_elide (lit "abcdef") 3 default_ellipsis)) <= 3).
Proof.
  vm_compute. split; (split; [reflexivity|]); intros H; apply H; reflexivity.
Qed.

(** ** The regular expression matcher *)

Lemma ascii_eqb_eq a b : ascii_eqb a b = true <-> a = b.
Proof. unfold ascii_eqb. apply bool_decide_eq_true. Qed.

Lemma strip_prefix_some p s s' : strip_prefix p s = Some s' <-> s = p ++ s'.
Proof.
  revert s. induction p as [|a p IH]; intros s; simpl.
  - split; congruence.
  - destruct s as [|b s]; [split; discriminate|].
    destruct (ascii_eqb a b) eqn:E.
    + apply ascii_eqb_eq in E. subst b. rewrite IH. split; congruence.
    + split; [discriminate|]. intros [= -> _].
      assert (ascii_eqb a a = true) by (apply ascii_eqb_eq; reflexivity).
      congruence.
Qed.

Lemma strip_prefix_app p s : strip_prefix p (p ++ s) = Some s.
Proof. apply strip_prefix_some. reflexivity. Qed.

Lemma startswith_true s p : startswith s p = true <-> exists s', s = p ++ s'.
Proof.
  unfold startswith. destruct (strip_prefix p s) as [s'|] eqn:E.
  - apply strip_prefix_some in E. split; eauto.
  - split; [discriminate|]. intros [s' ->].
    rewrite strip_prefix_app in E. discriminate.
Qed.

Section Star.
Variable cs : list ascii.
Variable k : str -> option (list str * str).

Lemma star_not_sound s w r :
  star_not cs k s = Some (w, r) ->
  Forall (fun c => char_in c cs = false) w
  /\ exists s', s = w ++ s' /\ k s' = Some r.
Proof.
  revert w r. induction s as [|c s IH]; intros w r; simpl.
  - destruct (k []) eqn:E; [|discriminate].
    intros [= <- <-]. split; [constructor|]. exists []. auto.
  - destruct (char_in c cs) eqn:Hc.
    + destruct (k (c :: s)) eqn:E; [|discriminate].
      intros [= <- <-]. split; [constructor|]. exists (c :: s). auto.
    + destruct (star_not cs k s) as [[w' r']|] eqn:Es.
      * intros [= <- <-]. destruct (IH _ _ eq_refl) as [Hw (s' & -> & Hk)].
        split; [constructor; assumption|]. exists s'. auto.
      * destruct (k (c :: s)) eqn:E; [|discriminate].
        intros [= <- <-]. split; [constructor|]. exists (c :: s). auto.
Qed.

Lemma star_not_complete u s' r :
  Forall (fun c => char_in c cs = false) u ->
  k s' = Some r ->
  exists w r', star_not cs k (u ++ s') = Some (w, r').
Proof.
  intros Hu Hk. induction Hu as [|c u Hc Hu IH]; simpl.
  - destruct s' as [|c s]; simpl; rewrite Hk.
    + eauto.
    + destruct (char_in c cs); [eauto|].
      destruct (star_not cs k s) as [[w' r']|]; eauto.
  - rewrite Hc. destruct IH as (w & r' & ->). eauto.
Qed.
End Star.

(** The matcher finds only matches ... *)
Lemma re_match_sound p s gs r :
  re_match p s = Some (gs, r) -> exists w, s = w ++ r /\ matches p w gs.
Proof.
  revert s gs r. induction p as [|[l|cs cap] p IH]; intros s gs r; simpl.
  - intros [= <- <-]. exists []. split; [reflexivity | constructor].
  - destruct (strip_prefix l s) as [s'|] eqn:E; [|discriminate].
    apply strip_prefix_some in E. subst s. intros H.
    destruct (IH _ _ _ H) as (w & -> & Hm).
    exists (l ++ w). rewrite <- app_assoc. split; [reflexivity|].
    constructor. exact Hm.
  - destruct (star_not cs (re_match p) s) as [[u [gs' r']]|] eqn:E; [|discriminate].
    intros [= <- <-].
    apply star_not_sound in E as [Hu (s' & -> & Hk)].
    destruct (IH _ _ _ Hk) as (w & -> & Hm).
    exists (u ++ w). rewrite <- app_assoc. split; [reflexivity|].
    constructor; assumption.
Qed.

(** ... and finds one whenever there is one. *)
Lemma re_match_complete p w gs r :
  matches p w gs -> exists gs' r', re_match p (w ++ r) = Some (gs', r').
Proof.
  intros Hm. revert r. induction Hm as [|l p w gs Hm IH|cs cap p u w gs Hu Hm IH];
    intros r; simpl.
  - eauto.
  - rewrite <- app_assoc, strip_prefix_app. apply IH.
  - destruct (IH r) as (gs' & r' & Hk).
    rewrite <- app_assoc.
    destruct (star_not_complete cs (re_match p) u (w ++ r) _ Hu Hk)
      as (w' & [gs'' r''] & ->).
    eauto.
Qed.

(** [re.search] returns the groups of a match at the leftmost position
    that has one. *)
Lemma re_search_sound p s gs :
  re_search p s = Some gs ->
  exists pre w post,
    s = pre ++ w ++ post /\ matches p w gs
    /\ forall pre' w' gs' post',
        s = pre' ++ w' ++ post' -> matches p w' gs' ->
        (length pre <= length pre')%nat.
Proof.
  induction s as [|c s IH]; simpl.
  - destruct (re_match p []) as [[gs' r]|] eqn:E; [|discriminate].
    intros [= <-]. apply re_match_sound in E as (w & Hs & Hm).
    exists [], w, r. split; [exact Hs|]. split; [exact Hm|].
    intros; simpl; lia.
  - destruct (re_match p (c :: s)) as [[gs' r]|] eqn:E.
    + intros [= <-]. apply re_match_sound in E as (w & Hs & Hm).
      exists [], w, r. split; [exact Hs|]. split; [exact Hm|].
      intros; simpl; lia.
    + intros H. destruct (IH H) as (pre & w & post & -> & Hm & Hleft).
      exists (c :: pre), w, post. split; [reflexivity|]. split; [exact Hm|].
      intros pre' w' gs' post' Hs Hm'.
      destruct pre' as [|c' pre'].
      * simpl in Hs.
        destruct (re_match_complete p w' gs' post' Hm') as (g & r & Hr).
        rewrite <- Hs in Hr. congruence.
      * injection Hs as _ Hs. simpl.
        specialize (Hleft _ _ _ _ Hs Hm'). lia.
Qed.

Lemma re_search_none p s :
  re_search p s = None ->
  forall pre w gs post, s = pre ++ w ++ post -> ~ matches p w gs.
Proof.
  induction s as [|c s IH]; simpl.
  - destruct (re_match p []) as [[gs' r]|] eqn:E; [discriminate|].
    intros _ pre w gs post Hs Hm.
    destruct pre; [|discriminate]. simpl in Hs.
    destruct (re_match_complete p w gs post Hm) as (g & r & Hr).
    rewrite <- Hs in Hr. congruence.
  - destruct (re_match p (c :: s)) as [[gs' r]|] eqn:E; [discriminate|].
    intros H pre w gs post Hs Hm.
    destruct pre as [|c' pre].
    + simpl in Hs.
      destruct (re_match_complete p w gs post Hm) as (g & r & Hr).
      rewrite <- Hs in Hr. congruence.
    + injection Hs as _ Hs. exact (IH H _ _ _ _ Hs Hm).
Qed.

(** ** [_get_tenant_id] *)

Lemma auth_uri_text pre body seg post :
  pre ++ (AUTHORIZATION_URI ++ body ++ [slash] ++ seg ++ [dquote]) ++ post
  = pre ++ AUTHORIZATION_URI ++ body ++ slash :: seg ++ dquote :: post.
Proof. repeat (rewrite <- ?app_assoc; simpl). reflexivity. Qed.

Lemma char_in_false c cs : char_in c cs = false <-> ~ In c cs.
Proof.
  unfold char_in. induction cs as [|a cs IH]; simpl.
  - split; auto.
  - rewrite orb_false_iff, IH. split.
    + intros [Ha Hn] [->|Hin]; [|tauto].
      assert (ascii_eqb c c = true) by (apply ascii_eqb_eq; reflexivity).
      congruence.
    + intros H. split; [|tauto].
      destruct (ascii_eqb a c) eqn:E'; [apply ascii_eqb_eq in E'; tauto|].
      destruct (ascii_eqb c a) eqn:E; [|reflexivity].
      apply ascii_eqb_eq in E. symmetry in E. tauto.
Qed.

Lemma Forall_not_in (cs : list ascii) (u : str) :
  Forall (fun c => char_in c cs = false) u <-> forall c, In c cs -> ~ In c u.
Proof.
  rewrite List.Forall_forall. split.
  - intros H c Hc Hu. apply H in Hu. apply char_in_false in Hu. tauto.
  - intros H c Hu. apply char_in_false. intros Hc. exact (H c Hc Hu).
Qed.

Lemma matches_authorization_uri w gs :
  matches authorization_uri_re w gs <->
  exists body seg,
    w = AUTHORIZATION_URI ++ body ++ [slash] ++ seg ++ [dquote]
    /\ gs = [seg]
    /\ ~ In dquote body /\ ~ In dquote seg /\ ~ In slash seg.
Proof.
  unfold authorization_uri_re. split.
  - intros H.
    inversion H as [|l1 p1 w1 gs1 H1|]; subst. clear H.
    inversion H1 as [| |cs2 cap2 p2 body w2 gs2 Hbody H2]; subst. clear H1.
    inversion H2 as [|l3 p3 w3 gs3 H3|]; subst. clear H2.
    inversion H3 as [| |cs4 cap4 p4 seg w4 gs4 Hseg H4]; subst. clear H3.
    inversion H4 as [|l5 p5 w5 gs5 H5|]; subst. clear H4.
    inversion H5; subst. clear H5.
    exists body, seg. rewrite app_nil_r.
    rewrite Forall_not_in in Hbody, Hseg.
    split; [reflexivity|]. split; [reflexivity|].
    split; [apply Hbody; simpl; auto|].
    split; apply Hseg; simpl; auto.
  - intros (body & seg & -> & -> & Hb & Hs1 & Hs2).
    apply matches_lit.
    apply (matches_star [dquote] false).
    { apply Forall_not_in. intros c [<-|[]]. exact Hb. }
    apply (matches_lit [slash]).
    apply (matches_star [slash; dquote] true _ seg [dquote] []).
    { apply Forall_not_in. intros c [<-|[<-|[]]]; assumption. }
    rewrite <- (app_nil_r [dquote]) at 1.
    apply (matches_lit [dquote] [] [] []). constructor.
Qed.

(** Two texts that agree up to the first occurrence of [c] are split by
    it in the same way. *)
Lemma split_at_first (c : ascii) (u u' v v' : str) :
  ~ In c u -> ~ In c u' -> u ++ c :: v = u' ++ c :: v' -> u = u' /\ v = v'.
Proof.
  revert u'. induction u as [|a u IH]; intros [|a' u'] Hu Hu' H; simpl in *.
  - injection H as ->. auto.
  - injection H as -> _. tauto.
  - injection H as -> _. tauto.
  - injection H as -> H. destruct (IH u') as [-> ->]; auto.
Qed.

(** At a given position the pattern determines the segment. *)
Lemma auth_uri_match_unique hdr pre body seg post body' seg' post' :
  auth_uri_match hdr pre body seg post ->
  auth_uri_match hdr pre body' seg' post' ->
  seg' = seg.
Proof.
  intros (-> & Hb & Hs1 & Hs2) (H & Hb' & Hs1' & Hs2').
  do 2 apply app_inv_head in H.
  assert (Hq : (body ++ slash :: seg) ++ dquote :: post
               = (body' ++ slash :: seg') ++ dquote :: post').
  { rewrite <- !app_assoc. exact H. }
  apply split_at_first in Hq as [Hq _].
  - apply (f_equal (@rev _)) in Hq. rewrite !rev_app_distr in Hq.
    simpl in Hq. rewrite <- !app_assoc in Hq. simpl in Hq.
    apply split_at_first in Hq as [Hq _].
    + apply (f_equal (@rev _)) in Hq. rewrite !rev_involutive in Hq.
      congruence.
    + rewrite <- in_rev. exact Hs2.
    + rewrite <- in_rev. exact Hs2'.
  - intros Hin. apply in_app_or in Hin as [Hin|Hin]; [tauto|].
    simpl in Hin. destruct Hin as [Hin|Hin]; [discriminate Hin|tauto].
  - intros Hin. apply in_app_or in Hin as [Hin|Hin]; [tauto|].
    simpl in Hin. destruct Hin as [Hin|Hin]; [discriminate Hin|tauto].
Qed.

Lemma search_authorization_uri_some hdr gs :
  re_search authorization_uri_re hdr = Some gs ->
  exists seg, gs = [seg] /\ leftmost_segment hdr seg.
Proof.
  intros H. apply re_search_sound in H as (pre & w & post & Hs & Hm & Hleft).
  apply matches_authorization_uri in Hm as (body & seg & -> & -> & Hm).
  rewrite auth_uri_text in Hs.
  assert (Hleft' : forall pre' body' seg' post',
             auth_uri_match hdr pre' body' seg' post' ->
             (length pre <= length pre')%nat).
  { intros pre' body' seg' post' (Hs' & Hm').
    rewrite <- auth_uri_text in Hs'.
    eapply (Hleft pre' _ [seg'] post' Hs').
    apply matches_authorization_uri. exists body', seg'. auto. }
  clear Hleft.
  exists seg. split; [reflexivity|].
  assert (Hmatch : auth_uri_match hdr pre body seg post) by (split; assumption).
  exists pre, body, post. split; [exact Hmatch|].
  intros pre' body' seg' post' Hmatch'.
  pose proof (Hleft' _ _ _ _ Hmatch') as Hle.
  split; [exact Hle|].
  intros Hlen.
  assert (pre' = pre) as ->.
  { destruct Hmatch as (E & _), Hmatch' as (E' & _). rewrite E in E'.
    apply app_inj_1 in E' as [E' _]; [congruence | lia]. }
  eapply auth_uri_match_unique; eassumption.
Qed.

Lemma search_authorization_uri_none hdr :
  re_search authorization_uri_re hdr = None ->
  forall pre body seg post, ~ auth_uri_match hdr pre body seg post.
Proof.
  intros H pre body seg post (Hs & Hm).
  rewrite <- auth_uri_text in Hs.
  eapply (re_search_none _ _ H pre _ [seg] post Hs).
  apply matches_authorization_uri. exists body, seg. auto.
Qed.

(** Whether a header has a match is decided by the search. *)
Lemma auth_uri_match_dec hdr :
  (exists seg, leftmost_segment hdr seg)
  \/ (forall pre body seg post, ~ auth_uri_match hdr pre body seg post).
Proof.
  destruct (re_search authorization_uri_re hdr) as [gs|] eqn:E.
  - left. apply search_authorization_uri_some in E as (seg & _ & H). eauto.
  - right. apply search_authorization_uri_none. exact E.
Qed.

Lemma leftmost_segment_unique hdr seg seg' :
  leftmost_segment hdr seg -> leftmost_segment hdr seg' -> seg' = seg.
Proof.
  intros (pre & body & post & Hm & Hleft) (pre' & body' & post' & Hm' & Hleft').
  destruct (Hleft _ _ _ _ Hm') as [Hle Heq].
  destruct (Hleft' _ _ _ _ Hm) as [Hle' _].
  apply Heq. lia.
Qed.

(** C1. For every subscription ID, [_get_tenant_id] makes one request, to
    [https://management.azure.com/subscriptions/<id>] (with the
    [api-version] query), given to [urlopen] with nothing but the URL.  When
    the request fails with an HTTP error whose [WWW-Authenticate] header
    has a match of the [authorization_uri] pattern, the result is the final
    path segment of the (leftmost) match; it is [None] when the request
    succeeds, when the header is absent and when the header has no match.
    Every header is in one of the last two cases. *)
Theorem get_tenant_id_cases env lib (subscription_id : str) st :
  let url := TENANT_URL_PREFIX ++ subscription_id ++ TENANT_URL_QUERY in
  let run := _get_tenant_id env lib (VStr subscription_id) st in
  http_requests (snd run) = http_requests st ++ [url]
  /\ (urlopen env url = UrlOk -> fst run = Return VNone)
  /\ (forall hdrs,
        urlopen env url = UrlHTTPError hdrs ->
        headers_get hdrs WWW_AUTHENTICATE = None ->
        fst run = Return VNone)
  /\ (forall hdrs www_auth,
        urlopen env url = UrlHTTPError hdrs ->
        headers_get hdrs WWW_AUTHENTICATE = Some www_auth ->
        (forall pre body seg post, ~ auth_uri_match www_auth pre body seg post) ->
        fst run = Return VNone)
  /\ (forall hdrs www_auth seg,
        urlopen env url = UrlHTTPError hdrs ->
        headers_get hdrs WWW_AUTHENTICATE = Some www_auth ->
        leftmost_segment www_auth seg ->
        fst run = Return (VStr seg))
  /\ (forall www_auth,
        (exists seg, leftmost_segment www_auth seg)
        \/ (forall pre body seg post, ~ auth_uri_match www_auth pre body seg post)).
Proof.
  cbv zeta. unfold _get_tenant_id, tenant_url, format_arg.
  fold TENANT_URL_PREFIX TENANT_URL_QUERY.
  set (url := TENANT_URL_PREFIX ++ subscription_id ++ TENANT_URL_QUERY).
  split.
  { destruct (urlopen env url) as [|hdrs|name]; [reflexivity| |reflexivity].
    destruct (headers_get hdrs WWW_AUTHENTICATE) as [www_auth|]; [|reflexivity].
    destruct (re_search authorization_uri_re www_auth); reflexivity. }
  split; [intros ->; reflexivity|].
  split; [intros hdrs -> ->; reflexivity|].
  split.
  { intros hdrs www_auth -> -> Hno.
    destruct (re_search authorization_uri_re www_auth) as [gs|] eqn:E;
      [|reflexivity].
    apply search_authorization_uri_some in E
      as (seg & _ & pre & body & post & Hm & _).
    exfalso. exact (Hno _ _ _ _ Hm). }
  split; [|exact auth_uri_match_dec].
  intros hdrs www_auth seg -> -> Hseg.
  destruct (re_search authorization_uri_re www_auth) as [gs|] eqn:E.
  - apply search_authorization_uri_some in E as (seg' & -> & Hseg').
    rewrite (leftmost_segment_unique _ _ _ Hseg Hseg'). reflexivity.
  - destruct Hseg as (pre & body & post & Hm & _).
    exfalso. exact (search_authorization_uri_none _ E _ _ _ _ Hm).
Qed.

(** The theorem on the usual answer of the API: the tenant ID is the last
    path segment of the authorization URI. *)
Lemma get_tenant_id_cases_witness :
  fst (_get_tenant_id TenantSample.env Sample.lib (VStr (lit "sub-1")) Sample.st0)
  = Return (VStr (lit "72f988bf-86f1")).
Proof.
  destruct (get_tenant_id_cases TenantSample.env Sample.lib (lit "sub-1") Sample.st0)
    as (_ & _ & _ & _ & Hseg & _).
  apply (Hseg [(lit "www-authenticate", TenantSample.www_auth)] TenantSample.www_auth).
  - reflexivity.
  - reflexivity.
  - destruct (search_authorization_uri_some TenantSample.www_auth
                [lit "72f988bf-86f1"] eq_refl) as (seg & [= <-] & H).
    exact H.
Defined.

(** ** Substitution of a literal *)

Lemma occurs_nil s : occurs [] s.
Proof. exists [], s. reflexivity. Qed.

Lemma occurs_app_l q u v : occurs q u -> occurs q (u ++ v).
Proof.
  intros (a & b & ->). exists a, (b ++ v). rewrite <- !app_assoc. reflexivity.
Qed.

Lemma occurs_app_r q u v : occurs q v -> occurs q (u ++ v).
Proof.
  intros (a & b & ->). exists (u ++ a), b. rewrite <- !app_assoc. reflexivity.
Qed.

Lemma contains_occurs q s : contains q s = true <-> occurs q s.
Proof.
  induction s as [|c s IH]; simpl.
  - rewrite orb_false_r, startswith_true. split.
    + intros [s' H]. exists [], s'. exact H.
    + intros (a & b & H). destruct a; [|discriminate]. eauto.
  - rewrite orb_true_iff, startswith_true, IH. split.
    + intros [[s' ->] | (a & b & ->)].
      * exists [], s'. reflexivity.
      * exists (c :: a), b. reflexivity.
    + intros (a & b & H). destruct a as [|c' a].
      * left. eauto.
      * right. injection H as _ ->. exists a, b. reflexivity.
Qed.

Lemma not_contains_occurs q s : contains q s = false <-> ~ occurs q s.
Proof.
  rewrite <- contains_occurs. destruct (contains q s); split; congruence.
Qed.

(** An occurrence of [q] cannot lie across a character that [q] lacks. *)
Lemma occurs_split_char (c : ascii) (q u w : str) :
  ~ In c q -> occurs q (u ++ c :: w) -> occurs q u \/ occurs q w.
Proof.
  intros Hc (a & b & H).
  apply app_eq_app in H as [l [[-> H] | [-> H]]].
  - apply app_eq_app in H as [l' [[-> H] | [-> H]]].
    + destruct l' as [|c' l'].
      * rewrite app_nil_r. left. exists a, []. rewrite app_nil_r. reflexivity.
      * injection H as <- _. exfalso. apply Hc.
        apply in_or_app. right. simpl. auto.
    + left. exists a, l'. reflexivity.
  - destruct l as [|c' l].
    + simpl in H. destruct q as [|c' q]; [left; apply occurs_nil|].
      injection H as -> _. exfalso. apply Hc. simpl. auto.
    + injection H as _ ->. right. exists l, b. reflexivity.
Qed.

Lemma blocks_bracket (a b : ascii) (inner q : str) :
  ~ In a q -> ~ In b q -> ~ occurs q inner -> blocks (a :: inner ++ [b]) q.
Proof.
  intros Ha Hb Hin u v H.
  change (u ++ (a :: inner ++ [b]) ++ v) with (u ++ a :: ((inner ++ [b]) ++ v)) in H.
  rewrite <- app_assoc in H. simpl in H.
  apply occurs_split_char in H as [H|H]; [auto | | exact Ha].
  apply occurs_split_char in H as [H|H]; [tauto | auto | exact Hb].
Qed.

Lemma sub_from_skip pat repl k s :
  sub_from pat repl k s = sub_from pat repl 0 (skipn k s).
Proof.
  revert k. induction s as [|c s IH]; intros [|k]; simpl; auto.
Qed.

Lemma sub_from_match pat repl s :
  pat <> [] ->
  sub_from pat repl 0 (pat ++ s) = repl ++ sub_from pat repl 0 s.
Proof.
  destruct pat as [|c p]; [congruence|]. intros _.
  change ((c :: p) ++ s) with (c :: (p ++ s)). cbn [sub_from].
  assert (Hs : startswith (c :: p ++ s) (c :: p) = true).
  { apply startswith_true. exists s. reflexivity. }
  rewrite Hs. f_equal. rewrite sub_from_skip. f_equal.
  cbn [length]. rewrite Nat.sub_succ, Nat.sub_0_r.
  rewrite skipn_app, skipn_all, Nat.sub_diag. reflexivity.
Qed.

Lemma sub_from_nomatch pat repl c s :
  startswith (c :: s) pat = false ->
  sub_from pat repl 0 (c :: s) = c :: sub_from pat repl 0 s.
Proof. intros H. cbn [sub_from]. rewrite H. reflexivity. Qed.

Lemma sub_literal_nonempty pat repl s :
  pat <> [] -> sub_literal pat repl s = sub_from pat repl 0 s.
Proof. destruct pat; [congruence | reflexivity]. Qed.

Section Substitution.
Variables pat repl : str.
Hypothesis pat_nonempty : pat <> [].

Lemma pat_length : (1 <= length pat)%nat.
Proof using pat_nonempty. destruct pat; [congruence | simpl; lia]. Qed.

(** The substitution creates no occurrence of a text that [repl] keeps
    apart. *)
Lemma sub_from_no_new q :
  blocks repl q ->
  forall n s u, (length s <= n)%nat ->
                occurs q (u ++ sub_from pat repl 0 s) -> occurs q (u ++ s).
Proof using pat_nonempty.
  intros Hb. induction n as [|n IH]; intros s u Hlen H.
  - destruct s; [exact H | simpl in Hlen; lia].
  - destruct s as [|c s]; [exact H|].
    destruct (startswith (c :: s) pat) eqn:E.
    + apply startswith_true in E as [s' E]. rewrite E in *.
      rewrite sub_from_match in H by exact pat_nonempty.
      apply Hb in H as [H|H].
      * apply occurs_app_l. exact H.
      * apply occurs_app_r, occurs_app_r. apply (IH s' []); [|exact H].
        pose proof pat_length. rewrite length_app in Hlen. lia.
    + rewrite sub_from_nomatch in H by exact E.
      change (u ++ c :: sub_from pat repl 0 s)
        with (u ++ [c] ++ sub_from pat repl 0 s) in H.
      rewrite app_assoc in H. apply IH in H; [|simpl in Hlen; lia].
      rewrite <- app_assoc in H. exact H.
Qed.

(** After the substitution the pattern itself is gone. *)
Lemma sub_from_gone :
  blocks repl pat ->
  forall n s u,
    (length s <= n)%nat ->
    (forall a b, u ++ s = a ++ pat ++ b -> (length u <= length a)%nat) ->
    ~ occurs pat (u ++ sub_from pat repl 0 s).
Proof using pat_nonempty.
  intros Hb. induction n as [|n IH]; intros s u Hlen Hu H.
  - destruct s; [|simpl in Hlen; lia]. simpl in H.
    destruct H as (a & b & H). specialize (Hu a b H).
    apply (f_equal (@length _)) in H. rewrite app_nil_r, !length_app in H.
    pose proof pat_length. lia.
  - destruct s as [|c s].
    { simpl in H. destruct H as (a & b & H). specialize (Hu a b H).
      apply (f_equal (@length _)) in H. rewrite app_nil_r, !length_app in H.
      pose proof pat_length. lia. }
    destruct (startswith (c :: s) pat) eqn:E.
    + apply startswith_true in E as [s' E]. rewrite E in *.
      rewrite sub_from_match in H by exact pat_nonempty.
      apply Hb in H as [(a & b & ->)|H].
      * specialize (Hu a (b ++ pat ++ s')).
        rewrite <- !app_assoc in Hu. specialize (Hu eq_refl).
        rewrite !length_app in Hu. pose proof pat_length. lia.
      * apply (IH s' []); [| intros; simpl; lia | exact H].
        pose proof pat_length. rewrite length_app in Hlen. lia.
    + rewrite sub_from_nomatch in H by exact E.
      change (u ++ c :: sub_from pat repl 0 s)
        with (u ++ [c] ++ sub_from pat repl 0 s) in H.
      rewrite app_assoc in H. apply IH in H; [exact H | simpl in Hlen; lia |].
      intros a b Hab. rewrite <- app_assoc in Hab. simpl in Hab.
      pose proof (Hu a b Hab) as Hle. rewrite length_app. simpl.
      destruct (Nat.eq_dec (length u) (length a)) as [Heq|]; [|lia].
      apply app_inj_1 in Hab as [_ Hab]; [|exact Heq].
      assert (startswith (c :: s) pat = true)
        by (apply startswith_true; eauto).
      congruence.
Qed.

Lemma sub_literal_no_new q s :
  blocks repl q -> occurs q (sub_literal pat repl s) -> occurs q s.
Proof using pat_nonempty.
  intros Hb H. rewrite sub_literal_nonempty in H by exact pat_nonempty.
  exact (sub_from_no_new q Hb (length s) s [] (le_n _) H).
Qed.

Lemma sub_literal_gone s :
  blocks repl pat -> ~ occurs pat (sub_literal pat repl s).
Proof using pat_nonempty.
  intros Hb. rewrite sub_literal_nonempty by exact pat_nonempty.
  apply (sub_from_gone Hb (length s) s [] (le_n _)).
  intros; simpl; lia.
Qed.

End Substitution.

(** ** [login_cli]: the redacted error *)

Lemma redactable_spec q :
  redactable q = true ->
  q <> [] /\ re_literal q = true
  /\ blocks (lit "<app-id>") q /\ blocks (lit "<app-pass>") q
  /\ blocks (lit "<tenant-id>") q.
Proof.
  unfold redactable. rewrite !andb_true_iff, !negb_true_iff.
  intros [[[[[[Hne Hlit] Hlt] Hgt] H1] H2] H3].
  apply char_in_false in Hlt, Hgt. apply not_contains_occurs in H1, H2, H3.
  split; [destruct q; [discriminate | congruence]|].
  split; [exact Hlit|].
  split; [|split].
  - exact (blocks_bracket lt_char gt_char (lit "app-id") q Hlt Hgt H1).
  - exact (blocks_bracket lt_char gt_char (lit "app-pass") q Hlt Hgt H2).
  - exact (blocks_bracket lt_char gt_char (lit "tenant-id") q Hlt Hgt H3).
Qed.

(** None of three redactable credentials is left in the redacted text. *)
Lemma redact_clean app_id app_pass tenant_id msg :
  redactable app_id = true ->
  redactable app_pass = true ->
  redactable tenant_id = true ->
  ~ occurs app_id (redact app_id app_pass tenant_id msg)
  /\ ~ occurs app_pass (redact app_id app_pass tenant_id msg)
  /\ ~ occurs tenant_id (redact app_id app_pass tenant_id msg).
Proof.
  intros Ha Hp Ht.
  apply redactable_spec in Ha as (Ha0 & _ & Ha1 & Ha2 & Ha3).
  apply redactable_spec in Hp as (Hp0 & _ & Hp1 & Hp2 & Hp3).
  apply redactable_spec in Ht as (Ht0 & _ & Ht1 & Ht2 & Ht3).
  unfold redact. split; [|split].
  - intros H.
    apply (sub_literal_no_new _ _ Ht0) in H; [|exact Ha3].
    apply (sub_literal_no_new _ _ Hp0) in H; [|exact Ha2].
    exact (sub_literal_gone _ _ Ha0 _ Ha1 H).
  - intros H.
    apply (sub_literal_no_new _ _ Ht0) in H; [|exact Hp3].
    exact (sub_literal_gone _ _ Hp0 _ Hp2 H).
  - exact (sub_literal_gone _ _ Ht0 _ Ht3).
Qed.

Lemma raise_redacted_literal lib app_id app_pass tenant_id msg st :
  re_literal app_id = true ->
  re_literal app_pass = true ->
  re_literal tenant_id = true ->
  raise_redacted lib (VStr app_id) (VStr app_pass) (VStr tenant_id) msg st
  = (Raise (AzureError (redact app_id app_pass tenant_id msg)), st).
Proof.
  intros Ha Hp Ht. unfold raise_redacted, bind, lift, raise, re_sub.
  rewrite Ha, Hp, Ht. reflexivity.
Qed.

Lemma argv_of_login app_id app_pass tenant_id argv :
  argv_of (VStr (lit "az") :: VStr (lit "login")
             :: login_argv app_id app_pass tenant_id) = Some argv ->
  exists a p t, app_id = VStr a /\ app_pass = VStr p /\ tenant_id = VStr t.
Proof.
  simpl. destruct app_id; try discriminate. destruct app_pass; try discriminate.
  destruct tenant_id; try discriminate.
  intros _. eexists _, _, _. repeat split.
Qed.

(** The AzureError of the second [try] statement of [login_cli] comes
    from the handler, after the tool refused the login. *)
Lemma service_principal_login_raises env lib app_id app_pass sub_id tenant_id st m :
  fst (service_principal_login env lib app_id app_pass sub_id tenant_id st)
  = Raise (AzureError m) ->
  exists a p t stderr st',
    app_id = VStr a /\ app_pass = VStr p /\ tenant_id = VStr t
    /\ _azure env lib (lit "login") (login_argv app_id app_pass tenant_id) false
         (add_log INFO (lit "Logging in to Azure CLI") [] st)
       = (Raise (AzureError stderr), st')
    /\ fst (raise_redacted lib app_id app_pass tenant_id stderr st')
       = Raise (AzureError m).
Proof.
  unfold service_principal_login, try_catch, bind, log, kv_set.
  cbn beta iota. fold (login_argv app_id app_pass tenant_id).
  destruct (_azure env lib (lit "login") _ false _) as [rz sz] eqn:Hz.
  destruct rz as [v|e]; [discriminate|].
  destruct e; try discriminate.
  intros H.
  destruct (azure_spec _ _ _ _ _ _ _ _ Hz) as [(_ & Hr & _) | (argv & Ha & _)];
    [discriminate|].
  apply argv_of_login in Ha as (a & p & t & -> & -> & ->).
  exists a, p, t, msg, sz. auto.
Qed.

Lemma subscript_not_azure v k m : subscript v k <> Raise (AzureError m).
Proof.
  destruct v; simpl; try discriminate. destruct (dict_get d k); discriminate.
Qed.

Lemma get_tenant_id_not_azure env lib sub_id st m :
  fst (_get_tenant_id env lib sub_id st) <> Raise (AzureError m).
Proof.
  unfold _get_tenant_id.
  destruct (urlopen env _) as [|hdrs|name]; try discriminate.
  destruct (headers_get hdrs WWW_AUTHENTICATE) as [www_auth|]; try discriminate.
  destruct (re_search authorization_uri_re www_auth); discriminate.
Qed.

(** The forced logout passes over an [AzureError]: it returns, or raises
    something else. *)
Lemma force_logout_not_azure env lib st m :
  fst (force_logout env lib st) <> Raise (AzureError m).
Proof.
  unfold force_logout, try_catch, bind, log, ret, raise. cbn beta iota.
  destruct (_azure env lib (lit "logout") [] false _) as [rz sz].
  destruct rz as [v|e]; [discriminate|].
  destruct e; discriminate.
Qed.

(** C9 (as amended).  When [login_cli] raises an [AzureError], the three
    credentials are strings, the [az login] invocation has failed, and,
    for credentials without metacharacters, the message raised is the
    error output of the tool after the substitution of the application
    ID, then of the password, then of the tenant ID by their
    placeholders.  If moreover each credential is not empty, has no angle
    bracket and is not part of the name of a placeholder, the message
    contains none of the three. *)
Theorem login_cli_redacts env lib creds st m :
  fst (login_cli env lib creds st) = Raise (AzureError m) ->
  exists app_id app_pass tenant_id stderr,
    subscript creds (lit "application-id") = Return (VStr app_id)
    /\ subscript creds (lit "application-password") = Return (VStr app_pass)
    /\ (exists sub_id,
           subscript creds (lit "subscription-id") = Return sub_id
           /\ fst (_get_tenant_id env lib sub_id st) = Return (VStr tenant_id))
    /\ (exists st1,
           fst (_azure env lib (lit "login")
                  (login_argv (VStr app_id) (VStr app_pass) (VStr tenant_id))
                  false st1)
           = Raise (AzureError stderr))
    /\ (re_literal app_id = true ->
        re_literal app_pass = true ->
        re_literal tenant_id = true ->
        m = redact app_id app_pass tenant_id stderr)
    /\ (redactable app_id = true ->
        redactable app_pass = true ->
        redactable tenant_id = true ->
        ~ occurs app_id m /\ ~ occurs app_pass m /\ ~ occurs tenant_id m).
Proof.
  unfold login_cli, bind, lift.
  pose proof (subscript_not_azure creds (lit "application-id") m) as H1.
  pose proof (subscript_not_azure creds (lit "application-password") m) as H2.
  pose proof (subscript_not_azure creds (lit "subscription-id") m) as H3.
  destruct (subscript creds (lit "application-id")) as [app_id|];
    [clear H1 | intros H; injection H as ->; elim H1; reflexivity].
  destruct (subscript creds (lit "application-password")) as [app_pass|];
    [clear H2 | intros H; injection H as ->; elim H2; reflexivity].
  destruct (subscript creds (lit "subscription-id")) as [sub_id|];
    [clear H3 | intros H; injection H as ->; elim H3; reflexivity].
  pose proof (get_tenant_id_not_azure env lib sub_id st m) as Hten.
  destruct (_get_tenant_id env lib sub_id st) as [[tenant_id|e] st1] eqn:Eten;
    [clear Hten | intros H; injection H as ->; elim Hten; reflexivity].
  pose proof (force_logout_not_azure env lib st1 m) as Hout.
  destruct (force_logout env lib st1) as [[[]|e] st2];
    [clear Hout | intros H; injection H as ->; elim Hout; reflexivity].
  intros H.
  apply service_principal_login_raises in H
    as (a & p & t & stderr & st' & -> & -> & -> & Hz & Hm).
  exists a, p, t, stderr.
  split; [reflexivity|]. split; [reflexivity|].
  split; [exists sub_id; rewrite Eten; split; reflexivity|].
  split; [eexists; rewrite Hz; reflexivity|].
  assert (Hlit : re_literal a = true -> re_literal p = true ->
                 re_literal t = true -> m = redact a p t stderr).
  { intros Ha Hp Ht.
    rewrite (raise_redacted_literal lib a p t stderr st' Ha Hp Ht) in Hm.
    simpl in Hm. congruence. }
  split; [exact Hlit|].
  intros Ha Hp Ht.
  rewrite (Hlit (proj1 (proj2 (redactable_spec _ Ha)))
             (proj1 (proj2 (redactable_spec _ Hp)))
             (proj1 (proj2 (redactable_spec _ Ht)))).
  apply redact_clean; assumption.
Qed.

(** The theorem on a refused login: the error that reaches the caller
    names the placeholders only. *)
Lemma login_cli_redacts_witness :
  let m := lit "ERROR: AADSTS7000215: Invalid client secret <app-pass> for app <app-id> in <tenant-id>" in
  fst (login_cli (LoginSample.env LoginSample.refusal) Sample.lib
         (LoginSample.creds "1b2c3d4e" "S3cr3t-value") Sample.st0)
  = Raise (AzureError m)
  /\ ~ occurs (lit "1b2c3d4e") m
  /\ ~ occurs (lit "S3cr3t-value") m
  /\ ~ occurs (lit "72f988bf-86f1") m.
Proof.
  intros m.
  assert (Hrun : fst (login_cli (LoginSample.env LoginSample.refusal) Sample.lib
                        (LoginSample.creds "1b2c3d4e" "S3cr3t-value") Sample.st0)
                 = Raise (AzureError m)) by (vm_compute; reflexivity).
  split; [exact Hrun|].
  destruct (login_cli_redacts _ _ _ _ _ Hrun)
    as (a & p & t & stderr & Ha & Hp & (sub_id & Hs & Ht) & _ & _ & Hclean).
  injection Ha as <-. injection Hp as <-. injection Hs as <-.
  vm_compute in Ht. injection Ht as <-.
  apply Hclean; vm_compute; reflexivity.
Defined.

(** C9 (as stated) fails: a password that is part of the name of a
    placeholder is still to be read in the message raised. *)
Lemma login_cli_password_in_placeholder :
  let m := lit "ERROR: did not accept <app-pass>" in
  fst (login_cli (LoginSample.env LoginSample.short_refusal) Sample.lib
         (LoginSample.creds "1b2c3d4e" "pass") Sample.st0)
  = Raise (AzureError m)
  /\ re_literal (lit "1b2c3d4e") = true
  /\ re_literal (lit "pass") = true
  /\ re_literal (lit "72f988bf-86f1") = true
  /\ occurs (lit "pass") m.
Proof.
  intros m. split; [vm_compute; reflexivity|].
  split; [reflexivity|]. split; [reflexivity|]. split; [reflexivity|].
  apply contains_occurs. vm_compute. reflexivity.
Qed.

(** ** The [except] clauses *)

Lemma force_logout_except env lib st :
  force_logout env lib st
  = except_azure
      (_azure env lib (lit "logout") [] false
         (add_log INFO (lit "Forcing logout of Azure CLI") [] st))
      (ret tt) (fun _ => ret tt).
Proof.
  unfold force_logout, except_azure, try_catch, bind, log, ret, raise.
  cbn beta iota.
  destruct (_azure env lib (lit "logout") [] false _) as [[v|e] sz];
    [reflexivity|].
  destruct e; reflexivity.
Qed.

Lemma service_principal_login_except env lib app_id app_pass sub_id tenant_id st :
  service_principal_login env lib app_id app_pass sub_id tenant_id st
  = except_azure
      (_azure env lib (lit "login") (login_argv app_id app_pass tenant_id) false
         (add_log INFO (lit "Logging in to Azure CLI") [] st))
      (kv_set KEY_SUB_ID sub_id)
      (raise_redacted lib app_id app_pass tenant_id).
Proof.
  unfold service_principal_login, except_azure, try_catch, bind, log, raise.
  cbn beta iota. fold (login_argv app_id app_pass tenant_id).
  destruct (_azure env lib (lit "login") _ false _) as [[v|e] sz];
    [reflexivity|].
  destruct e; reflexivity.
Qed.

Lemma create_role_definition_except env lib role_fullname role_data st :
  create_role_definition env lib role_fullname role_data st
  = except_azure
      (_azure env lib (lit "role")
         [VStr (lit "definition"); VStr (lit "create");
          VStr (lit "--role-definition"); VStr (json_dumps lib role_data)] false
         (add_log INFO (lit "Ensuring role {}") [VStr role_fullname] st))
      (ret tt)
      (fun msg => if contains (lit "already exists") msg then ret tt
                  else raise (AzureError msg)).
Proof.
  unfold create_role_definition, except_azure, try_catch, bind, log, ret, raise.
  cbn beta iota.
  destruct (_azure env lib (lit "role") _ false _) as [[v|e] sz];
    [reflexivity|].
  destruct e; try reflexivity.
  destruct (contains (lit "already exists") msg); reflexivity.
Qed.

(** A refused login with credentials free of metacharacters ends in the
    redacted error. *)
Lemma service_principal_login_refused env lib a p sub_id t st stderr st' :
  _azure env lib (lit "login") (login_argv (VStr a) (VStr p) (VStr t)) false
    (add_log INFO (lit "Logging in to Azure CLI") [] st)
  = (Raise (AzureError stderr), st') ->
  re_literal a = true -> re_literal p = true -> re_literal t = true ->
  service_principal_login env lib (VStr a) (VStr p) sub_id (VStr t) st
  = (Raise (AzureError (redact a p t stderr)), st').
Proof.
  intros Hz Ha Hp Ht. rewrite service_principal_login_except, Hz.
  unfold except_azure. apply raise_redacted_literal; assumption.
Qed.

(** An [enable_*] operation is its log line, its role and
    [_assign_role], in sequence: whatever one of them raises is what the
    operation raises. *)
Lemma run_enable_sequence env lib op req :
  run_enable env lib op req
  = (log (enable_message op) [] ;;;
     role <- role_of env lib op ;;
     _assign_role env lib req role).
Proof. destruct op; reflexivity. Qed.

Lemma login_cli_str_raises env lib s st :
  fst (login_cli env lib (VStr s) st) = Raise TypeError.
Proof. reflexivity. Qed.


(** The handler of the [CalledProcessError] of [credential-get]: the error
    output is decoded, then searched. *)
Lemma credentials_from_trust_refused env lib msg st returncode out err :
  credential_get env = Completed returncode out err ->
  returncode <> 0 ->
  credentials_from_trust env lib msg st
  = match decode_utf8 lib err with
    | None => (Raise (OtherError (lit "UnicodeDecodeError")), st)
    | Some text =>
        if contains (lit "permission denied") text
        then (Return (inr (lit "missing credentials access; grant with: juju trust")), st)
        else (Raise (CalledProcessError err), st)
    end.
Proof.
  intros Hcg Hrc.
  unfold credentials_from_trust, try_catch, bind, run_credential_get, lift, decode.
  rewrite Hcg. destruct (Z.eqb_spec returncode 0) as [|_]; [contradiction|].
  cbn [negb]. unfold raise. cbn beta iota.
  destruct (decode_utf8 lib err) as [text|]; [|reflexivity].
  cbn [or_raise]. cbn beta iota.
  destruct (contains (lit "permission denied") text); reflexivity.
Qed.




(** ** What the operations leave in the store *)

(** A [login_cli] that returns has stored the subscription ID. *)
Lemma login_cli_stores_sub_id env lib creds st st' :
  login_cli env lib creds st = (Return tt, st') ->
  exists sub_id,
    subscript creds (lit "subscription-id") = Return sub_id
    /\ kv st' !! KEY_SUB_ID = Some sub_id.
Proof.
  unfold login_cli, bind, lift.
  destruct (subscript creds (lit "application-id")) as [app_id|]; [|discriminate].
  destruct (subscript creds (lit "application-password")) as [app_pass|];
    [|discriminate].
  destruct (subscript creds (lit "subscription-id")) as [sub_id|]; [|discriminate].
  destruct (_get_tenant_id env lib sub_id st) as [[tenant_id|e] st1];
    [|discriminate].
  destruct (force_logout env lib st1) as [[[]|e] st2]; [|discriminate].
  rewrite service_principal_login_except. unfold except_azure.
  destruct (_azure env lib (lit "login") _ false _) as [[v|e] sz].
  - unfold kv_set. intros [= <-]. exists sub_id. split; [reflexivity|].
    cbn [kv set_kv]. apply lookup_insert_eq.
  - destruct e; try discriminate.
    unfold raise_redacted, bind, lift, raise.
    destruct (re_sub lib app_id _ msg) as [s1|]; [|discriminate].
    destruct (re_sub lib app_pass _ s1) as [s2|]; [|discriminate].
    destruct (re_sub lib tenant_id _ s2) as [s3|]; discriminate.
Qed.

(** The map of identities stays a map: only [ensure_msi] writes the
    entry, and it writes a map. *)
Lemma ensure_msi_keeps_wf env lib req st :
  identities_wf st -> identities_wf (snd (ensure_msi env lib req st)).
Proof.
  intros Hwf.
  destruct (ensure_msi env lib req st) as [r st'] eqn:H.
  unfold ensure_msi, _get_msi, bind, kv_get, kv_set, lift, ret, log in H.
  run_cases H.
  all: injection H as _ <-.
  all: azure_states.
  all: cbn [snd].
  all: try exact Hwf.
  all: try (unfold identities_wf in *; cbn [kv add_log add_call set_kv];
            rewrite ?lookup_insert_eq; eauto).
  all: match goal with
       | Hs : setitem ?v _ _ = Return ?a |- _ =>
           destruct v; try discriminate Hs; injection Hs as <-
       end.
  all: right; eauto.
Qed.

(** * Further properties *)

(** ** [login_cli] step by step *)

(** [_get_tenant_id] touches neither the store nor the [az] tool nor the
    status; it makes one request. *)
Lemma get_tenant_id_frame env lib sub_id st r st' :
  _get_tenant_id env lib sub_id st = (r, st') ->
  kv st' = kv st /\ az_calls st' = az_calls st
  /\ unit_status st' = unit_status st
  /\ http_requests st' = http_requests st ++ [tenant_url lib sub_id].
Proof.
  unfold _get_tenant_id.
  destruct (urlopen env _) as [|hdrs|name].
  - intros [= <- <-]. auto.
  - destruct (headers_get hdrs WWW_AUTHENTICATE) as [www_auth|].
    + destruct (re_search authorization_uri_re www_auth);
        intros [= <- <-]; auto.
    + intros [= <- <-]. auto.
  - intros [= <- <-]. auto.
Qed.

(** The forced logout always runs [az logout], and nothing else; an
    exit code of the tool, whatever it is, does not stop it. *)
Lemma force_logout_spec env lib st r st' :
  force_logout env lib st = (r, st') ->
  kv st' = kv st /\ az_calls st' = az_calls st ++ [logout_argv]
  /\ (forall rc out err text err_text,
         az_tool env (az_calls st) logout_argv = Completed rc out err ->
         decode_utf8 lib out = Some text ->
         decode_utf8 lib err = Some err_text ->
         strip text = [] ->
         r = Return tt).
Proof.
  rewrite force_logout_except. unfold except_azure.
  destruct (_azure env lib (lit "logout") [] false _) as [rz sz] eqn:Hz.
  intros H.
  assert (Hsz : sz = add_call logout_argv
                       (add_log INFO (lit "Forcing logout of Azure CLI") [] st)).
  { destruct (azure_spec _ _ _ _ _ _ _ _ Hz) as [(Ha & _) | (argv & Ha & ->)];
      [discriminate Ha|].
    injection Ha as <-. reflexivity. }
  assert (Hst : st' = sz).
  { unfold ret in H. destruct rz as [v|e]; [|destruct e]; congruence. }
  subst st' sz. split; [reflexivity|]. split; [reflexivity|].
  intros rc out err text err_text Ht Ho He Hblank.
  rewrite (azure_completed env lib (lit "logout") [] false
             (add_log INFO (lit "Forcing logout of Azure CLI") [] st) logout_argv
             rc out err text err_text eq_refl Ht Ho He) in Hz.
  unfold azure_success in Hz. rewrite Hblank in Hz.
  unfold ret in H.
  destruct (negb (rc =? 0)); injection Hz as <-; congruence.
Qed.

(** The login runs [az login] once when the three credentials are
    strings, and not at all otherwise; the store changes only when it
    returns, by the subscription ID. *)
Lemma service_principal_login_spec env lib app_id app_pass sub_id tenant_id st r st' :
  service_principal_login env lib app_id app_pass sub_id tenant_id st = (r, st') ->
  (argv_of (VStr (lit "az") :: VStr (lit "login")
              :: login_argv app_id app_pass tenant_id) = None
   /\ r = Raise TypeError /\ kv st' = kv st /\ az_calls st' = az_calls st)
  \/ (exists a p t,
         app_id = VStr a /\ app_pass = VStr p /\ tenant_id = VStr t
         /\ az_calls st' = az_calls st ++ [login_argv_str a p t]
         /\ ((r = Return tt /\ kv st' = <[KEY_SUB_ID := sub_id]> (kv st))
             \/ (r <> Return tt /\ kv st' = kv st))).
Proof.
  rewrite service_principal_login_except. unfold except_azure.
  destruct (_azure env lib (lit "login") _ false _) as [rz sz] eqn:Hz.
  pose proof (azure_spec _ _ _ _ _ _ _ _ Hz) as [(Ha & -> & ->) | (argv & Ha & ->)].
  - intros [= <- <-]. left. auto.
  - destruct (argv_of_login _ _ _ _ Ha) as (a & p & t & -> & -> & ->).
    injection Ha as <-.
    intros H. right. exists a, p, t.
    split; [reflexivity|]. split; [reflexivity|]. split; [reflexivity|].
    destruct rz as [v|e].
    + unfold kv_set in H. injection H as <- <-.
      split; [reflexivity|]. left. auto.
    + assert (Hraise : exists e', r = Raise e' /\ st'
                = add_call (login_argv_str a p t)
                    (add_log INFO (lit "Logging in to Azure CLI") [] st)).
      { destruct e; try (injection H as <- <-; eauto).
        unfold raise_redacted, bind, lift, raise in H.
        destruct (re_sub lib (VStr a) _ msg) as [s1|];
          [|injection H as <- <-; eauto].
        destruct (re_sub lib (VStr p) _ s1) as [s2|];
          [|injection H as <- <-; eauto].
        destruct (re_sub lib (VStr t) _ s2) as [s3|];
          injection H as <- <-; eauto. }
      destruct Hraise as (e' & -> & ->).
      split; [reflexivity|]. right. split; [discriminate | reflexivity].
Qed.

(** The course of [login_cli]: the three keys, the tenant, the logout,
    the login. *)
Lemma login_cli_cases env lib creds st r st' :
  login_cli env lib creds st = (r, st') ->
  (st' = st
   /\ exists e, r = Raise e
                /\ (subscript creds (lit "application-id") = Raise e
                    \/ subscript creds (lit "application-password") = Raise e
                    \/ subscript creds (lit "subscription-id") = Raise e))
  \/ exists app_id app_pass sub_id rt st1,
      subscript creds (lit "application-id") = Return app_id
      /\ subscript creds (lit "application-password") = Return app_pass
      /\ subscript creds (lit "subscription-id") = Return sub_id
      /\ _get_tenant_id env lib sub_id st = (rt, st1)
      /\ ((exists e, rt = Raise e /\ r = Raise e /\ st' = st1)
          \/ exists tenant_id r2 st2,
              rt = Return tenant_id
              /\ force_logout env lib st1 = (r2, st2)
              /\ ((exists e, r2 = Raise e /\ r = Raise e /\ st' = st2)
                  \/ (r2 = Return tt
                      /\ service_principal_login env lib app_id app_pass sub_id
                           tenant_id st2 = (r, st')))).
Proof.
  unfold login_cli, bind, lift.
  destruct (subscript creds (lit "application-id")) as [app_id|e];
    [|intros [= <- <-]; left; eauto 6].
  destruct (subscript creds (lit "application-password")) as [app_pass|e];
    [|intros [= <- <-]; left; eauto 6].
  destruct (subscript creds (lit "subscription-id")) as [sub_id|e];
    [|intros [= <- <-]; left; eauto 6].
  destruct (_get_tenant_id env lib sub_id st) as [rt st1] eqn:Hten.
  intros H. right. exists app_id, app_pass, sub_id, rt, st1.
  repeat (split; [reflexivity|]). split; [exact Hten|].
  destruct rt as [tenant_id|e]; [|injection H as <- <-; left; eauto].
  right. destruct (force_logout env lib st1) as [r2 st2] eqn:Hout.
  exists tenant_id, r2, st2. repeat (split; [reflexivity|]).
  destruct r2 as [[]|e]; [right; auto | injection H as <- <-; left; eauto].
Qed.

(** X1. A [login_cli] that returns has read three string credentials,
    found the tenant, run exactly [az logout] and then [az login] with
    those credentials, and stored the subscription ID; nothing else of the
    store has changed. *)
Theorem login_cli_returns env lib creds st st' :
  login_cli env lib creds st = (Return tt, st') ->
  exists a p sub_id t,
    subscript creds (lit "application-id") = Return (VStr a)
    /\ subscript creds (lit "application-password") = Return (VStr p)
    /\ subscript creds (lit "subscription-id") = Return sub_id
    /\ fst (_get_tenant_id env lib sub_id st) = Return (VStr t)
    /\ az_calls st' = az_calls st ++ [logout_argv; login_argv_str a p t]
    /\ kv st' = <[KEY_SUB_ID := sub_id]> (kv st).
Proof.
  intros H. apply login_cli_cases in H as [[_ [e [He _]]] | H]; [discriminate|].
  destruct H as (app_id & app_pass & sub_id & rt & st1 & H1 & H2 & H3 & Hten & H).
  destruct H as [(e & _ & He & _) | (tenant_id & r2 & st2 & -> & Hout & H)];
    [discriminate|].
  destruct H as [(e & _ & He & _) | (-> & Hlogin)]; [discriminate|].
  apply get_tenant_id_frame in Hten as Hf. destruct Hf as (Hkv1 & Hc1 & _).
  apply force_logout_spec in Hout as (Hkv2 & Hc2 & _).
  apply service_principal_login_spec in Hlogin
    as [(_ & Hr & _) | (a & p & t & -> & -> & -> & Hc3 & Hres)];
    [discriminate|].
  destruct Hres as [(_ & Hkv3) | (Hne & _)]; [|congruence].
  exists a, p, sub_id, t.
  rewrite H1, H2, H3, Hten. repeat (split; [reflexivity|]).
  split.
  - rewrite Hc3, Hc2, Hc1, <- app_assoc. reflexivity.
  - rewrite Hkv3, Hkv2, Hkv1. reflexivity.
Qed.

(** X2. A [login_cli] that raises, whatever the exception and wherever it
    comes from, leaves the store as it was: the subscription ID is cached
    only by a login that succeeded. *)
Theorem login_cli_failure_keeps_store env lib creds st e :
  fst (login_cli env lib creds st) = Raise e ->
  kv (snd (login_cli env lib creds st)) = kv st.
Proof.
  destruct (login_cli env lib creds st) as [r st'] eqn:H. simpl. intros ->.
  apply login_cli_cases in H as [[-> _] | H]; [reflexivity|].
  destruct H as (app_id & app_pass & sub_id & rt & st1 & _ & _ & _ & Hten & H).
  apply get_tenant_id_frame in Hten as (Hkv1 & _).
  destruct H as [(e' & _ & _ & ->) | (tenant_id & r2 & st2 & _ & Hout & H)];
    [exact Hkv1|].
  apply force_logout_spec in Hout as (Hkv2 & _).
  destruct H as [(e' & _ & _ & ->) | (_ & Hlogin)]; [congruence|].
  apply service_principal_login_spec in Hlogin
    as [(_ & _ & Hkv3 & _) | (a & p & t & _ & _ & _ & _ & Hres)];
    [congruence|].
  destruct Hres as [(Hr & _) | (_ & Hkv3)]; [discriminate | congruence].
Qed.

(** X1 on a world where the tenant is found and [az] accepts the login. *)
Lemma login_cli_returns_witness :
  let st' := snd (login_cli TenantSample.env Sample.lib LoginRuns.creds Sample.st0) in
  exists a p sub_id t,
    subscript LoginRuns.creds (lit "application-id") = Return (VStr a)
    /\ subscript LoginRuns.creds (lit "application-password") = Return (VStr p)
    /\ subscript LoginRuns.creds (lit "subscription-id") = Return sub_id
    /\ fst (_get_tenant_id TenantSample.env Sample.lib sub_id Sample.st0)
       = Return (VStr t)
    /\ az_calls st' = az_calls Sample.st0 ++ [logout_argv; login_argv_str a p t]
    /\ kv st' = <[KEY_SUB_ID := sub_id]> (kv Sample.st0).
Proof.
  intros st'. apply login_cli_returns. vm_compute. reflexivity.
Defined.

(** X2 on a refused login. *)
Lemma login_cli_failure_keeps_store_witness :
  kv (snd (login_cli (LoginSample.env LoginSample.refusal) Sample.lib
             LoginRuns.creds Sample.st0))
  = kv Sample.st0.
Proof.
  apply (login_cli_failure_keeps_store _ _ _ _
           (AzureError (lit "ERROR: AADSTS7000215: Invalid client secret <app-pass> for app <app-id> in <tenant-id>"))).
  vm_compute. reflexivity.
Defined.

(** X3. Credentials that lack one of the three keys make [login_cli]
    raise [KeyError] for the first key that is missing, before any request
    is made and before [az] is run: the state is untouched. *)
Theorem login_cli_missing_key env lib d st k :
  In k credential_keys ->
  dict_get d k = None ->
  exists k', In k' credential_keys /\ dict_get d k' = None
             /\ login_cli env lib (VDict d) st = (Raise (KeyError k'), st).
Proof.
  intros Hin Hk. unfold login_cli, bind, lift, subscript.
  destruct (dict_get d (lit "application-id")) as [app_id|] eqn:H1.
  2: { exists (lit "application-id"). simpl. auto. }
  destruct (dict_get d (lit "application-password")) as [app_pass|] eqn:H2.
  2: { exists (lit "application-password"). simpl. auto. }
  destruct (dict_get d (lit "subscription-id")) as [sub_id|] eqn:H3.
  2: { exists (lit "subscription-id"). simpl. auto. }
  exfalso. unfold credential_keys in Hin. cbn [In] in Hin.
  destruct Hin as [<-|[<-|[<-|[]]]]; congruence.
Qed.

Lemma login_cli_missing_key_witness :
  exists k', In k' credential_keys
             /\ dict_get LoginRuns.creds_without_password k' = None
             /\ login_cli TenantSample.env Sample.lib
                  (VDict LoginRuns.creds_without_password) Sample.st0
                = (Raise (KeyError k'), Sample.st0).
Proof.
  apply (login_cli_missing_key _ _ _ _ (lit "application-password")).
  - simpl. auto.
  - reflexivity.
Defined.

(** X4. When no tenant ID is found, [login_cli] still forces the logout
    but never runs [az login]: the [None] among the arguments is refused
    with [TypeError] before the tool is started (this is the exception
    raised whenever the logout has written UTF-8 and, to its standard
    output, nothing but white space), and the store keeps its subscription
    ID. *)
Theorem login_cli_without_tenant env lib creds app_id app_pass sub_id st :
  subscript creds (lit "application-id") = Return app_id ->
  subscript creds (lit "application-password") = Return app_pass ->
  subscript creds (lit "subscription-id") = Return sub_id ->
  fst (_get_tenant_id env lib sub_id st) = Return VNone ->
  let run := login_cli env lib creds st in
  az_calls (snd run) = az_calls st ++ [logout_argv]
  /\ kv (snd run) = kv st
  /\ (exists e, fst run = Raise e)
  /\ (forall rc out err text err_text,
         az_tool env (az_calls st) logout_argv = Completed rc out err ->
         decode_utf8 lib out = Some text ->
         decode_utf8 lib err = Some err_text ->
         strip text = [] ->
         fst run = Raise TypeError).
Proof.
  intros H1 H2 H3 Hten. cbv zeta.
  destruct (login_cli env lib creds st) as [r st'] eqn:H. simpl.
  apply login_cli_cases in H as [[_ [e [_ He]]] | H].
  { exfalso. rewrite H1, H2, H3 in He. destruct He as [He|[He|He]]; discriminate. }
  destruct H as (app_id' & app_pass' & sub_id' & rt & st1 & H1' & H2' & H3' & Hrun & H).
  rewrite H1 in H1'. rewrite H2 in H2'. rewrite H3 in H3'.
  injection H1' as <-. injection H2' as <-. injection H3' as <-.
  rewrite Hrun in Hten. simpl in Hten. subst rt.
  apply get_tenant_id_frame in Hrun as (Hkv1 & Hc1 & _).
  destruct H as [(e & He & _) | (tenant_id & r2 & st2 & [= <-] & Hout & H)];
    [discriminate|].
  apply force_logout_spec in Hout as (Hkv2 & Hc2 & Hok).
  rewrite Hc1 in Hc2, Hok. rewrite Hkv1 in Hkv2.
  destruct H as [(e & -> & -> & ->) | (-> & Hlogin)].
  - split; [exact Hc2|]. split; [exact Hkv2|]. split; [eauto|].
    intros rc out err text err_text Htool Ho He Hb.
    specialize (Hok rc out err text err_text Htool Ho He Hb). discriminate.
  - apply service_principal_login_spec in Hlogin
      as [(_ & -> & Hkv3 & Hc3) | (a & p & t & _ & _ & Ht & _)];
      [|discriminate].
    split; [congruence|]. split; [congruence|]. split; [eauto|].
    intros; reflexivity.
Qed.

Lemma login_cli_without_tenant_witness :
  let run := login_cli LoginRuns.env_no_tenant Sample.lib LoginRuns.creds Sample.st0 in
  az_calls (snd run) = az_calls Sample.st0 ++ [logout_argv]
  /\ kv (snd run) = kv Sample.st0
  /\ (exists e, fst run = Raise e)
  /\ (forall rc out err text err_text,
         az_tool LoginRuns.env_no_tenant (az_calls Sample.st0) logout_argv
         = Completed rc out err ->
         decode_utf8 Sample.lib out = Some text ->
         decode_utf8 Sample.lib err = Some err_text ->
         strip text = [] ->
         fst run = Raise TypeError).
Proof.
  apply (login_cli_without_tenant LoginRuns.env_no_tenant Sample.lib LoginRuns.creds
           (VStr (lit "1b2c3d4e")) (VStr (lit "S3cr3t-value")) (VStr (lit "sub-1")));
    reflexivity.
Defined.

(** ** [get_credentials] *)

(** The credentials of the config are never used with success: the
    decoded text is a string, and [login_cli] raises [TypeError] on its
    first subscript; a text that cannot be decoded ends the same way. *)
Lemma credentials_from_config_fails env lib credentials st :
  credentials_from_config env lib credentials st
  = (Return false, set_status MSG_INVALID_CONFIG st).
Proof.
  unfold credentials_from_config, try_catch, bind, lift, ret, status_blocked.
  destruct (b64decode_utf8 lib credentials) as [s|]; reflexivity.
Qed.

(** The body of the first [try] statement, once the hook tool has
    answered and its output has been read. *)
Lemma credentials_from_trust_login env lib msg st out err text creds c creds_data :
  credential_get env = Completed 0 out err ->
  decode_utf8 lib out = Some text ->
  yaml_load lib text = Some creds ->
  subscript creds (lit "credential") = Return c ->
  subscript c (lit "attributes") = Return creds_data ->
  credentials_from_trust env lib msg st
  = match login_cli env lib creds_data st with
    | (Return _, st') => (Return (inl true), st')
    | (Raise FileNotFoundError, st') => (Return (inr msg), st')
    | (Raise (CalledProcessError stderr), st') =>
        match decode_utf8 lib stderr with
        | None => (Raise (OtherError (lit "UnicodeDecodeError")), st')
        | Some t =>
            if contains (lit "permission denied") t
            then (Return (inr MSG_NO_ACCESS), st')
            else (Raise (CalledProcessError stderr), st')
        end
    | (Raise e, st') => (Raise e, st')
    end.
Proof.
  intros Hcg Hd Hy Hc Ha.
  unfold credentials_from_trust, try_catch, bind, lift, run_credential_get, ret,
    raise, decode.
  rewrite Hcg. cbn [Z.eqb negb]. cbv beta iota. rewrite Hd. cbn [or_raise].
  rewrite Hy. cbn [or_raise]. rewrite Hc, Ha.
  destruct (login_cli env lib creds_data st) as [[[]|e] st']; [reflexivity|].
  destruct e; try reflexivity.
  destruct (decode_utf8 lib stderr) as [t|]; [|reflexivity].
  cbn [or_raise]. cbv beta iota.
  destruct (contains (lit "permission denied") t); reflexivity.
Qed.

(** The handler of the first [try] statement never ends in [inl]: what
    it does with an exception is to fall through, or to raise. *)
Lemma trust_handler_not_inl lib msg e st b st' :
  (match e with
   | FileNotFoundError => ret (inr msg)
   | CalledProcessError stderr =>
       text <- lift (decode lib stderr) ;;
       if negb (contains (lit "permission denied") text)
       then raise e
       else ret (inr (lit "missing credentials access; grant with: juju trust"))
   | _ => raise e
   end) st <> (Return (inl b : bool + str), st').
Proof.
  unfold bind, lift, ret, raise.
  destruct e; try discriminate.
  destruct (decode lib stderr) as [text|]; [|discriminate].
  destruct (negb (contains _ text)); discriminate.
Qed.

(** The first [try] statement ends in [True] only through its body. *)
Lemma credentials_from_trust_true env lib msg st b st' :
  credentials_from_trust env lib msg st = (Return (inl b), st') ->
  exists out err text creds c creds_data,
    credential_get env = Completed 0 out err
    /\ decode_utf8 lib out = Some text
    /\ yaml_load lib text = Some creds
    /\ subscript creds (lit "credential") = Return c
    /\ subscript c (lit "attributes") = Return creds_data
    /\ login_cli env lib creds_data st = (Return tt, st')
    /\ b = true.
Proof.
  unfold credentials_from_trust, try_catch. intros H.
  destruct (bind _ _ st) as [[r|e] st1] eqn:Hbody.
  2: { exfalso. exact (trust_handler_not_inl _ _ _ _ _ _ H). }
  injection H as -> ->.
  unfold bind, lift, run_credential_get, ret, raise, decode in Hbody.
  destruct (credential_get env) as [rc out err| |name] eqn:Hcg;
    [|discriminate|discriminate].
  destruct (Z.eqb_spec rc 0) as [->|Hrc]; cbn [negb] in Hbody; [|discriminate].
  cbv beta iota in Hbody.
  destruct (decode_utf8 lib out) as [text|] eqn:Hd; [|discriminate].
  cbn [or_raise] in Hbody.
  destruct (yaml_load lib text) as [creds|] eqn:Hy; [|discriminate].
  cbn [or_raise] in Hbody.
  destruct (subscript creds (lit "credential")) as [c|e] eqn:Hc; [|discriminate].
  destruct (subscript c (lit "attributes")) as [creds_data|e] eqn:Ha; [|discriminate].
  destruct (login_cli env lib creds_data st) as [[[]|e] st2] eqn:Hlogin;
    [|discriminate].
  injection Hbody as <- <-.
  exists out, err, text, creds, c, creds_data. auto 10.
Qed.

(** X5. Whenever [get_credentials] comes to the credentials of the config
    and they are not empty, it reports them as invalid and returns
    [False], whatever they are: the decoded text is handed to [login_cli]
    as it is, and [login_cli] cannot subscript a string. *)
Theorem get_credentials_config_never_logs_in env lib st msg st1 credentials :
  credentials_from_trust env lib MSG_NO_CREDS st = (Return (inr msg), st1) ->
  subscript (VDict (config env)) (lit "credentials") = Return credentials ->
  truthy credentials = true ->
  get_credentials env lib st
  = (Return false, set_status MSG_INVALID_CONFIG st1).
Proof.
  intros Htrust Hconf Htruthy. unfold get_credentials, bind, lift.
  fold MSG_NO_CREDS. rewrite Htrust, Hconf, Htruthy.
  apply credentials_from_config_fails.
Qed.

Lemma get_credentials_config_never_logs_in_witness :
  get_credentials TrustSample.env_configured TrustSample.lib_decoding Sample.st0
  = (Return false, set_status MSG_INVALID_CONFIG Sample.st0).
Proof.
  apply (get_credentials_config_never_logs_in _ _ _ MSG_NO_CREDS Sample.st0
           (VStr (lit "YXBwbGljYXRpb24taWQ6IHg="))); reflexivity.
Defined.

(** X6. [get_credentials] returns [True] only by way of Juju's trust: the
    hook tool has exited with zero, its output is UTF-8 and holds the
    credential attributes, [login_cli] has returned on them, and the store
    now holds their subscription ID. *)
Theorem get_credentials_true_only_by_trust env lib st st' :
  get_credentials env lib st = (Return true, st') ->
  exists out err text creds c creds_data sub_id,
    credential_get env = Completed 0 out err
    /\ decode_utf8 lib out = Some text
    /\ yaml_load lib text = Some creds
    /\ subscript creds (lit "credential") = Return c
    /\ subscript c (lit "attributes") = Return creds_data
    /\ login_cli env lib creds_data st = (Return tt, st')
    /\ subscript creds_data (lit "subscription-id") = Return sub_id
    /\ kv st' !! KEY_SUB_ID = Some sub_id.
Proof.
  unfold get_credentials, bind, lift.
  destruct (credentials_from_trust env lib _ st) as [[[b|msg]|e] st1] eqn:Htrust;
    [| |discriminate].
  - unfold ret. intros [= -> ->].
    apply credentials_from_trust_true in Htrust
      as (out & err & text & creds & c & creds_data & Hcg & Hd & Hy & Hc & Ha
          & Hlogin & _).
    destruct (login_cli_stores_sub_id _ _ _ _ _ Hlogin) as (sub_id & Hs & Hkv).
    exists out, err, text, creds, c, creds_data, sub_id. auto 10.
  - destruct (subscript (VDict (config env)) (lit "credentials")) as [cr|e];
      [|discriminate].
    destruct (truthy cr).
    + rewrite credentials_from_config_fails. discriminate.
    + discriminate.
Qed.

Lemma get_credentials_true_only_by_trust_witness :
  let st' := snd (get_credentials (TrustRuns.env_trusted TrustRuns.tool_ok)
                    TrustRuns.lib_yaml Sample.st0) in
  exists out err text creds c creds_data sub_id,
    credential_get (TrustRuns.env_trusted TrustRuns.tool_ok) = Completed 0 out err
    /\ decode_utf8 TrustRuns.lib_yaml out = Some text
    /\ yaml_load TrustRuns.lib_yaml text = Some creds
    /\ subscript creds (lit "credential") = Return c
    /\ subscript c (lit "attributes") = Return creds_data
    /\ login_cli (TrustRuns.env_trusted TrustRuns.tool_ok) TrustRuns.lib_yaml
         creds_data Sample.st0 = (Return tt, st')
    /\ subscript creds_data (lit "subscription-id") = Return sub_id
    /\ kv st' !! KEY_SUB_ID = Some sub_id.
Proof.
  intros st'. apply get_credentials_true_only_by_trust. vm_compute. reflexivity.
Defined.

(** X7. A unit without credentials in its config is told what is missing:
    without the hook tool the status asks for the credentials config; when
    the hook tool fails, its error output is decoded: a text with
    [permission denied] makes the status ask for [juju trust], any other
    text raises the [CalledProcessError] to the caller, and an error
    output that is no UTF-8 raises [UnicodeDecodeError], both without a
    status. *)
Theorem get_credentials_without_credentials env lib st credentials :
  subscript (VDict (config env)) (lit "credentials") = Return credentials ->
  truthy credentials = false ->
  (credential_get env = NotFound ->
   get_credentials env lib st = (Return false, set_status MSG_NO_CREDS st))
  /\ (forall rc out err,
         credential_get env = Completed rc out err -> rc <> 0 ->
         get_credentials env lib st
         = match decode_utf8 lib err with
           | None => (Raise (OtherError (lit "UnicodeDecodeError")), st)
           | Some text =>
               if contains (lit "permission denied") text
               then (Return false, set_status MSG_NO_ACCESS st)
               else (Raise (CalledProcessError err), st)
           end).
Proof.
  intros Hconf Hfalsy. split.
  - intros Hcg.
    unfold get_credentials, credentials_from_trust, try_catch, bind, lift,
      run_credential_get, raise, ret, status_blocked.
    rewrite Hcg. cbv beta iota. rewrite Hconf, Hfalsy. reflexivity.
  - intros rc out err Hcg Hrc.
    unfold get_credentials, bind.
    rewrite (credentials_from_trust_refused _ _ _ _ _ _ _ Hcg Hrc).
    destruct (decode_utf8 lib err) as [text|]; [|reflexivity].
    destruct (contains (lit "permission denied") text); [|reflexivity].
    unfold lift, status_blocked, ret. rewrite Hconf, Hfalsy. reflexivity.
Qed.

Lemma get_credentials_without_credentials_witness :
  get_credentials Scenario.env_ok Sample.lib Sample.st0
  = (Return false, set_status MSG_NO_CREDS Sample.st0)
  /\ get_credentials TrustSample.env_untrusted Sample.lib Sample.st0
     = (Return false, set_status MSG_NO_ACCESS Sample.st0).
Proof.
  split.
  - apply (proj1 (get_credentials_without_credentials Scenario.env_ok Sample.lib
                    Sample.st0 (VStr []) eq_refl eq_refl)).
    reflexivity.
  - apply (proj2 (get_credentials_without_credentials TrustSample.env_untrusted
                    Sample.lib Sample.st0 (VStr []) eq_refl eq_refl)
             1 [] (encode (lit "ERROR permission denied"))).
    + reflexivity.
    + discriminate.
Defined.

(** X8. A missing [az] executable is taken for a missing hook tool: the
    [FileNotFoundError] that [login_cli] raises on the trusted credentials
    (read from the UTF-8 output of the hook tool) is handled by the clause
    meant for [credential-get], and a unit without credentials config is
    told that its credentials are missing; the store is left as it was. *)
Theorem get_credentials_az_missing env lib st out err text creds c creds_data
    app_id app_pass sub_id tenant_id st1 credentials :
  credential_get env = Completed 0 out err ->
  decode_utf8 lib out = Some text ->
  yaml_load lib text = Some creds ->
  subscript creds (lit "credential") = Return c ->
  subscript c (lit "attributes") = Return creds_data ->
  subscript creds_data (lit "application-id") = Return app_id ->
  subscript creds_data (lit "application-password") = Return app_pass ->
  subscript creds_data (lit "subscription-id") = Return sub_id ->
  _get_tenant_id env lib sub_id st = (Return tenant_id, st1) ->
  az_tool env (az_calls st) logout_argv = NotFound ->
  subscript (VDict (config env)) (lit "credentials") = Return credentials ->
  truthy credentials = false ->
  fst (get_credentials env lib st) = Return false
  /\ unit_status (snd (get_credentials env lib st)) = Some MSG_NO_CREDS
  /\ kv (snd (get_credentials env lib st)) = kv st.
Proof.
  intros Hcg Hd Hy Hc Ha H1 H2 H3 Hten Htool Hconf Hfalsy.
  assert (Hlogin : login_cli env lib creds_data st
                   = (Raise FileNotFoundError,
                      add_call logout_argv
                        (add_log INFO (lit "Forcing logout of Azure CLI") [] st1))).
  { unfold login_cli, bind, lift. rewrite H1, H2, H3, Hten.
    rewrite force_logout_except. unfold except_azure, _azure.
    change (argv_of [VStr (lit "az"); VStr (lit "logout")]) with (Some logout_argv).
    cbn [az_calls add_log].
    apply get_tenant_id_frame in Hten as (_ & Hc1 & _).
    rewrite Hc1, Htool. reflexivity. }
  unfold get_credentials, bind, lift. fold MSG_NO_CREDS.
  rewrite (credentials_from_trust_login _ _ _ _ _ _ _ _ _ _ Hcg Hd Hy Hc Ha), Hlogin.
  rewrite Hconf, Hfalsy. unfold status_blocked, ret. cbn.
  split; [reflexivity|]. split; [reflexivity|].
  apply get_tenant_id_frame in Hten as (Hkv & _). exact Hkv.
Qed.

Lemma get_credentials_az_missing_witness :
  let env := TrustRuns.env_trusted TrustRuns.tool_missing in
  fst (get_credentials env TrustRuns.lib_yaml Sample.st0) = Return false
  /\ unit_status (snd (get_credentials env TrustRuns.lib_yaml Sample.st0))
     = Some MSG_NO_CREDS
  /\ kv (snd (get_credentials env TrustRuns.lib_yaml Sample.st0)) = kv Sample.st0.
Proof.
  intros env.
  apply (get_credentials_az_missing env TrustRuns.lib_yaml Sample.st0
           (encode (lit "credential: ...")) [] (lit "credential: ...")
           TrustRuns.credential_doc
           (VDict [(lit "attributes", LoginRuns.creds)]) LoginRuns.creds
           (VStr (lit "1b2c3d4e")) (VStr (lit "S3cr3t-value")) (VStr (lit "sub-1"))
           (VStr (lit "72f988bf-86f1"))
           (snd (_get_tenant_id env TrustRuns.lib_yaml (VStr (lit "sub-1")) Sample.st0))
           (VStr []));
    reflexivity.
Defined.

(** X9. An error of the login with trusted credentials is not a reason to
    fall back on the config: every exception of [login_cli] other than
    [FileNotFoundError] and [CalledProcessError], the [AzureError] of a
    refused login among them, is raised by [get_credentials] as it is. *)
Theorem get_credentials_login_error_propagates env lib st out err text creds c
    creds_data e st' :
  credential_get env = Completed 0 out err ->
  decode_utf8 lib out = Some text ->
  yaml_load lib text = Some creds ->
  subscript creds (lit "credential") = Return c ->
  subscript c (lit "attributes") = Return creds_data ->
  login_cli env lib creds_data st = (Raise e, st') ->
  e <> FileNotFoundError ->
  (forall stderr, e <> CalledProcessError stderr) ->
  get_credentials env lib st = (Raise e, st').
Proof.
  intros Hcg Hd Hy Hc Ha Hlogin Hnf Hcp.
  unfold get_credentials, bind.
  rewrite (credentials_from_trust_login _ _ _ _ _ _ _ _ _ _ Hcg Hd Hy Hc Ha), Hlogin.
  destruct e; try reflexivity.
  - congruence.
  - exfalso. exact (Hcp stderr eq_refl).
Qed.

Lemma get_credentials_login_error_propagates_witness :
  let env := TrustRuns.env_trusted TrustRuns.tool_refusing in
  fst (get_credentials env TrustRuns.lib_yaml Sample.st0)
  = Raise (AzureError (lit "ERROR: refused")).
Proof.
  intros env.
  rewrite (get_credentials_login_error_propagates env TrustRuns.lib_yaml Sample.st0
             (encode (lit "credential: ...")) [] (lit "credential: ...")
             TrustRuns.credential_doc
             (VDict [(lit "attributes", LoginRuns.creds)]) LoginRuns.creds
             (AzureError (lit "ERROR: refused"))
             (snd (login_cli env TrustRuns.lib_yaml LoginRuns.creds Sample.st0))).
  - reflexivity.
  - reflexivity.
  - reflexivity.
  - reflexivity.
  - reflexivity.
  - reflexivity.
  - vm_compute. reflexivity.
  - discriminate.
  - discriminate.
Defined.

(** ** [ensure_msi] on a well-formed store *)

Lemma ensure_msi_recorded_run env lib req st v :
  recorded_identity st (vm_id req) = Some v ->
  truthy v = true ->
  ensure_msi env lib req st = (Return tt, log_instance_msi v st).
Proof.
  intros Hrec Htruthy.
  assert (Hid : has_identity st (vm_id req) = true)
    by (unfold has_identity; rewrite Hrec; exact Htruthy).
  unfold ensure_msi, bind. rewrite (get_msi_wf _ _ (has_identity_wf _ _ Hid)).
  rewrite Hrec, Htruthy. reflexivity.
Qed.

(** The run of [ensure_msi] when no identity is recorded: the tool is
    run, and the rest depends on what it gives back. *)
Lemma ensure_msi_assign_run env lib req st :
  identities_wf st ->
  has_identity st (vm_id req) = false ->
  exists rz,
    _azure env lib (lit "vm") (assign_identity_args req) false (log_enabling_msi st)
    = (rz, add_call (assign_identity_argv req) (log_enabling_msi st))
    /\ ensure_msi env lib req st
       = match rz with
         | Raise e => (Raise e, add_call (assign_identity_argv req) (log_enabling_msi st))
         | Return result =>
             match subscript result (lit "systemAssignedIdentity") with
             | Raise e =>
                 (Raise e, add_call (assign_identity_argv req) (log_enabling_msi st))
             | Return msi => (Return tt, msi_recorded req msi st)
             end
         end.
Proof.
  intros Hwf Hid.
  assert (Hfalsy : truthy (match recorded_identity st (vm_id req) with
                           | Some v => v
                           | None => VNone
                           end) = false).
  { unfold has_identity in Hid.
    destruct (recorded_identity st (vm_id req)); [exact Hid | reflexivity]. }
  destruct (_azure env lib (lit "vm") (assign_identity_args req) false
              (log_enabling_msi st)) as [rz sz] eqn:Hz.
  pose proof (azure_spec _ _ _ _ _ _ _ _ Hz) as [(Ha & _) | (argv & Ha & ->)];
    [discriminate Ha|].
  injection Ha as <-. fold (assign_identity_argv req).
  exists rz. split; [reflexivity|].
  unfold ensure_msi, bind. rewrite (get_msi_wf _ _ Hwf), Hfalsy.
  cbn [negb]. unfold log at 1. cbv beta iota.
  fold (assign_identity_args req). fold (log_enabling_msi st). rewrite Hz.
  destruct rz as [result|e]; [|reflexivity].
  unfold kv_get, lift. cbv beta iota. cbn [kv add_call log_enabling_msi add_log].
  destruct (subscript result (lit "systemAssignedIdentity")) as [msi|e];
    [|reflexivity].
  assert (Hget : (match kv st !! KEY_VM_IDENTITIES with
                  | Some v => v
                  | None => VDict []
                  end) = VDict (identities_of st)).
  { unfold identities_of. destruct Hwf as [H | [d H]]; rewrite H; reflexivity. }
  rewrite Hget. reflexivity.
Qed.

(** X10. Once [ensure_msi] has returned, an identity is recorded for the
    machine; if it is not empty, calling [ensure_msi] again, in whatever
    world, runs nothing and changes nothing but the log. *)
Theorem ensure_msi_twice env lib req st st1 :
  identities_wf st ->
  ensure_msi env lib req st = (Return tt, st1) ->
  exists msi,
    recorded_identity st1 (vm_id req) = Some msi
    /\ (truthy msi = true ->
        forall env', ensure_msi env' lib req st1
                     = (Return tt, log_instance_msi msi st1)).
Proof.
  intros Hwf Hrun.
  destruct (has_identity st (vm_id req)) eqn:Hid.
  - unfold has_identity in Hid.
    destruct (recorded_identity st (vm_id req)) as [v|] eqn:Hrec; [|discriminate].
    rewrite (ensure_msi_recorded_run env lib req st v Hrec Hid) in Hrun.
    injection Hrun as <-. exists v. split; [exact Hrec|].
    intros Ht env'. apply ensure_msi_recorded_run; [exact Hrec | exact Ht].
  - destruct (ensure_msi_assign_run env lib req st Hwf Hid) as (rz & _ & Heq).
    rewrite Heq in Hrun.
    destruct rz as [result|e]; [|discriminate].
    destruct (subscript result (lit "systemAssignedIdentity")) as [msi|e];
      [|discriminate].
    injection Hrun as <-. exists msi.
    assert (Hrec : recorded_identity (msi_recorded req msi st) (vm_id req) = Some msi).
    { unfold recorded_identity, identities_of, msi_recorded.
      cbn [kv log_instance_msi add_log set_kv].
      rewrite lookup_insert_eq. apply dict_get_set_eq. }
    split; [exact Hrec|].
    intros Ht env'. apply ensure_msi_recorded_run; [exact Hrec | exact Ht].
Qed.

Lemma ensure_msi_twice_witness :
  let st1 := snd (ensure_msi MsiRuns.env_assigning Sample.lib Sample.req
                    MsiRuns.st_other_vm) in
  exists msi,
    recorded_identity st1 (lit "vm-1") = Some msi
    /\ (truthy msi = true ->
        forall env', ensure_msi env' Sample.lib Sample.req st1
                     = (Return tt, log_instance_msi msi st1)).
Proof.
  intros st1.
  apply (ensure_msi_twice MsiRuns.env_assigning Sample.lib Sample.req
           MsiRuns.st_other_vm st1).
  - right. eexists. vm_compute. reflexivity.
  - vm_compute. reflexivity.
Defined.

(** X11. [ensure_msi] writes to one place only: every other key of the
    store, and within the map the identity of every other machine, is
    after the call what it was before. *)
Theorem ensure_msi_frame env lib req st :
  identities_wf st ->
  (forall k, k <> KEY_VM_IDENTITIES ->
             kv (snd (ensure_msi env lib req st)) !! k = kv st !! k)
  /\ (forall vm, vm <> vm_id req ->
                 recorded_identity (snd (ensure_msi env lib req st)) vm
                 = recorded_identity st vm).
Proof.
  intros Hwf.
  destruct (has_identity st (vm_id req)) eqn:Hid.
  - unfold has_identity in Hid.
    destruct (recorded_identity st (vm_id req)) as [v|] eqn:Hrec; [|discriminate].
    rewrite (ensure_msi_recorded_run env lib req st v Hrec Hid). auto.
  - destruct (ensure_msi_assign_run env lib req st Hwf Hid) as (rz & _ & ->).
    destruct rz as [result|e]; [|auto].
    destruct (subscript result (lit "systemAssignedIdentity")) as [msi|e]; [|auto].
    cbn [snd]. split.
    + intros k Hk. unfold msi_recorded.
      cbn [kv log_instance_msi add_log set_kv].
      apply lookup_insert_ne. congruence.
    + intros vm Hvm. unfold recorded_identity at 1. unfold identities_of at 1.
      unfold msi_recorded. cbn [kv log_instance_msi add_log set_kv].
      rewrite lookup_insert_eq. apply dict_get_set_ne. congruence.
Qed.

Lemma ensure_msi_frame_witness :
  let st1 := snd (ensure_msi MsiRuns.env_assigning Sample.lib Sample.req
                    MsiRuns.st_other_vm) in
  kv st1 !! KEY_SUB_ID = Some (VStr (lit "sub-1"))
  /\ recorded_identity st1 (lit "vm-0") = Some (VStr (lit "msi-0000"))
  /\ recorded_identity st1 (lit "vm-1") = Some (VStr (lit "msi-0001")).
Proof.
  intros st1.
  destruct (ensure_msi_frame MsiRuns.env_assigning Sample.lib Sample.req
              MsiRuns.st_other_vm) as [Hkeys Hvms].
  - right. eexists. vm_compute. reflexivity.
  - split; [|split].
    + unfold st1. rewrite Hkeys; [vm_compute; reflexivity | discriminate].
    + unfold st1. rewrite Hvms; [vm_compute; reflexivity | discriminate].
    + vm_compute. reflexivity.
Defined.

(** X12. An [ensure_msi] that raises (the tool refuses, its answer is not
    JSON or lacks [systemAssignedIdentity], the entry of the store is not
    a map) has not written to the store. *)
Theorem ensure_msi_failure_keeps_store env lib req st e :
  fst (ensure_msi env lib req st) = Raise e ->
  kv (snd (ensure_msi env lib req st)) = kv st.
Proof.
  destruct (ensure_msi env lib req st) as [r st'] eqn:H. simpl. intros ->.
  unfold ensure_msi, _get_msi, bind, kv_get, kv_set, lift, ret, log in H.
  run_cases H.
  all: try discriminate H.
  all: injection H as _ <-.
  all: azure_states.
  all: reflexivity.
Qed.

Lemma ensure_msi_failure_keeps_store_witness :
  kv (snd (ensure_msi Scenario.env_refused Sample.lib Sample.req MsiRuns.st_other_vm))
  = kv MsiRuns.st_other_vm.
Proof.
  apply (ensure_msi_failure_keeps_store _ _ _ _
           (AzureError (lit "ERROR: AuthorizationFailed"))).
  vm_compute. reflexivity.
Defined.

(** ** [_get_role] on a well-formed cache *)

(** A role that the cache of the store knows is returned as the cache
    has it, in whatever world: no role file is read, [az] is not run, the
    state is untouched. *)
Lemma get_role_from_cache env lib role_name st v :
  cached_role st role_name = Some v ->
  _get_role env lib role_name st = (Return v, st).
Proof.
  unfold cached_role, _get_role, bind, kv_get, lift.
  destruct (kv st !! KEY_ROLES) as [[| | | | |d]|]; try discriminate.
  intros H. simpl. rewrite H. reflexivity.
Qed.

Lemma get_role_from_cache_witness :
  _get_role Scenario.env_refused Sample.lib (lit "vm-reader") RoleRuns.st_cached
  = (Return (VStr (lit "juju-vm-reader-old")), RoleRuns.st_cached).
Proof. apply get_role_from_cache. reflexivity. Defined.

(** The run of [_get_role] for a role that the cache does not know: the
    role definition is prepared, then created. *)
Lemma get_role_uncached_run env lib role_name st :
  roles_wf st ->
  cached_role st role_name = None ->
  _get_role env lib role_name st
  = match role_definition env lib role_name (stored_sub_id st) with
    | Raise e => (Raise e, st)
    | Return (role_fullname, role_data) =>
        match create_role_definition env lib role_fullname role_data st with
        | (Return _, st') => (Return (VStr role_fullname), st')
        | (Raise e, st') => (Raise e, st')
        end
    end.
Proof.
  intros Hwf Hc.
  assert (Hknown : exists d, (match kv st !! KEY_ROLES with
                              | Some v => v
                              | None => VDict []
                              end) = VDict d /\ dict_get d role_name = None).
  { unfold cached_role in Hc.
    destruct Hwf as [H | [d H]]; rewrite H in *; eauto. }
  destruct Hknown as (d & Hk & Hd).
  unfold _get_role, role_definition, result_bind, format_field, stored_sub_id,
    role_file, bind, kv_get, lift, ret.
  rewrite Hk. cbn [py_in]. rewrite Hd.
  destruct (read_text env _) as [text|]; [|reflexivity].
  destruct (or_raise "JSONDecodeError" (json_loads lib text)) as [role_data|];
    [|reflexivity].
  destruct (subscript role_data (lit "Name")) as [name|]; [|reflexivity].
  destruct (match name with
            | VStr t => or_raise "ValueError" (str_format lib t _)
            | _ => Raise AttributeError
            end) as [role_fullname|]; [|reflexivity].
  destruct (subscript role_data (lit "AssignableScopes")) as [scopes|];
    [|reflexivity].
  destruct (index0 scopes) as [scope0|]; [|reflexivity].
  destruct (match scope0 with
            | VStr t => or_raise "ValueError" (str_format lib t _)
            | _ => Raise AttributeError
            end) as [scope|]; [|reflexivity].
  destruct (setitem role_data (lit "Name") (VStr role_fullname)) as [rd1|];
    [|reflexivity].
  destruct (subscript rd1 (lit "AssignableScopes")) as [scopes1|]; [|reflexivity].
  destruct (setindex0 scopes1 (VStr scope)) as [scopes2|]; [|reflexivity].
  destruct (setitem rd1 (lit "AssignableScopes") scopes2) as [rd2|]; [|reflexivity].
  destruct (create_role_definition env lib role_fullname rd2 st) as [[[]|e] st'];
    reflexivity.
Qed.

Lemma subscript_dict v k x :
  subscript v k = Return x -> exists d, v = VDict d /\ dict_get d k = Some x.
Proof.
  destruct v; try discriminate. simpl.
  destruct (dict_get d k) eqn:E; [|discriminate]. intros [= ->]. eauto.
Qed.

Lemma format_field_str lib v sub_id s :
  format_field lib v sub_id = Return s ->
  exists t, v = VStr t /\ str_format lib t sub_id = Some s.
Proof.
  destruct v; try discriminate. simpl.
  destruct (str_format lib s0 sub_id) eqn:E; [|discriminate].
  intros [= ->]. eauto.
Qed.

(** What a prepared role definition is made of: the document of the role
    file, with its name and its first scope formatted with the
    subscription ID and every other field as in the file. *)
Lemma role_definition_spec env lib role_name sub_id role_fullname role_data :
  role_definition env lib role_name sub_id = Return (role_fullname, role_data) ->
  exists text file_data name_template scope_template scope rest,
    read_text env (role_file role_name) = Some text
    /\ json_loads lib text = Some file_data
    /\ subscript file_data (lit "Name") = Return (VStr name_template)
    /\ str_format lib name_template sub_id = Some role_fullname
    /\ subscript file_data (lit "AssignableScopes")
       = Return (VList (VStr scope_template :: rest))
    /\ str_format lib scope_template sub_id = Some scope
    /\ subscript role_data (lit "Name") = Return (VStr role_fullname)
    /\ subscript role_data (lit "AssignableScopes")
       = Return (VList (VStr scope :: rest))
    /\ (forall k, k <> lit "Name" -> k <> lit "AssignableScopes" ->
                  subscript role_data k = subscript file_data k).
Proof.
  unfold role_definition, result_bind.
  destruct (read_text env (role_file role_name)) as [text|]; [|discriminate].
  destruct (json_loads lib text) as [file_data|] eqn:Hj; [|discriminate].
  cbn [or_raise].
  destruct (subscript file_data (lit "Name")) as [name|] eqn:Hn; [|discriminate].
  destruct (format_field lib name sub_id) as [fullname|] eqn:Hf; [|discriminate].
  apply format_field_str in Hf as (tpl & -> & Hfmt).
  destruct (subscript file_data (lit "AssignableScopes")) as [scopes|] eqn:Hs;
    [|discriminate].
  destruct (index0 scopes) as [scope0|] eqn:Hi; [|discriminate].
  destruct (format_field lib scope0 sub_id) as [scope|] eqn:Hf2; [|discriminate].
  apply format_field_str in Hf2 as (stpl & -> & Hfmt2).
  apply subscript_dict in Hn as Hd. destruct Hd as (d & -> & Hdn).
  cbn [setitem subscript].
  assert (Hne : lit "Name" <> lit "AssignableScopes") by discriminate.
  rewrite (dict_get_set_ne d _ _ (VStr fullname) Hne).
  cbn [subscript] in Hs.
  destruct (dict_get d (lit "AssignableScopes")) as [sc|] eqn:Has;
    [|discriminate].
  injection Hs as ->.
  destruct scopes as [| | |s0|l|]; try discriminate.
  destruct l as [|x rest]; [discriminate|]. injection Hi as ->.
  cbn [setindex0]. intros [= <- <-].
  exists text, (VDict d), tpl, stpl, scope, rest.
  split; [reflexivity|]. split; [exact Hj|]. split; [exact Hn|].
  split; [exact Hfmt|].
  split; [cbn [subscript]; rewrite Has; reflexivity|].
  split; [exact Hfmt2|].
  split.
  { cbn [subscript].
    rewrite (dict_get_set_ne _ (lit "AssignableScopes") (lit "Name"))
      by discriminate.
    rewrite dict_get_set_eq. reflexivity. }
  split.
  { cbn [subscript]. rewrite dict_get_set_eq. reflexivity. }
  intros k Hk1 Hk2. cbn [subscript].
  rewrite (dict_get_set_ne _ (lit "AssignableScopes") k) by congruence.
  rewrite (dict_get_set_ne _ (lit "Name") k) by congruence. reflexivity.
Qed.

(** The creation of a prepared role: one invocation, and the store is
    not written. *)
Lemma create_role_definition_state env lib role_fullname role_data st r st' :
  create_role_definition env lib role_fullname role_data st = (r, st') ->
  st' = add_call (role_creation_argv lib role_data)
          (add_log INFO (lit "Ensuring role {}") [VStr role_fullname] st).
Proof.
  rewrite create_role_definition_except. unfold except_azure.
  destruct (_azure env lib (lit "role") _ false _) as [rz sz] eqn:Hz.
  pose proof (azure_spec _ _ _ _ _ _ _ _ Hz) as [(Ha & _) | (argv & Ha & ->)];
    [discriminate Ha|].
  injection Ha as <-. fold (role_creation_argv lib role_data).
  destruct rz as [v|e]; [intros [= _ <-]; reflexivity|].
  destruct e; try (intros [= _ <-]; reflexivity).
  destruct (contains (lit "already exists") msg); intros [= _ <-]; reflexivity.
Qed.

(** X13. [_get_role] takes a role that exists already for a role it has
    created: when [az role definition create] is refused, its output is
    UTF-8 and its error output contains [already exists], the full name is
    returned all the same; refused with any other message, [_get_role]
    raises that message as [AzureError]; and when one of the two streams
    of the refused command is no UTF-8, it raises [UnicodeDecodeError]. *)
Theorem get_role_tolerates_existing env lib role_name st role_fullname role_data
    rc out err :
  roles_wf st ->
  cached_role st role_name = None ->
  role_definition env lib role_name (stored_sub_id st)
  = Return (role_fullname, role_data) ->
  az_tool env (az_calls st) (role_creation_argv lib role_data)
  = Completed rc out err ->
  rc <> 0 ->
  fst (_get_role env lib role_name st)
  = match decode_utf8 lib out, decode_utf8 lib err with
    | Some _, Some text =>
        if contains (lit "already exists") (strip text)
        then Return (VStr role_fullname)
        else Raise (AzureError (strip text))
    | _, _ => Raise (OtherError (lit "UnicodeDecodeError"))
    end.
Proof.
  intros Hwf Hc Hdef Htool Hrc.
  rewrite (get_role_uncached_run env lib role_name st Hwf Hc), Hdef.
  rewrite create_role_definition_except. unfold except_azure, _azure.
  change (argv_of _) with (Some (role_creation_argv lib role_data)).
  cbn [az_calls add_log]. rewrite Htool. unfold decode.
  destruct (decode_utf8 lib out) as [out'|]; [|reflexivity].
  destruct (decode_utf8 lib err) as [text|]; [|reflexivity].
  cbn [or_raise]. cbv beta iota zeta.
  destruct (Z.eqb_spec rc 0) as [|_]; [contradiction|]. cbn [negb].
  destruct (contains (lit "already exists") (strip text)); reflexivity.
Qed.

Lemma get_role_tolerates_existing_witness :
  fst (_get_role RoleRuns.env_existing Sample.lib (lit "vm-reader") Scenario.st_ready)
  = Return (VStr (lit "juju-vm-reader-sub-1")).
Proof.
  apply (get_role_tolerates_existing RoleRuns.env_existing Sample.lib
           (lit "vm-reader") Scenario.st_ready (lit "juju-vm-reader-sub-1")
           Scenario.vm_reader_data 1 []
           (encode (lit "ERROR: A custom role with the same name already exists."))).
  - left. reflexivity.
  - reflexivity.
  - vm_compute. reflexivity.
  - reflexivity.
  - discriminate.
Defined.

(** X14. The role that [_get_role] returns is the role it has created:
    when a role that is not cached is returned, [az role definition create]
    has been run once, on the document of the role file in which the name
    is the returned full name (the name of the file formatted with the
    subscription ID of the store) and every field but the name and the
    scopes is as in the file; the store is not written. *)
Theorem get_role_creates_what_it_returns env lib role_name st v st' :
  roles_wf st ->
  cached_role st role_name = None ->
  _get_role env lib role_name st = (Return v, st') ->
  exists role_fullname role_data text file_data name_template,
    v = VStr role_fullname
    /\ az_calls st' = az_calls st ++ [role_creation_argv lib role_data]
    /\ kv st' = kv st
    /\ subscript role_data (lit "Name") = Return (VStr role_fullname)
    /\ read_text env (role_file role_name) = Some text
    /\ json_loads lib text = Some file_data
    /\ subscript file_data (lit "Name") = Return (VStr name_template)
    /\ str_format lib name_template (stored_sub_id st) = Some role_fullname
    /\ (forall k, k <> lit "Name" -> k <> lit "AssignableScopes" ->
                  subscript role_data k = subscript file_data k).
Proof.
  intros Hwf Hc. rewrite (get_role_uncached_run env lib role_name st Hwf Hc).
  destruct (role_definition env lib role_name (stored_sub_id st))
    as [[role_fullname role_data]|e] eqn:Hdef; [|discriminate].
  destruct (create_role_definition env lib role_fullname role_data st)
    as [[[]|e] st1] eqn:Hcreate; [|discriminate].
  intros [= <- <-].
  apply create_role_definition_state in Hcreate as ->.
  apply role_definition_spec in Hdef
    as (text & file_data & tpl & stpl & scope & rest
        & Hread & Hj & Hn & Hfmt & _ & _ & Hname & _ & Hrest).
  exists role_fullname, role_data, text, file_data, tpl.
  repeat (split; [first [reflexivity | assumption]|]). exact Hrest.
Qed.

Lemma get_role_creates_what_it_returns_witness :
  let st' := snd (_get_role Scenario.env_ok Sample.lib (lit "vm-reader")
                    Scenario.st_ready) in
  exists role_fullname role_data text file_data name_template,
    VStr (lit "juju-vm-reader-sub-1") = VStr role_fullname
    /\ az_calls st' = az_calls Scenario.st_ready ++ [role_creation_argv Sample.lib role_data]
    /\ kv st' = kv Scenario.st_ready
    /\ subscript role_data (lit "Name") = Return (VStr role_fullname)
    /\ read_text Scenario.env_ok (role_file (lit "vm-reader")) = Some text
    /\ json_loads Sample.lib text = Some file_data
    /\ subscript file_data (lit "Name") = Return (VStr name_template)
    /\ str_format Sample.lib name_template (stored_sub_id Scenario.st_ready)
       = Some role_fullname
    /\ (forall k, k <> lit "Name" -> k <> lit "AssignableScopes" ->
                  subscript role_data k = subscript file_data k).
Proof.
  intros st'.
  apply (get_role_creates_what_it_returns Scenario.env_ok Sample.lib
           (lit "vm-reader") Scenario.st_ready).
  - left. reflexivity.
  - reflexivity.
  - vm_compute. reflexivity.
Defined.

(** ** [_assign_role] and the [enable_*] operations *)

Lemma recorded_identity_wf st vm v :
  recorded_identity st vm = Some v -> identities_wf st.
Proof.
  unfold recorded_identity, identities_of, identities_wf.
  destruct (kv st !! KEY_VM_IDENTITIES) as [[]|]; simpl; eauto; discriminate.
Qed.

Lemma role_of_builtin env lib op role :
  builtin_role op = Some role -> role_of env lib op = ret (VStr role).
Proof. destruct op; simpl; intros [= <-]; reflexivity. Qed.

Lemma count_if_app {A} (p : A -> bool) (l1 l2 : list A) :
  count_if p (l1 ++ l2) = (count_if p l1 + count_if p l2)%nat.
Proof. induction l1 as [|x l1 IH]; simpl; [reflexivity | rewrite IH; lia]. Qed.

(** [_assign_role] for a machine without a recorded identity: the [None]
    among the arguments stops [_azure] before the tool is run. *)
Lemma assign_role_without_identity env lib req role st :
  identities_wf st ->
  recorded_identity st (vm_id req) = None ->
  _assign_role env lib req role st = (Raise TypeError, st).
Proof.
  intros Hwf Hrec. unfold _assign_role, bind.
  rewrite (get_msi_wf _ _ Hwf), Hrec. reflexivity.
Qed.

(** X15. An operation on a built-in role, for a machine whose identity is
    recorded, runs exactly [az role assignment create] with that identity
    as assignee, the resource group of the request and the role of the
    operation; the store is not written.  When the two streams of the tool
    are UTF-8, a refusal is raised as [AzureError] with its error output,
    and a success that prints nothing but white space makes the operation
    return; when one of them is not, the operation raises
    [UnicodeDecodeError]. *)
Theorem enable_builtin_assigns env lib op role req st msi :
  builtin_role op = Some role ->
  recorded_identity st (vm_id req) = Some (VStr msi) ->
  let run := run_enable env lib op req st in
  let argv := role_assignment_argv msi (resource_group req) role in
  az_calls (snd run) = az_calls st ++ [argv]
  /\ kv (snd run) = kv st
  /\ (forall rc out err out' err',
         az_tool env (az_calls st) argv = Completed rc out err ->
         decode_utf8 lib out = Some out' ->
         decode_utf8 lib err = Some err' ->
         rc <> 0 ->
         fst run = Raise (AzureError (strip err')))
  /\ (forall out err out' err',
         az_tool env (az_calls st) argv = Completed 0 out err ->
         decode_utf8 lib out = Some out' ->
         decode_utf8 lib err = Some err' ->
         strip out' = [] ->
         fst run = Return tt)
  /\ (forall rc out err,
         az_tool env (az_calls st) argv = Completed rc out err ->
         decode_utf8 lib out = None \/ decode_utf8 lib err = None ->
         fst run = Raise (OtherError (lit "UnicodeDecodeError"))).
Proof.
  intros Hop Hrec. cbv zeta.
  rewrite run_enable_sequence, (role_of_builtin env lib op role Hop).
  unfold _assign_role, bind, log, ret. cbv beta iota.
  set (st1 := add_log INFO (enable_message op) [] st).
  assert (Hrec1 : recorded_identity st1 (vm_id req) = Some (VStr msi))
    by exact Hrec.
  rewrite (get_msi_wf _ _ (recorded_identity_wf _ _ _ Hrec1)), Hrec1.
  subst st1.
  destruct (_azure env lib (lit "role") _ false _) as [rz sz] eqn:Hz.
  destruct (azure_result _ _ _ _ _ _ _ _
              (role_assignment_argv msi (resource_group req) role) Hz eq_refl)
    as [Hdec Hund].
  pose proof (azure_spec _ _ _ _ _ _ _ _ Hz) as [(Ha & _) | (argv & Ha & ->)];
    [discriminate Ha|].
  injection Ha as <-.
  split; [destruct rz; reflexivity|]. split; [destruct rz; reflexivity|].
  split; [|split].
  - intros rc out err out' err' Ht Ho He Hrc.
    rewrite (Hdec _ _ _ _ _ Ht Ho He).
    destruct (Z.eqb_spec rc 0) as [|_]; [contradiction | reflexivity].
  - intros out err out' err' Ht Ho He Hblank.
    rewrite (Hdec _ _ _ _ _ Ht Ho He). unfold azure_success. rewrite Hblank.
    reflexivity.
  - intros rc out err Ht Hd. rewrite (Hund _ _ _ Ht Hd). reflexivity.
Qed.

Lemma enable_builtin_assigns_witness :
  let run := run_enable Scenario.env_ok Sample.lib NetworkManagement Sample.req
               Scenario.st_ready in
  az_calls (snd run)
  = [role_assignment_argv (lit "msi-0001") (lit "rg") (lit "Network Contributor")]
  /\ fst run = Return tt.
Proof.
  intros run.
  destruct (enable_builtin_assigns Scenario.env_ok Sample.lib NetworkManagement
              (lit "Network Contributor") Sample.req Scenario.st_ready
              (lit "msi-0001") eq_refl eq_refl) as (Hcalls & _ & _ & Hok & _).
  split; [exact Hcalls|]. apply (Hok [] [] [] []); reflexivity.
Defined.

(** X16. Before [ensure_msi] has recorded an identity for the machine, no
    [enable_*] operation assigns anything: each one raises, none runs
    [az role assignment create], and an operation on a built-in role runs
    nothing at all and raises [TypeError]. *)
Theorem enable_without_identity env lib op req st :
  identities_wf st ->
  recorded_identity st (vm_id req) = None ->
  let run := run_enable env lib op req st in
  (exists e, fst run = Raise e)
  /\ count_if is_role_assignment (az_calls (snd run))
     = count_if is_role_assignment (az_calls st)
  /\ (forall role, builtin_role op = Some role ->
                   run = (Raise TypeError, add_log INFO (enable_message op) [] st)).
Proof.
  intros Hwf Hrec. cbv zeta. rewrite run_enable_sequence.
  unfold bind, log. cbv beta iota.
  set (st1 := add_log INFO (enable_message op) [] st).
  destruct (role_of env lib op st1) as [rr sr] eqn:Hrole.
  assert (Hsr : kv sr = kv st
                /\ (az_calls sr = az_calls st
                    \/ exists rd, az_calls sr = az_calls st ++ [role_creation_argv lib rd])).
  { destruct op; simpl in Hrole;
      first [ apply get_role_spec in Hrole; exact Hrole
            | injection Hrole as _ <-; auto ]. }
  destruct Hsr as [Hkv Hcalls].
  assert (Hcount : count_if is_role_assignment (az_calls sr)
                   = count_if is_role_assignment (az_calls st)).
  { destruct Hcalls as [-> | [rd ->]]; [reflexivity|].
    rewrite count_if_app. simpl. lia. }
  split; [|split].
  - destruct rr as [role|e]; [|simpl; eauto].
    rewrite assign_role_without_identity; [simpl; eauto | |].
    + unfold identities_wf. rewrite Hkv. exact Hwf.
    + unfold recorded_identity, identities_of. rewrite Hkv. exact Hrec.
  - destruct rr as [role|e]; [|exact Hcount].
    rewrite assign_role_without_identity; [exact Hcount | |].
    + unfold identities_wf. rewrite Hkv. exact Hwf.
    + unfold recorded_identity, identities_of. rewrite Hkv. exact Hrec.
  - intros role Hop. rewrite (role_of_builtin env lib op role Hop) in Hrole.
    injection Hrole as <- <-.
    apply assign_role_without_identity; assumption.
Qed.

Lemma enable_without_identity_witness :
  run_enable Scenario.env_ok Sample.lib DnsManagement Sample.req Sample.st0
  = (Raise TypeError, add_log INFO (enable_message DnsManagement) [] Sample.st0).
Proof.
  destruct (enable_without_identity Scenario.env_ok Sample.lib DnsManagement
              Sample.req Sample.st0) as (_ & _ & H).
  - left. reflexivity.
  - reflexivity.
  - apply (H (lit "DNS Zone Contributor")). reflexivity.
Defined.

(** ** [tag_instance] *)

Lemma argv_of_strings (f : str * str -> str) (tags : list (str * str)) :
  argv_of (map (fun tv => VStr (f tv)) tags) = Some (map f tags).
Proof.
  induction tags as [|tv tags IH]; simpl; [reflexivity | rewrite IH; reflexivity].
Qed.

Lemma tag_argv_of req :
  argv_of (VStr (lit "az") :: VStr (lit "vm")
             :: [VStr (lit "update");
                 VStr (lit "--name"); VStr (vm_name req);
                 VStr (lit "--resource-group"); VStr (resource_group req);
                 VStr (lit "--set")]
                ++ map (fun tv => VStr (lit "tags." ++ fst tv ++ lit "=" ++ snd tv))
                     (instance_tags req))
  = Some (tag_argv req).
Proof.
  unfold tag_argv. cbn [argv_of app].
  rewrite (argv_of_strings (fun tv => lit "tags." ++ fst tv ++ lit "=" ++ snd tv)).
  reflexivity.
Qed.

(** X17. [tag_instance] always runs [az vm update] exactly once, with
    [--set] followed by one [tags.<tag>=<value>] for every tag of the
    request, in their order (and by nothing when there is no tag); it does
    not write to the store.  A refusal of the tool whose two streams are
    UTF-8 is raised as [AzureError] with its error output; when one of the
    streams is not, whatever the return code, [tag_instance] raises
    [UnicodeDecodeError]. *)
Theorem tag_instance_run env lib req st :
  let run := tag_instance env lib req st in
  az_calls (snd run) = az_calls st ++ [tag_argv req]
  /\ length (tag_argv req) = (8 + length (instance_tags req))%nat
  /\ kv (snd run) = kv st
  /\ (forall rc out err out' err',
         az_tool env (az_calls st) (tag_argv req) = Completed rc out err ->
         decode_utf8 lib out = Some out' ->
         decode_utf8 lib err = Some err' ->
         rc <> 0 ->
         fst run = Raise (AzureError (strip err')))
  /\ (forall rc out err,
         az_tool env (az_calls st) (tag_argv req) = Completed rc out err ->
         decode_utf8 lib out = None \/ decode_utf8 lib err = None ->
         fst run = Raise (OtherError (lit "UnicodeDecodeError"))).
Proof.
  cbv zeta. unfold tag_instance, bind, log, ret. cbv beta iota.
  destruct (_azure env lib (lit "vm") _ false _) as [rz sz] eqn:Hz.
  destruct (azure_result _ _ _ _ _ _ _ _ (tag_argv req) Hz (tag_argv_of req))
    as [Hdec Hund].
  pose proof (azure_spec _ _ _ _ _ _ _ _ Hz) as [(Ha & _) | (argv & Ha & ->)];
    [rewrite tag_argv_of in Ha; discriminate Ha|].
  rewrite tag_argv_of in Ha. injection Ha as <-.
  split; [destruct rz; reflexivity|].
  split; [unfold tag_argv; rewrite length_app, length_map; reflexivity|].
  split; [destruct rz; reflexivity|].
  split.
  - intros rc out err out' err' Ht Ho He Hrc.
    rewrite (Hdec _ _ _ _ _ Ht Ho He).
    destruct (Z.eqb_spec rc 0) as [|_]; [contradiction | reflexivity].
  - intros rc out err Ht Hd. rewrite (Hund _ _ _ Ht Hd). reflexivity.
Qed.

Lemma tag_instance_run_witness :
  az_calls (snd (tag_instance Scenario.env_refused Sample.lib TagRuns.req_two_tags
                   Sample.st0))
  = [[lit "az"; lit "vm"; lit "update"; lit "--name"; lit "juju-0";
      lit "--resource-group"; lit "rg"; lit "--set";
      lit "tags.owner=k8s"; lit "tags.env=prod"]]
  /\ fst (tag_instance Scenario.env_refused Sample.lib TagRuns.req_two_tags Sample.st0)
     = Raise (AzureError (lit "ERROR: AuthorizationFailed")).
Proof.
  destruct (tag_instance_run Scenario.env_refused Sample.lib TagRuns.req_two_tags
              Sample.st0) as (Hcalls & _ & _ & Hfail & _).
  split; [exact Hcalls|].
  apply (Hfail 1 [] (encode (lit "ERROR: AuthorizationFailed")) []
           (lit "ERROR: AuthorizationFailed"));
    [reflexivity | reflexivity | reflexivity | discriminate].
Defined.

(** ** [_elide] with any ellipsis *)

(** X18. Eliding twice is eliding once, for every bound that exceeds the
    length of the ellipsis: the elided string fits the bound and is left
    alone by a second call. *)
Theorem elide_idempotent s max_len ellipsis :
  Z.of_nat (length ellipsis) < max_len ->
  _elide (_elide s max_len ellipsis) max_len ellipsis = _elide s max_len ellipsis.
Proof.
  intros He. apply elide_short.
  destruct (Z.le_gt_cases (Z.of_nat (length s)) max_len) as [Hle|Hgt].
  - rewrite elide_short by exact Hle. exact Hle.
  - rewrite elide_length by lia. lia.
Qed.

Lemma elide_idempotent_witness :
  _elide (_elide (lit "abcdefghij") 8 default_ellipsis) 8 default_ellipsis
  = lit "ab...hij".
Proof.
  rewrite (elide_idempotent (lit "abcdefghij") 8 default_ellipsis).
  - reflexivity.
  - simpl. lia.
Defined.

(** X19. An elided string keeps the two ends of the original: the first
    [h] and the last [t] characters around the ellipsis, where [h + t] is
    what the bound leaves beside the ellipsis and the tail gets the odd
    character. *)
Theorem elide_keeps_ends s max_len ellipsis :
  Z.of_nat (length ellipsis) < max_len ->
  max_len < Z.of_nat (length s) ->
  exists h t : nat,
    Z.of_nat h + Z.of_nat t = max_len - Z.of_nat (length ellipsis)
    /\ (t = h \/ t = S h)
    /\ _elide s max_len ellipsis
       = firstn h s ++ ellipsis ++ skipn (length s - t) s.
Proof.
  intros He H. unfold _elide.
  destruct (Z.gtb_spec (Z.of_nat (length s)) max_len); [|lia].
  set (x := max_len - Z.of_nat (length ellipsis)).
  assert (Hf : 0 <= floor_half x)
    by (unfold floor_half; Z.div_mod_to_equations; lia).
  assert (Hc : 1 <= ceil_half x)
    by (unfold ceil_half; Z.div_mod_to_equations; lia).
  assert (Hfc : ceil_half x = floor_half x \/ ceil_half x = floor_half x + 1)
    by (unfold floor_half, ceil_half; Z.div_mod_to_equations; lia).
  pose proof (floor_ceil_half x) as Hsum.
  exists (Z.to_nat (floor_half x)), (Z.to_nat (ceil_half x)).
  split; [lia|]. split; [lia|].
  unfold slice_to, slice_from, slice_index.
  destruct (Z.ltb_spec (floor_half x) 0); [lia|].
  destruct (Z.ltb_spec (- ceil_half x) 0); [|lia].
  f_equal; [f_equal; lia|]. f_equal. f_equal. lia.
Qed.

Lemma elide_keeps_ends_witness :
  exists h t : nat,
    Z.of_nat h + Z.of_nat t = 8 - Z.of_nat (length default_ellipsis)
    /\ (t = h \/ t = S h)
    /\ _elide (lit "abcdefghij") 8 default_ellipsis
       = firstn h (lit "abcdefghij") ++ default_ellipsis
           ++ skipn (length (lit "abcdefghij") - t) (lit "abcdefghij").
Proof.
  apply (elide_keeps_ends (lit "abcdefghij") 8 default_ellipsis); simpl; lia.
Defined.

(** X20. A bound equal to the length of the ellipsis does not shorten
    anything: the tail slice [s[-0:]] is the whole string, so a longer
    string comes back whole behind the ellipsis, longer than it was. *)
Theorem elide_bound_of_ellipsis s max_len ellipsis :
  max_len = Z.of_nat (length ellipsis) ->
  max_len < Z.of_nat (length s) ->
  _elide s max_len ellipsis = ellipsis ++ s.
Proof.
  intros -> H. unfold _elide.
  destruct (Z.gtb_spec (Z.of_nat (length s)) (Z.of_nat (length ellipsis))); [|lia].
  rewrite Z.sub_diag.
  change (floor_half 0) with 0. change (- ceil_half 0) with 0.
  unfold slice_to, slice_from, slice_index. change (0 <? 0) with false.
  cbv iota. rewrite Z.min_l by lia. reflexivity.
Qed.

Lemma elide_bound_of_ellipsis_witness :
  _elide (lit "abcdef") 2 (lit "..") = lit "..abcdef".
Proof.
  apply (elide_bound_of_ellipsis (lit "abcdef") 2 (lit "..")); simpl; lia.
Defined.

(** ** [_get_tenant_id]: effects and origin of the result *)

(** X21. [_get_tenant_id] makes exactly one request and leaves the store,
    the [az] trace and the status alone; it writes one error line to the
    log exactly when it returns [None], and no line otherwise. *)
Theorem get_tenant_id_effects env lib sub_id st :
  let run := _get_tenant_id env lib sub_id st in
  kv (snd run) = kv st
  /\ az_calls (snd run) = az_calls st
  /\ unit_status (snd run) = unit_status st
  /\ http_requests (snd run) = http_requests st ++ [tenant_url lib sub_id]
  /\ ((fst run = Return VNone
       /\ exists msg args, log_lines (snd run) = log_lines st ++ [(ERROR, msg, args)])
      \/ (fst run <> Return VNone /\ log_lines (snd run) = log_lines st)).
Proof.
  cbv zeta. unfold _get_tenant_id.
  destruct (urlopen env _) as [|hdrs|name].
  - repeat (split; [reflexivity|]). left. split; [reflexivity|].
    eexists _, _. reflexivity.
  - destruct (headers_get hdrs WWW_AUTHENTICATE) as [www_auth|].
    + destruct (re_search authorization_uri_re www_auth).
      * repeat (split; [reflexivity|]). right. split; [discriminate | reflexivity].
      * repeat (split; [reflexivity|]). left. split; [reflexivity|].
        eexists _, _. reflexivity.
    + repeat (split; [reflexivity|]). left. split; [reflexivity|].
      eexists _, _. reflexivity.
  - repeat (split; [reflexivity|]). right. split; [discriminate | reflexivity].
Qed.

(** X22. A tenant ID is only ever taken from the [WWW-Authenticate]
    header of an HTTP error: the header holds [authorization_uri=] and a
    quote, and the ID is the text of the header between a slash and the
    closing quote; it contains neither a slash nor a quote. *)
Theorem tenant_id_origin env lib sub_id st tenant_id :
  fst (_get_tenant_id env lib sub_id st) = Return (VStr tenant_id) ->
  exists hdrs www_auth,
    urlopen env (tenant_url lib sub_id) = UrlHTTPError hdrs
    /\ headers_get hdrs WWW_AUTHENTICATE = Some www_auth
    /\ (exists pre body post,
           www_auth = pre ++ AUTHORIZATION_URI ++ body
                        ++ slash :: tenant_id ++ dquote :: post)
    /\ ~ In slash tenant_id /\ ~ In dquote tenant_id.
Proof.
  unfold _get_tenant_id.
  destruct (urlopen env (tenant_url lib sub_id)) as [|hdrs|name] eqn:Hurl;
    [discriminate| |discriminate].
  destruct (headers_get hdrs WWW_AUTHENTICATE) as [www_auth|] eqn:Hhdr;
    [|discriminate].
  destruct (re_search authorization_uri_re www_auth) as [gs|] eqn:E;
    [|discriminate].
  apply search_authorization_uri_some in E
    as (seg & -> & pre & body & post & (Hs & _ & Hq & Hsl) & _).
  simpl. intros [= <-].
  exists hdrs, www_auth. split; [reflexivity|]. split; [exact Hhdr|].
  split; [exists pre, body, post; exact Hs|]. split; assumption.
Qed.

Lemma tenant_id_origin_witness :
  exists hdrs www_auth,
    urlopen TenantSample.env (tenant_url Sample.lib (VStr (lit "sub-1")))
    = UrlHTTPError hdrs
    /\ headers_get hdrs WWW_AUTHENTICATE = Some www_auth
    /\ (exists pre body post,
           www_auth = pre ++ AUTHORIZATION_URI ++ body
                        ++ slash :: lit "72f988bf-86f1" ++ dquote :: post)
    /\ ~ In slash (lit "72f988bf-86f1") /\ ~ In dquote (lit "72f988bf-86f1").
Proof.
  apply (tenant_id_origin TenantSample.env Sample.lib (VStr (lit "sub-1")) Sample.st0).
  reflexivity.
Defined.

(** ** [_azure] on a silent command *)

Lemma lstrip_blank s : forallb py_isspace s = true -> lstrip s = [].
Proof.
  induction s as [|c s IH]; simpl; [reflexivity|].
  destruct (py_isspace c); [exact IH | discriminate].
Qed.

Lemma strip_blank s : forallb py_isspace s = true -> strip s = [].
Proof. intros H. unfold strip. rewrite (lstrip_blank s H). reflexivity. Qed.

(** X24. A command that succeeds, writes UTF-8 to both streams and prints
    nothing but white space gives the empty string: [json.loads] is not
    called on it, so no JSON error can arise, whatever the library. *)
Theorem azure_blank_output env lib cmd args st argv out err text err_text :
  argv_of (VStr (lit "az") :: VStr cmd :: args) = Some argv ->
  az_tool env (az_calls st) argv = Completed 0 out err ->
  decode_utf8 lib out = Some text ->
  decode_utf8 lib err = Some err_text ->
  forallb py_isspace text = true ->
  _azure env lib cmd args false st = (Return (VStr []), add_call argv st).
Proof.
  intros Ha Htool Ho He Hblank.
  rewrite (azure_completed _ _ _ _ _ _ _ _ _ _ _ _ Ha Htool Ho He).
  unfold azure_success. rewrite (strip_blank text Hblank). reflexivity.
Qed.

Lemma azure_blank_output_witness :
  _azure (Sample.env_const (Completed 0 (encode (lit " ")) [])) Sample.lib
    (lit "logout") [] false Sample.st0
  = (Return (VStr []), add_call logout_argv Sample.st0).
Proof.
  apply (azure_blank_output _ _ _ _ _ logout_argv (encode (lit " ")) [] (lit " ") []);
    reflexivity.
Defined.

(** ** The error of a refused login, and what [False] means *)

Lemma not_occurs_tail (q : str) c s : ~ occurs q (c :: s) -> ~ occurs q s.
Proof.
  intros H (a & b & ->). apply H. exists (c :: a), b. reflexivity.
Qed.

(** A pattern that does not occur leaves the text as it is. *)
Lemma sub_literal_absent pat repl s :
  pat <> [] -> ~ occurs pat s -> sub_literal pat repl s = s.
Proof.
  intros Hp Hs. rewrite sub_literal_nonempty by exact Hp.
  induction s as [|c s IH]; [reflexivity|].
  destruct (startswith (c :: s) pat) eqn:E.
  - exfalso. apply Hs. apply startswith_true in E as [s' E].
    exists [], s'. exact E.
  - rewrite sub_from_nomatch by exact E. f_equal.
    apply IH. eapply not_occurs_tail. exact Hs.
Qed.

Lemma login_cli_raise_keeps_store env lib creds st e st' :
  login_cli env lib creds st = (Raise e, st') -> kv st' = kv st.
Proof.
  intros H.
  apply login_cli_cases in H as [[-> _] | H]; [reflexivity|].
  destruct H as (app_id & app_pass & sub_id & rt & st1 & _ & _ & _ & Hten & H).
  apply get_tenant_id_frame in Hten as (Hkv1 & _).
  destruct H as [(e' & _ & _ & ->) | (tenant_id & r2 & st2 & _ & Hout & H)];
    [exact Hkv1|].
  apply force_logout_spec in Hout as (Hkv2 & _).
  destruct H as [(e' & _ & _ & ->) | (_ & Hlogin)]; [congruence|].
  apply service_principal_login_spec in Hlogin
    as [(_ & _ & Hkv3 & _) | (a & p & t & _ & _ & _ & _ & Hres)];
    [congruence|].
  destruct Hres as [(Hr & _) | (_ & Hkv3)]; [discriminate | congruence].
Qed.

(** X23. When the error output of a refused login names none of the three
    credentials, the message of the [AzureError] that [login_cli] raises
    is that output, decoded and stripped, word for word. *)
Theorem login_cli_error_verbatim env lib creds st m a p sub_id t rc out err text :
  fst (login_cli env lib creds st) = Raise (AzureError m) ->
  subscript creds (lit "application-id") = Return (VStr a) ->
  subscript creds (lit "application-password") = Return (VStr p) ->
  subscript creds (lit "subscription-id") = Return sub_id ->
  fst (_get_tenant_id env lib sub_id st) = Return (VStr t) ->
  az_tool env (az_calls st ++ [logout_argv]) (login_argv_str a p t)
  = Completed rc out err ->
  decode_utf8 lib err = Some text ->
  re_literal a = true -> re_literal p = true -> re_literal t = true ->
  a <> [] -> p <> [] -> t <> [] ->
  ~ occurs a (strip text) -> ~ occurs p (strip text) -> ~ occurs t (strip text) ->
  m = strip text.
Proof.
  intros Hrun H1 H2 H3 Hten Htool Hde La Lp Lt Na Np Nt Oa Op Ot.
  destruct (login_cli env lib creds st) as [r st'] eqn:H. simpl in Hrun. subst r.
  apply login_cli_cases in H as [[_ [e [He Hsub]]] | H].
  { exfalso. rewrite H1, H2, H3 in Hsub. destruct Hsub as [?|[?|?]]; discriminate. }
  destruct H as (app_id & app_pass & sub_id' & rt & st1 & H1' & H2' & H3' & Hrt & H).
  rewrite H1 in H1'. rewrite H2 in H2'. rewrite H3 in H3'.
  injection H1' as <-. injection H2' as <-. injection H3' as <-.
  rewrite Hrt in Hten. simpl in Hten. subst rt.
  apply get_tenant_id_frame in Hrt as (_ & Hc1 & _).
  destruct H as [(e & He & _) | (tenant_id & r2 & st2 & [= <-] & Hout & H)];
    [discriminate|].
  pose proof (force_logout_not_azure env lib st1 m) as Hna.
  rewrite Hout in Hna. simpl in Hna.
  apply force_logout_spec in Hout as (_ & Hc2 & _). rewrite Hc1 in Hc2.
  destruct H as [(e & -> & [= <-] & _) | (_ & Hlogin)]; [congruence|].
  rewrite service_principal_login_except in Hlogin.
  unfold except_azure, _azure in Hlogin.
  change (argv_of _) with (Some (login_argv_str a p t)) in Hlogin.
  cbn [az_calls add_log] in Hlogin. rewrite Hc2, Htool in Hlogin.
  unfold decode in Hlogin. rewrite Hde in Hlogin.
  destruct (decode_utf8 lib out) as [out_text|]; [|discriminate].
  cbn [or_raise] in Hlogin. cbv beta iota zeta in Hlogin.
  destruct (negb (rc =? 0)).
  - rewrite (raise_redacted_literal lib a p t (strip text) _ La Lp Lt) in Hlogin.
    injection Hlogin as Hm _. unfold redact in Hm.
    rewrite (sub_literal_absent a _ _ Na Oa) in Hm.
    rewrite (sub_literal_absent p _ _ Np Op) in Hm.
    rewrite (sub_literal_absent t _ _ Nt Ot) in Hm.
    congruence.
  - cbv beta iota zeta in Hlogin.
    destruct (truthy (VStr (strip out_text))).
    + destruct (json_loads lib (strip out_text)); discriminate.
    + discriminate.
Qed.

Lemma login_cli_error_verbatim_witness :
  fst (login_cli (TrustRuns.env_trusted TrustRuns.tool_refusing) Sample.lib
         LoginRuns.creds Sample.st0)
  = Raise (AzureError (lit "ERROR: refused"))
  /\ lit "ERROR: refused" = strip (lit "ERROR: refused").
Proof.
  split; [reflexivity|].
  apply (login_cli_error_verbatim (TrustRuns.env_trusted TrustRuns.tool_refusing)
           Sample.lib LoginRuns.creds Sample.st0 (lit "ERROR: refused")
           (lit "1b2c3d4e") (lit "S3cr3t-value") (VStr (lit "sub-1"))
           (lit "72f988bf-86f1") 1 [] (encode (lit "ERROR: refused"))
           (lit "ERROR: refused"));
    try reflexivity; try discriminate;
    apply not_contains_occurs; reflexivity.
Defined.

(** What the first [try] statement of [get_credentials] falls through
    with: one of the two messages, and the store as it was. *)
Lemma credentials_from_trust_falls_through env lib msg st m st1 :
  credentials_from_trust env lib msg st = (Return (inr m), st1) ->
  kv st1 = kv st /\ (m = msg \/ m = MSG_NO_ACCESS).
Proof.
  unfold credentials_from_trust, try_catch, bind, lift, run_credential_get,
    ret, raise, decode.
  destruct (credential_get env) as [rc out err| |name];
    [|intros [= <- <-]; auto|discriminate].
  destruct (negb (rc =? 0)).
  { cbv beta iota.
    destruct (decode_utf8 lib err) as [text|]; cbn [or_raise]; [|discriminate].
    cbv beta iota. destruct (negb (contains _ text)); [discriminate|].
    intros [= <- <-]. auto. }
  cbv beta iota.
  destruct (decode_utf8 lib out) as [text|]; cbn [or_raise]; [|discriminate].
  destruct (yaml_load lib text) as [creds|]; [|discriminate]. cbn [or_raise].
  destruct (subscript creds (lit "credential")) as [c|e] eqn:Hc.
  2: { destruct creds; simpl in Hc; try (injection Hc as <-; discriminate).
       destruct (dict_get d _); [discriminate | injection Hc as <-; discriminate]. }
  destruct (subscript c (lit "attributes")) as [creds_data|e] eqn:Ha.
  2: { destruct c; simpl in Ha; try (injection Ha as <-; discriminate).
       destruct (dict_get d _); [discriminate | injection Ha as <-; discriminate]. }
  destruct (login_cli env lib creds_data st) as [[[]|e] st2] eqn:Hlogin;
    [discriminate|].
  apply login_cli_raise_keeps_store in Hlogin.
  destruct e; try discriminate.
  - intros [= <- <-]. auto.
  - destruct (decode_utf8 lib stderr) as [t|]; cbn [or_raise]; [|discriminate].
    cbv beta iota. destruct (negb (contains _ t)); [discriminate|].
    intros [= <- <-]. auto.
Qed.

(** X25. [get_credentials] returns [False] only with the status blocked
    by one of its three messages, and with the store as it found it. *)
Theorem get_credentials_false env lib st :
  fst (get_credentials env lib st) = Return false ->
  kv (snd (get_credentials env lib st)) = kv st
  /\ (unit_status (snd (get_credentials env lib st)) = Some MSG_NO_CREDS
      \/ unit_status (snd (get_credentials env lib st)) = Some MSG_NO_ACCESS
      \/ unit_status (snd (get_credentials env lib st)) = Some MSG_INVALID_CONFIG).
Proof.
  unfold get_credentials, bind, lift. fold MSG_NO_CREDS.
  destruct (credentials_from_trust env lib MSG_NO_CREDS st) as [[[b|m]|e] st1]
    eqn:Htrust; [|
    |discriminate].
  - unfold ret. simpl. intros [= ->].
    exfalso.
    apply credentials_from_trust_true in Htrust
      as (_ & _ & _ & _ & _ & _ & _ & _ & _ & _ & _ & _ & Hb).
    discriminate Hb.
  - apply credentials_from_trust_falls_through in Htrust as (Hkv & Hm).
    destruct (subscript (VDict (config env)) (lit "credentials")) as [cr|e];
      [|discriminate].
    destruct (truthy cr).
    + rewrite credentials_from_config_fails. intros _. simpl.
      split; [exact Hkv|]. auto.
    + unfold status_blocked, ret. simpl. intros _.
      split; [exact Hkv|]. destruct Hm as [->| ->]; auto.
Qed.

Lemma get_credentials_false_witness :
  kv (snd (get_credentials TrustSample.env_untrusted Sample.lib Sample.st0))
  = kv Sample.st0
  /\ unit_status (snd (get_credentials TrustSample.env_untrusted Sample.lib Sample.st0))
     = Some MSG_NO_ACCESS.
Proof.
  destruct (get_credentials_false TrustSample.env_untrusted Sample.lib Sample.st0)
    as [Hkv _].
  - reflexivity.
  - split; [exact Hkv | reflexivity].
Defined.
